(** * TrustBuild mobile shell: navigation routing and message bridge

    A shallow embedding of [App.tsx] (navigation policy, WebView message
    dispatcher, injected bridge script, script templating) and of
    [src/services/storage.ts] / [src/services/notifications.ts] as far as the
    dispatcher calls into them.

    Platform functions the TypeScript code calls but does not define
    ([new URL], [JSON.parse], the native key-value stores, [fetch]) are
    fields of a [Platform] record over which every theorem is quantified. *)

From Stdlib Require Import Ascii String.
From stdpp Require Import base option list strings gmap.

Local Open Scope string_scope.
Set Warnings "-register-all".

(** ** JavaScript string primitives used by the sources *)

Module JSString.

(** [s.startsWith(searchString)] *)
Fixpoint startsWith (s searchString : string) {struct searchString} : bool :=
  match searchString with
  | EmptyString => true
  | String c p =>
      match s with
      | EmptyString => false
      | String d r => if Ascii.eqb d c then startsWith r p else false
      end
  end.

(** [s.endsWith(searchString)]: [s] is [searchString] itself, or what
    follows its first code unit ends with [searchString]. *)
Fixpoint endsWith (s searchString : string) : bool :=
  if String.eqb s searchString then true
  else match s with
       | EmptyString => false
       | String _ r => endsWith r searchString
       end.

(** [s.replace(/^www\./, '')], in the TypeScript code proper *)
Definition stripWww (s : string) : string :=
  match s with
  | String "w" (String "w" (String "w" (String "." r))) => r
  | _ => s
  end.

(** Truthiness of a string: only the empty string is falsy. *)
Definition truthy (s : string) : bool := negb (String.eqb s "").

End JSString.
Import JSString.

(** ** JSON values, as [JSON.parse] returns them

    A number is kept as the text [Number.prototype.toString] gives for it
    (the only observations the shell makes of a number are its truthiness and
    its interpolation into a template literal). *)

Inductive JSON : Type :=
| JNull
| JBool (b : bool)
| JNumber (repr : string)
| JString (s : string)
| JArray (items : list JSON)
| JObject (fields : list (string * JSON)).

Module JS.

(** [ToBoolean] *)
Definition truthy (v : JSON) : bool :=
  match v with
  | JNull => false
  | JBool b => b
  | JNumber r => negb (String.eqb r "0")
  | JString s => JSString.truthy s
  | JArray _ | JObject _ => true
  end.

(** Own property of an object literal produced by [JSON.parse]; of two
    members with one name the later one wins. *)
Definition ownProp (fields : list (string * JSON)) (k : string) : option JSON :=
  fold_left (fun acc kv => if String.eqb (fst kv) k then Some (snd kv) else acc)
            fields None.

(** [v.k] for a value [v] that is neither [null] nor [undefined], and a
    key among [type], [payload], [token], [url], [text] (none of which is a
    property of a primitive wrapper or of [Array.prototype]).
    [None] is [undefined]. *)
Definition getProp (v : JSON) (k : string) : option JSON :=
  match v with
  | JObject fields => ownProp fields k
  | _ => None
  end.

(** [v?.k] where [v] itself may be [undefined] ([None]) or [null]. *)
Definition optChain (v : option JSON) (k : string) : option JSON :=
  match v with
  | None | Some JNull => None
  | Some w => getProp w k
  end.

(** Truthiness of a possibly-undefined value. *)
Definition truthy_opt (v : option JSON) : bool :=
  match v with
  | None => false
  | Some w => truthy w
  end.

Fixpoint joinWith (sep : string) (l : list string) : string :=
  match l with
  | [] => ""
  | [x] => x
  | x :: r => x +:+ sep +:+ joinWith sep r
  end.

(** Whether [String(v)] throws. An object [JSON.parse] produced converts
    through [Object.prototype.toString], unless it has a member of its own
    named [toString]: no JSON value is callable, so the conversion finds no
    method that returns a primitive (an own [valueOf] is not callable either,
    the inherited one returns the object) and throws a TypeError. An array
    converts its elements in turn, [null] apart. *)
Fixpoint toStringThrows (v : JSON) : bool :=
  match v with
  | JArray items =>
      (fix any (l : list JSON) : bool :=
         match l with
         | [] => false
         | x :: r => toStringThrows x || any r
         end) items
  | JObject fields =>
      match ownProp fields "toString" with
      | Some _ => true
      | None => false
      end
  | _ => false
  end.

(** [String(v)], the conversion a template literal applies, for a value
    on which it does not throw. *)
Fixpoint toString (v : JSON) : string :=
  match v with
  | JNull => "null"
  | JBool true => "true"
  | JBool false => "false"
  | JNumber r => r
  | JString s => s
  | JArray items =>
      joinWith ","
        ((fix each (l : list JSON) : list string :=
            match l with
            | [] => []
            | JNull :: r => "" :: each r
            | x :: r => toString x :: each r
            end) items)
  | JObject _ => "[object Object]"
  end.

End JS.

(** ** Observable effects of the shell *)

Inductive Effect : Type :=
| ConsoleLog (msg : string)
| ConsoleWarn (msg : string)
| ConsoleError (msg : string)
| LinkingOpenURL (url : JSON)                (* RNLinking.openURL(url) *)
| InjectJavaScript (script : string)         (* webViewRef.current.injectJavaScript *)
| Fetch (url bearer pushToken : string)      (* POST /users/me/push-token *)
| NativeShare (payload : JSON).              (* the OS share sheet *)

Definition isLogging (e : Effect) : bool :=
  match e with
  | ConsoleLog _ | ConsoleWarn _ | ConsoleError _ => true
  | _ => false
  end.

Definition isOpenURL (e : Effect) : bool :=
  match e with
  | LinkingOpenURL _ => true
  | _ => false
  end.

(** ** config.ts *)

Record Config : Type := {
  webAppUrl : string;
  apiUrl : string;
  scheme : string
}.

Definition config (__DEV__ : bool) : Config :=
  {| webAppUrl := if __DEV__ then "http://localhost:3000" else "https://trustbuild.uk";
     apiUrl := if __DEV__ then "http://localhost:3001" else "https://api.trustbuild.uk";
     scheme := "trustbuild" |}.

(** ** The platform *)

Record URL : Type := {
  protocol : string;
  hostname : string
}.

Inductive FetchOutcome : Type := FetchOk | FetchNotOk | FetchThrows.

Record Platform : Type := {
  (** [new URL(s)]; [None] when the constructor throws *)
  URL_parse : string -> option URL;
  (** [new URL(s, base)] *)
  URL_parse_base : string -> string -> option URL;
  (** [JSON.parse(s)]; [None] when it throws *)
  JSON_parse : string -> option JSON;
  (** native store calls that reject, by key *)
  SecureStore_setItem_rejects : string -> bool;
  SecureStore_getItem_rejects : string -> bool;
  SecureStore_deleteItem_rejects : string -> bool;
  AsyncStorage_getItem_rejects : string -> bool;
  AsyncStorage_multiRemove_rejects : bool;
  fetch_outcome : FetchOutcome
}.

(** ** Navigation policy: [shouldStartLoadWithRequest] *)

Section Navigation.

Variable pf : Platform.
Variable cfg : Config.

(** The body of the [try] block once the three URLs are parsed: [true]
    when one of its four [return true] statements is reached. *)
Definition allowedInWebView (requestUrl appUrl apiUrl : URL) : bool :=
  let appDomain := stripWww (hostname appUrl) in
  let apiDomain := stripWww (hostname apiUrl) in
  let requestDomain := stripWww (hostname requestUrl) in
  if String.eqb requestDomain appDomain
     || endsWith requestDomain ("." +:+ appDomain)
     || String.eqb requestDomain apiDomain
     || endsWith requestDomain ("." +:+ apiDomain)
  then true
  else if String.eqb (hostname requestUrl) "localhost"
          || String.eqb (hostname requestUrl) "127.0.0.1"
  then true
  else if String.eqb requestDomain "js.stripe.com"
          || String.eqb requestDomain "checkout.stripe.com"
          || endsWith requestDomain ".stripe.com"
          || String.eqb requestDomain "stripe.com"
  then true
  else if String.eqb requestDomain "accounts.google.com"
          || endsWith requestDomain ".google.com"
  then true
  else false.

(** The value returned to the WebView, with the effects performed. *)
Definition shouldStartLoadWithRequest (url : string) : bool * list Effect :=
  if startsWith url "about:" || startsWith url "blob:" || startsWith url "data:"
  then (true, [])
  else if startsWith url "tel:" || startsWith url "mailto:" || startsWith url "sms:"
  then (false, [LinkingOpenURL (JString url)])
  else
    match URL_parse pf url, URL_parse pf (webAppUrl cfg), URL_parse pf (apiUrl cfg) with
    | Some requestUrl, Some appUrl, Some apiUrl =>
        if allowedInWebView requestUrl appUrl apiUrl then (true, [])
        else if startsWith url "http://" || startsWith url "https://"
        then (false, [LinkingOpenURL (JString url)])
        else (true, [])
    | _, _, _ => (true, [ConsoleWarn "Failed to parse URL:"])
    end.

End Navigation.

(** Routing decisions, read off the returned pair. *)
Inductive RoutingDecision : Type := LOAD_INTERNAL | DELEGATE_EXTERNAL.

Definition decision (r : bool * list Effect) : option RoutingDecision :=
  match r with
  | (true, effs) => if forallb (fun e => negb (isOpenURL e)) effs
                    then Some LOAD_INTERNAL else None
  | (false, [LinkingOpenURL _]) => Some DELEGATE_EXTERNAL
  | _ => None
  end.

(** ** The shell's state and its small effect monad

    A handler is a function from the shell state to an outcome ([None] when
    an exception escapes), the new state and the effects performed, in
    order. *)

Record Shell : Type := {
  secureStore : gmap string string;      (* expo-secure-store *)
  asyncStorage : gmap string string;     (* AsyncStorage *)
  authToken : option JSON;               (* the [authToken] state; [None] is [null] *)
  webViewRef_current : bool              (* webViewRef.current is set *)
}.

Definition set_secureStore (f : gmap string string -> gmap string string) (s : Shell) : Shell :=
  {| secureStore := f (secureStore s); asyncStorage := asyncStorage s;
     authToken := authToken s; webViewRef_current := webViewRef_current s |}.

Definition set_asyncStorage (f : gmap string string -> gmap string string) (s : Shell) : Shell :=
  {| secureStore := secureStore s; asyncStorage := f (asyncStorage s);
     authToken := authToken s; webViewRef_current := webViewRef_current s |}.

Definition set_authToken (t : option JSON) (s : Shell) : Shell :=
  {| secureStore := secureStore s; asyncStorage := asyncStorage s;
     authToken := t; webViewRef_current := webViewRef_current s |}.

Definition M (A : Type) : Type := Shell -> option A * Shell * list Effect.

Module Eff.

Definition ret {A} (a : A) : M A := fun s => (Some a, s, []).

Definition bind {A B} (m : M A) (k : A -> M B) : M B :=
  fun s =>
    match m s with
    | (Some a, s1, t1) =>
        match k a s1 with
        | (r, s2, t2) => (r, s2, (t1 ++ t2)%list)
        end
    | (None, s1, t1) => (None, s1, t1)
    end.

(** [throw] *)
Definition throw {A} : M A := fun s => (None, s, []).

(** [try { m } catch (error) { handler }] *)
Definition try_catch {A} (m handler : M A) : M A :=
  fun s =>
    match m s with
    | (Some a, s1, t1) => (Some a, s1, t1)
    | (None, s1, t1) =>
        match handler s1 with
        | (r, s2, t2) => (r, s2, (t1 ++ t2)%list)
        end
    end.

Definition emit (e : Effect) : M unit := fun s => (Some tt, s, [e]).
Definition get : M Shell := fun s => (Some s, s, []).
Definition modify (f : Shell -> Shell) : M unit := fun s => (Some tt, f s, []).

End Eff.

#[global] Instance M_ret : MRet M := @Eff.ret.
#[global] Instance M_bind : MBind M := fun A B k m => Eff.bind m k.

Definition outcome {A} (r : option A * Shell * list Effect) : option A := fst (fst r).
Definition final {A} (r : option A * Shell * list Effect) : Shell := snd (fst r).
Definition effects {A} (r : option A * Shell * list Effect) : list Effect := snd r.

(** ** src/services/storage.ts and the native stores beneath it *)

Definition AUTH_TOKEN_KEY : string := "auth_token".
Definition REFRESH_TOKEN_KEY : string := "refresh_token".
Definition USER_DATA_KEY : string := "user_data".
Definition PUSH_TOKEN_KEY : string := "push_token".

Section Storage.

Variable pf : Platform.

(** [SecureStore.setItemAsync(key, value)]: the store holds strings only
    and rejects any other value; it may also reject for a reason of its
    own ([SecureStore_setItem_rejects]). *)
Definition SecureStore_setItemAsync (key : string) (value : JSON) : M unit :=
  match value with
  | JString v =>
      if SecureStore_setItem_rejects pf key then Eff.throw
      else Eff.modify (set_secureStore (insert key v))
  | _ => Eff.throw
  end.

Definition SecureStore_getItemAsync (key : string) : M (option string) :=
  if SecureStore_getItem_rejects pf key then Eff.throw
  else s ← Eff.get; mret (secureStore s !! key).

Definition SecureStore_deleteItemAsync (key : string) : M unit :=
  if SecureStore_deleteItem_rejects pf key then Eff.throw
  else Eff.modify (set_secureStore (delete key)).

Definition AsyncStorage_getItem (key : string) : M (option string) :=
  if AsyncStorage_getItem_rejects pf key then Eff.throw
  else s ← Eff.get; mret (asyncStorage s !! key).

Definition AsyncStorage_multiRemove (keys : list string) : M unit :=
  if AsyncStorage_multiRemove_rejects pf then Eff.throw
  else Eff.modify (set_asyncStorage (fun m => foldr delete m keys)).

(** [Promise.all([p1, p2])] of two calls already started: both run; the
    result rejects when either of them rejected. *)
Definition Promise_all2 (p1 p2 : M unit) : M unit :=
  fun s =>
    match p1 s with
    | (r1, s1, t1) =>
        match p2 s1 with
        | (r2, s2, t2) =>
            (match r1, r2 with Some _, Some _ => Some tt | _, _ => None end,
             s2, (t1 ++ t2)%list)
        end
    end.

Definition secureStorage_setAuthToken (token : JSON) : M unit :=
  Eff.try_catch
    (SecureStore_setItemAsync AUTH_TOKEN_KEY token)
    (Eff.emit (ConsoleError "Failed to save auth token:") ;; Eff.throw).

Definition secureStorage_getAuthToken : M (option string) :=
  Eff.try_catch
    (SecureStore_getItemAsync AUTH_TOKEN_KEY)
    (Eff.emit (ConsoleError "Failed to get auth token:") ;; mret None).

Definition secureStorage_clearAll : M unit :=
  Eff.try_catch
    (Promise_all2 (SecureStore_deleteItemAsync AUTH_TOKEN_KEY)
                  (SecureStore_deleteItemAsync REFRESH_TOKEN_KEY))
    (Eff.emit (ConsoleError "Failed to clear secure storage:")).

Definition appStorage_getPushToken : M (option string) :=
  Eff.try_catch
    (AsyncStorage_getItem PUSH_TOKEN_KEY)
    (Eff.emit (ConsoleError "Failed to get push token:") ;; mret None).

Definition appStorage_clearAll : M unit :=
  Eff.try_catch
    (AsyncStorage_multiRemove [USER_DATA_KEY; PUSH_TOKEN_KEY])
    (Eff.emit (ConsoleError "Failed to clear app storage:")).

End Storage.

(** ** src/services/notifications.ts: [sendPushTokenToServer] *)

Section Notifications.

Variable pf : Platform.
Variable cfg : Config.

Definition sendPushTokenToServer (pushToken : string) : M bool :=
  Eff.try_catch
    (tok ← secureStorage_getAuthToken pf;
     match tok with
     | Some t =>
         if JSString.truthy t then
           Eff.emit (Fetch (apiUrl cfg +:+ "/users/me/push-token") t pushToken) ;;
           match fetch_outcome pf with
           | FetchThrows => Eff.throw
           | FetchNotOk =>
               Eff.emit (ConsoleError "Failed to register push token with server") ;;
               mret false
           | FetchOk =>
               Eff.emit (ConsoleLog "Push token registered with server") ;;
               mret true
           end
         else
           Eff.emit (ConsoleLog "No auth token, skipping push token registration") ;;
           mret false
     | None =>
         Eff.emit (ConsoleLog "No auth token, skipping push token registration") ;;
         mret false
     end)
    (Eff.emit (ConsoleError "Error sending push token to server:") ;; mret false).

End Notifications.

(** ** App.tsx: script templates

    The two template literals whose holes are filled with run-time values. *)

Definition tokenScript_prefix : string := "
        try {
          localStorage.setItem('auth_token', '".

Definition tokenScript_suffix : string := "');
          console.log('Auth token injected from mobile app');
        } catch (e) {
          console.error('Failed to inject auth token:', e);
        }
      ".

(** The script [handleLoadEnd] injects for a token mirror [authToken]. *)
Definition tokenScript (authToken : JSON) : string :=
  tokenScript_prefix +:+ JS.toString authToken +:+ tokenScript_suffix.

Definition navigateScript_prefix : string := "window.location.href = '".

(** The script the [NAVIGATE] case injects for [payload.url]. *)
Definition navigateScript (url : JSON) : string :=
  navigateScript_prefix +:+ JS.toString url +:+ "'".

(** ** App.tsx: [handleWebViewMessage] and [handleLoadEnd] *)

(** The [catch] of [handleWebViewMessage]. *)
Definition onParseError : M unit :=
  Eff.emit (ConsoleError "Failed to parse WebView message:").

Section Dispatcher.

Variable pf : Platform.
Variable cfg : Config.

Definition case_AUTH_TOKEN (message : JSON) : M unit :=
  let token := JS.optChain (JS.getProp message "payload") "token" in
  match token with
  | Some tok =>
      if JS.truthy tok then
        secureStorage_setAuthToken pf tok ;;
        Eff.modify (set_authToken (Some tok)) ;;
        pushToken ← appStorage_getPushToken pf;
        match pushToken with
        | Some p =>
            if JSString.truthy p
            then sendPushTokenToServer pf cfg p ;; mret tt
            else mret tt
        | None => mret tt
        end
      else mret tt
  | None => mret tt
  end.

(** What follows the mirror update in the AUTH_TOKEN arm, on its own. *)
Definition associatePushToken : M unit :=
  pushToken ← appStorage_getPushToken pf;
  match pushToken with
  | Some p =>
      if JSString.truthy p
      then sendPushTokenToServer pf cfg p ;; mret tt
      else mret tt
  | None => mret tt
  end.

Definition case_LOGOUT : M unit :=
  secureStorage_clearAll pf ;;
  appStorage_clearAll pf ;;
  Eff.modify (set_authToken None).

Definition case_SHARE (message : JSON) : M unit :=
  let payload := JS.getProp message "payload" in
  if JS.truthy_opt (JS.optChain payload "url")
     || JS.truthy_opt (JS.optChain payload "text")
  then
    (* Share functionality would go here *)
    Eff.emit (ConsoleLog "Share requested:")
  else mret tt.

Definition case_OPEN_EXTERNAL (message : JSON) : M unit :=
  match JS.optChain (JS.getProp message "payload") "url" with
  | Some url => if JS.truthy url then Eff.emit (LinkingOpenURL url) else mret tt
  | None => mret tt
  end.

Definition case_NAVIGATE (message : JSON) : M unit :=
  match JS.optChain (JS.getProp message "payload") "url" with
  | Some url =>
      s ← Eff.get;
      if JS.truthy url && webViewRef_current s
      then if JS.toStringThrows url then Eff.throw
           else Eff.emit (InjectJavaScript (navigateScript url))
      else mret tt
  | None => mret tt
  end.

(** The [switch (message.type)], which compares with [===]; reading
    [.type] of [null] throws. *)
Definition switch_type (message : JSON) : M unit :=
  match message with
  | JNull => Eff.throw
  | _ =>
      match JS.getProp message "type" with
      | Some (JString type) =>
          if String.eqb type "AUTH_TOKEN" then case_AUTH_TOKEN message
          else if String.eqb type "LOGOUT" then case_LOGOUT
          else if String.eqb type "SHARE" then case_SHARE message
          else if String.eqb type "OPEN_EXTERNAL" then case_OPEN_EXTERNAL message
          else if String.eqb type "NAVIGATE" then case_NAVIGATE message
          else Eff.emit (ConsoleLog "Unknown message type:")
      | _ => Eff.emit (ConsoleLog "Unknown message type:")
      end
  end.

(** [handleWebViewMessage(event)] with [data = event.nativeEvent.data]. *)
Definition handleWebViewMessage (data : string) : M unit :=
  Eff.try_catch
    (match JSON_parse pf data with
     | Some message => switch_type message
     | None => Eff.throw
     end)
    onParseError.

(** [handleLoadEnd]: the token re-injection (the loading and error flags
    and the splash screen are presentation state, not part of [Shell]). The
    function has no [try]: a mirror the template literal cannot convert
    makes it reject. *)
Definition handleLoadEnd : M unit :=
  s ← Eff.get;
  match authToken s with
  | Some tok =>
      if JS.truthy tok && webViewRef_current s
      then if JS.toStringThrows tok then Eff.throw
           else Eff.emit (InjectJavaScript (tokenScript tok))
      else mret tt
  | None => mret tt
  end.

End Dispatcher.

(** The message kinds the [switch] has a case for. *)
Definition knownTypes : list string :=
  ["AUTH_TOKEN"; "LOGOUT"; "SHARE"; "OPEN_EXTERNAL"; "NAVIGATE"].

(** [message.type] is one of the known kinds (a string equal to one). *)
Definition hasKnownType (message : JSON) : Prop :=
  exists k, In k knownTypes /\ JS.getProp message "type" = Some (JString k).

(** ** Reading back a single-quoted JavaScript string literal

    What the embedded page's JavaScript engine makes of the text between the
    quotes of ['...'] (ECMAScript, StringLiteral). [readSingleQuoted text]
    takes the text that follows the opening quote and returns the string
    value with the text that follows the closing quote; [None] is a syntax
    error (or an escape this reader does not cover: [\x], [\u], digits). *)

Module JSLit.

Definition LF : ascii := "010"%char.
Definition CR : ascii := "013"%char.

(** The value of [\e]: [Some (Some c)] one character, [Some None] a line
    continuation, [None] not covered. *)
Definition escape (e : ascii) : option (option ascii) :=
  if Ascii.eqb e "b" then Some (Some "008"%char)
  else if Ascii.eqb e "t" then Some (Some "009"%char)
  else if Ascii.eqb e "n" then Some (Some "010"%char)
  else if Ascii.eqb e "v" then Some (Some "011"%char)
  else if Ascii.eqb e "f" then Some (Some "012"%char)
  else if Ascii.eqb e "r" then Some (Some "013"%char)
  else if Ascii.eqb e LF || Ascii.eqb e CR then Some None
  else if Ascii.eqb e "x" || Ascii.eqb e "u" then None
  else if Nat.leb 48 (nat_of_ascii e) && Nat.leb (nat_of_ascii e) 57 then None
  else Some (Some e).

Definition consValue (c : ascii) (r : option (string * string)) : option (string * string) :=
  match r with
  | Some (v, rest) => Some (String c v, rest)
  | None => None
  end.

Fixpoint readSingleQuoted (text : string) : option (string * string) :=
  match text with
  | EmptyString => None
  | String c r =>
      if Ascii.eqb c "'" then Some ("", r)
      else if Ascii.eqb c LF || Ascii.eqb c CR then None
      else if Ascii.eqb c "\" then
        match r with
        | EmptyString => None
        | String e r' =>
            match escape e with
            | Some (Some ch) => consValue ch (readSingleQuoted r')
            | Some None =>
                (* a line continuation; CR LF is one line terminator *)
                match r' with
                | String l r'' =>
                    if Ascii.eqb e CR && Ascii.eqb l LF then readSingleQuoted r''
                    else readSingleQuoted r'
                | EmptyString => None
                end
            | None => None
            end
        end
      else consValue c (readSingleQuoted r)
  end.

(** [stripPrefix p s]: what follows [p] in [s]. *)
Fixpoint stripPrefix (p s : string) : option string :=
  match p with
  | EmptyString => Some s
  | String c p' =>
      match s with
      | EmptyString => None
      | String d s' => if Ascii.eqb c d then stripPrefix p' s' else None
      end
  end.

(** The statement [localStorage.setItem('k', 'v');] at the head of
    [text]: the key, the value and the text after the semicolon. *)
Definition readSetItemCall (text : string) : option (string * string * string) :=
  match stripPrefix "localStorage.setItem('" text with
  | Some t1 =>
      match readSingleQuoted t1 with
      | Some (k, t2) =>
          match stripPrefix ", '" t2 with
          | Some t3 =>
              match readSingleQuoted t3 with
              | Some (v, t4) =>
                  match stripPrefix ");" t4 with
                  | Some rest => Some (k, v, rest)
                  | None => None
                  end
              | None => None
              end
          | None => None
          end
      | None => None
      end
  | None => None
  end.

(** The statement [window.location.href = 'v'] making up the whole of
    [text]: the value assigned. *)
Definition readHrefAssignment (text : string) : option string :=
  match stripPrefix "window.location.href = '" text with
  | Some t1 =>
      match readSingleQuoted t1 with
      | Some (v, EmptyString) => Some v
      | _ => None
      end
  | None => None
  end.

(** No character of [s] needs escaping inside ['...']. *)
Fixpoint plain (s : string) : bool :=
  match s with
  | EmptyString => true
  | String c r =>
      negb (Ascii.eqb c "'" || Ascii.eqb c "\" || Ascii.eqb c LF || Ascii.eqb c CR)
      && plain r
  end.

End JSLit.

(** What the script injected on load-end stores: the statement that
    follows [try {] in the generated text, read back. *)
Definition tokenScript_lead : string := "
        try {
          ".

Definition tokenScript_stores (script : string) : option (string * string) :=
  match JSLit.stripPrefix tokenScript_lead script with
  | Some body =>
      match JSLit.readSetItemCall body with
      | Some (k, v, _) => Some (k, v)
      | None => None
      end
  | None => None
  end.

(** ** App.tsx: the injected bridge script, run inside the page

    The page's execution context holds the current values of
    [localStorage.setItem], [localStorage.removeItem] and [window.open].
    Each is either the browser's own function or a closure the script
    created around the value it found ([originalSetItem], [originalRemoveItem],
    [originalOpen]). The script's assignments to [localStorage.setItem],
    [localStorage.removeItem] and [window.open] are ordinary property
    assignments: the next read of the property yields the assigned closure. *)

Module Bridge.

Inductive SetItemFn : Type :=
| nativeSetItem
| wrappedSetItem (originalSetItem : SetItemFn).

Inductive RemoveItemFn : Type :=
| nativeRemoveItem
| wrappedRemoveItem (originalRemoveItem : RemoveItemFn).

Inductive OpenFn : Type :=
| nativeOpen
| wrappedOpen (originalOpen : OpenFn).

Record Page : Type := {
  location_hostname : string;
  location_origin : string;
  localStorage : gmap string string;
  setItem : SetItemFn;
  removeItem : RemoveItemFn;
  window_open : OpenFn;
  clickListeners : nat;          (* capturing click listeners added *)
  TrustBuildMobile : bool        (* window.TrustBuildMobile is defined *)
}.

Inductive PageEffect : Type :=
| PostMessage (envelope : JSON)        (* ReactNativeWebView.postMessage(JSON.stringify(envelope)) *)
| SetLocationHref (url : string)       (* window.location.href = url *)
| NativeOpen (url : option string)     (* the browser's own window.open *)
| ReadyEvent                           (* trustbuild-mobile-ready *)
| PageWarn (msg : string)
| PageLog (msg : string).

(** [{ type, payload }] *)
Definition envelope (type : string) (payload : JSON) : JSON :=
  JObject [("type", JString type); ("payload", payload)].

Definition sendMessage (type : string) (payload : JSON) : PageEffect :=
  PostMessage (envelope type payload).

Definition with_localStorage (f : gmap string string -> gmap string string) (p : Page) : Page :=
  {| location_hostname := location_hostname p; location_origin := location_origin p;
     localStorage := f (localStorage p);
     setItem := setItem p; removeItem := removeItem p; window_open := window_open p;
     clickListeners := clickListeners p; TrustBuildMobile := TrustBuildMobile p |}.

(** Calling a [setItem] value with [(key, value)]. *)
Fixpoint call_setItem (f : SetItemFn) (key value : string) (p : Page)
  : Page * list PageEffect :=
  match f with
  | nativeSetItem => (with_localStorage (insert key value) p, [])
  | wrappedSetItem originalSetItem =>
      let sent :=
        if String.eqb key "auth_token"
        then [sendMessage "AUTH_TOKEN" (JObject [("token", JString value)])]
        else [] in
      match call_setItem originalSetItem key value p with
      | (p', t) => (p', (sent ++ t)%list)
      end
  end.

(** Calling a [removeItem] value with [key]. *)
Fixpoint call_removeItem (f : RemoveItemFn) (key : string) (p : Page)
  : Page * list PageEffect :=
  match f with
  | nativeRemoveItem => (with_localStorage (delete key) p, [])
  | wrappedRemoveItem originalRemoveItem =>
      let sent :=
        if String.eqb key "auth_token"
        then [sendMessage "LOGOUT" (JObject [])]
        else [] in
      match call_removeItem originalRemoveItem key p with
      | (p', t) => (p', (sent ++ t)%list)
      end
  end.

(** [s.replace(/^www./, '')], the replacement as the page's engine runs it.
    The script is itself a template literal of App.tsx, and in a template
    literal the escape [\.] of the source text [/^www\./] stands for a plain
    dot: the pattern the page receives ends in a dot that matches any
    character but a line terminator. (Host names are ASCII, so that a
    character is one code unit.) *)
Definition stripWwwChar (s : string) : string :=
  match s with
  | String "w" (String "w" (String "w" (String c r))) =>
      if Ascii.eqb c JSLit.LF || Ascii.eqb c JSLit.CR then s else r
  | _ => s
  end.

Section Open.

Variable pf : Platform.

(** The test of the script's [window.open] on a parsed target. *)
Definition staysInWebView (p : Page) (urlObj : URL) : bool :=
  let currentHost := stripWwwChar (location_hostname p) in
  let targetHost := stripWwwChar (hostname urlObj) in
  String.eqb targetHost currentHost
  || endsWith targetHost ("." +:+ currentHost)
  || endsWith targetHost ".stripe.com"
  || String.eqb targetHost "stripe.com".

(** Calling a [window.open] value with [url] ([None] when the argument
    is [undefined] or [null]); the effects of the call. *)
Fixpoint call_open (f : OpenFn) (url : option string) (p : Page) : list PageEffect :=
  match f with
  | nativeOpen => [NativeOpen url]
  | wrappedOpen originalOpen =>
      match url with
      | Some u =>
          if JSString.truthy u then
            match URL_parse_base pf u (location_origin p) with
            | Some urlObj =>
                if staysInWebView p urlObj then [SetLocationHref u]
                else [sendMessage "OPEN_EXTERNAL" (JObject [("url", JString u)])]
            | None =>
                [PageWarn "Failed to parse URL in window.open:";
                 sendMessage "OPEN_EXTERNAL" (JObject [("url", JString u)])]
            end
          else call_open originalOpen url p
      | None => call_open originalOpen url p
      end
  end.

End Open.

(** One execution of the injected script in the page [p]. *)
Definition runScript (p : Page) : Page * list PageEffect :=
  ({| location_hostname := location_hostname p; location_origin := location_origin p;
      localStorage := localStorage p;
      setItem := wrappedSetItem (setItem p);
      removeItem := wrappedRemoveItem (removeItem p);
      window_open := wrappedOpen (window_open p);
      clickListeners := S (clickListeners p);
      TrustBuildMobile := true |},
   [ReadyEvent; PageLog "TrustBuild Mobile bridge initialized"]).

(** [n] executions in one execution context. *)
Fixpoint runScriptTimes (n : nat) (p : Page) : Page :=
  match n with
  | O => p
  | S k => fst (runScript (runScriptTimes k p))
  end.

(** A context the script has not run in. *)
Definition freshPage (host origin : string) (store : gmap string string) : Page :=
  {| location_hostname := host; location_origin := origin; localStorage := store;
     setItem := nativeSetItem; removeItem := nativeRemoveItem; window_open := nativeOpen;
     clickListeners := 0; TrustBuildMobile := false |}.

(** [localStorage.setItem(key, value)] as the page calls it. *)
Definition page_setItem (key value : string) (p : Page) : Page * list PageEffect :=
  call_setItem (setItem p) key value p.

Definition page_removeItem (key : string) (p : Page) : Page * list PageEffect :=
  call_removeItem (removeItem p) key p.

Definition page_open (pf : Platform) (url : option string) (p : Page) : list PageEffect :=
  call_open pf (window_open p) url p.

(** The envelopes posted to the shell, in order. *)
Definition posted (t : list PageEffect) : list JSON :=
  omap (fun e => match e with PostMessage v => Some v | _ => None end) t.

End Bridge.

(** ** A reference platform

    Executable stand-ins for the platform functions, used to run the model
    on concrete inputs. [new URL] is covered for [scheme://host[:port]...]
    and [scheme:rest]; [JSON.parse] for [null], booleans, integers, strings
    with the one-character escapes, arrays and objects. *)

Module Reference.

Definition isAlpha (c : ascii) : bool :=
  let n := nat_of_ascii c in
  (Nat.leb 65 n && Nat.leb n 90) || (Nat.leb 97 n && Nat.leb n 122).

Definition isDigit (c : ascii) : bool :=
  let n := nat_of_ascii c in Nat.leb 48 n && Nat.leb n 57.

Definition toLower (c : ascii) : ascii :=
  let n := nat_of_ascii c in
  if Nat.leb 65 n && Nat.leb n 90 then ascii_of_nat (n + 32) else c.

Fixpoint mapString (f : ascii -> ascii) (s : string) : string :=
  match s with
  | EmptyString => EmptyString
  | String c r => String (f c) (mapString f r)
  end.

Fixpoint allString (f : ascii -> bool) (s : string) : bool :=
  match s with
  | EmptyString => true
  | String c r => f c && allString f r
  end.

(** The text before the first character satisfying [stop], and the text
    from that character on. *)
Fixpoint splitAt (stop : ascii -> bool) (s : string) : string * string :=
  match s with
  | EmptyString => (EmptyString, EmptyString)
  | String c r =>
      if stop c then (EmptyString, s)
      else match splitAt stop r with
           | (a, b) => (String c a, b)
           end
  end.

Definition parseURL (s : string) : option URL :=
  match splitAt (Ascii.eqb ":") s with
  | (sch, String _ rest) =>
      if String.eqb sch "" || negb (allString isAlpha sch) then None
      else
        let proto := mapString toLower sch +:+ ":" in
        match rest with
        | String "/" (String "/" r2) =>
            let authority :=
              fst (splitAt (fun c => Ascii.eqb c "/" || Ascii.eqb c "?" || Ascii.eqb c "#") r2) in
            let host := fst (splitAt (Ascii.eqb ":") authority) in
            if String.eqb host ""
               || negb (allString (fun c => negb (Ascii.eqb c "@" || Ascii.eqb c " ")) host)
            then None
            else Some {| protocol := proto; hostname := mapString toLower host |}
        | _ => Some {| protocol := proto; hostname := "" |}
        end
  | _ => None
  end.

(** A reference that is not absolute resolves against the base. *)
Definition parseURLBase (s base : string) : option URL :=
  match parseURL s with
  | Some u => Some u
  | None => parseURL base
  end.

Definition dquote : ascii := "034"%char.

(** [s] between double quotes, for writing JSON text. *)
Definition quoted (s : string) : string := String dquote (s +:+ String dquote "").

Definition isWs (c : ascii) : bool :=
  Ascii.eqb c " " || Ascii.eqb c "009"%char || Ascii.eqb c "010"%char || Ascii.eqb c "013"%char.

Fixpoint skipWs (s : string) : string :=
  match s with
  | String c r => if isWs c then skipWs r else s
  | EmptyString => s
  end.

Definition consStr (c : ascii) (r : option (string * string)) : option (string * string) :=
  match r with
  | Some (v, rest) => Some (String c v, rest)
  | None => None
  end.

(** The characters of a JSON string, after its opening quote. *)
Fixpoint readString (s : string) : option (string * string) :=
  match s with
  | EmptyString => None
  | String c r =>
      if Ascii.eqb c dquote then Some (EmptyString, r)
      else if Ascii.eqb c "\" then
        match r with
        | String e r' =>
            if Ascii.eqb e dquote || Ascii.eqb e "\" || Ascii.eqb e "/"
            then consStr e (readString r')
            else if Ascii.eqb e "b" then consStr "008"%char (readString r')
            else if Ascii.eqb e "f" then consStr "012"%char (readString r')
            else if Ascii.eqb e "n" then consStr "010"%char (readString r')
            else if Ascii.eqb e "r" then consStr "013"%char (readString r')
            else if Ascii.eqb e "t" then consStr "009"%char (readString r')
            else None
        | EmptyString => None
        end
      else if Nat.ltb (nat_of_ascii c) 32 then None
      else consStr c (readString r)
  end.

(** An integer: the digits, and the text after them. *)
Definition readInt (s : string) : option (string * string) :=
  let neg := match s with String "-" _ => true | _ => false end in
  let body := match s with String "-" r => r | _ => s end in
  match splitAt (fun c => negb (isDigit c)) body with
  | (EmptyString, _) => None
  | (String "0" (String _ _), _) => None
  | (digits, rest) =>
      match rest with
      | String "." _ | String "e" _ | String "E" _ => None
      | _ => Some (if neg && negb (String.eqb digits "0") then String "-" digits else digits, rest)
      end
  end.

Fixpoint readValue (fuel : nat) (s : string) : option (JSON * string) :=
  match fuel with
  | O => None
  | S n =>
      match skipWs s with
      | String "[" r =>
          match skipWs r with
          | String "]" r' => Some (JArray [], r')
          | r1 =>
              match readElements n r1 with
              | Some (l, r') => Some (JArray l, r')
              | None => None
              end
          end
      | String "{" r =>
          match skipWs r with
          | String "}" r' => Some (JObject [], r')
          | r1 =>
              match readMembers n r1 with
              | Some (l, r') => Some (JObject l, r')
              | None => None
              end
          end
      | String c r as t =>
          if Ascii.eqb c dquote then
            match readString r with
            | Some (v, r') => Some (JString v, r')
            | None => None
            end
          else
            match JSLit.stripPrefix "null" t, JSLit.stripPrefix "true" t,
                  JSLit.stripPrefix "false" t with
            | Some r', _, _ => Some (JNull, r')
            | _, Some r', _ => Some (JBool true, r')
            | _, _, Some r' => Some (JBool false, r')
            | _, _, _ =>
                match readInt t with
                | Some (d, r') => Some (JNumber d, r')
                | None => None
                end
            end
      | EmptyString => None
      end
  end
with readElements (fuel : nat) (s : string) : option (list JSON * string) :=
  match fuel with
  | O => None
  | S n =>
      match readValue n s with
      | Some (v, r) =>
          match skipWs r with
          | String "," r' =>
              match readElements n r' with
              | Some (l, r2) => Some (v :: l, r2)
              | None => None
              end
          | String "]" r' => Some ([v], r')
          | _ => None
          end
      | None => None
      end
  end
with readMembers (fuel : nat) (s : string) : option (list (string * JSON) * string) :=
  match fuel with
  | O => None
  | S n =>
      match skipWs s with
      | String c r =>
          if Ascii.eqb c dquote then
            match readString r with
            | Some (k, r1) =>
                match skipWs r1 with
                | String ":" r2 =>
                    match readValue n r2 with
                    | Some (v, r3) =>
                        match skipWs r3 with
                        | String "," r' =>
                            match readMembers n r' with
                            | Some (l, r4) => Some ((k, v) :: l, r4)
                            | None => None
                            end
                        | String "}" r' => Some ([(k, v)], r')
                        | _ => None
                        end
                    | None => None
                    end
                | _ => None
                end
            | None => None
            end
          else None
      | EmptyString => None
      end
  end.

Definition parseJSON (s : string) : option JSON :=
  match readValue (S (String.length s)) s with
  | Some (v, rest) =>
      match skipWs rest with
      | EmptyString => Some v
      | _ => None
      end
  | None => None
  end.

(** The reference platform, with the store calls that reject and the
    outcome of [fetch] left to choose. *)
Definition platform (secureDeleteRejects : string -> bool) (multiRemoveRejects : bool)
                    (secureSetRejects : bool) (out : FetchOutcome) : Platform :=
  {| URL_parse := parseURL;
     URL_parse_base := parseURLBase;
     JSON_parse := parseJSON;
     SecureStore_setItem_rejects := fun _ => secureSetRejects;
     SecureStore_getItem_rejects := fun _ => false;
     SecureStore_deleteItem_rejects := secureDeleteRejects;
     AsyncStorage_getItem_rejects := fun _ => false;
     AsyncStorage_multiRemove_rejects := multiRemoveRejects;
     fetch_outcome := out |}.

(** No call rejects; the server answers 2xx. *)
Definition healthy : Platform := platform (fun _ => false) false false FetchOk.

End Reference.

(** ** The domain classifier, as the specification words it

    A candidate host is classified against trusted domains after one leading
    [www.] is stripped from both: it matches a domain when it is that domain
    or ends with a dot followed by it. *)

Inductive Category : Type := SAME_ORIGIN | TRUSTED | EXTERNAL.

Definition spec_matches (candidate trusted : string) : bool :=
  String.eqb (stripWww candidate) (stripWww trusted)
  || endsWith (stripWww candidate) ("." +:+ stripWww trusted).

Definition spec_classify (appDomain : string) (D : list string) (host : string) : Category :=
  if String.eqb host "localhost" || String.eqb host "127.0.0.1" || spec_matches host appDomain
  then SAME_ORIGIN
  else if existsb (spec_matches host) D then TRUSTED
  else EXTERNAL.


(** [h] is [d] or a dot-separated subdomain of [d]. *)
Definition subdomainOrEqual (h d : string) : Prop :=
  h = d \/ exists sub, h = sub +:+ "." +:+ d.

(** [delete k] unless the native call rejected. *)
Definition deleteUnless (rejects : bool) (k : string) (m : gmap string string)
  : gmap string string :=
  if rejects then m else delete k m.

(** ** Example inputs *)

(** The configuration of the specification's examples: the application at
    [app.com], its API at [api.app.com]. *)
Definition exampleConfig : Config :=
  {| webAppUrl := "https://app.com"; apiUrl := "https://api.app.com"; scheme := "trustbuild" |}.

(** A shell with a session: both stores filled, the mirror set, the
    WebView mounted. *)
Definition exampleShell : Shell :=
  {| secureStore := {[ "auth_token" := "tok"; "refresh_token" := "ref" ]};
     asyncStorage := {[ "user_data" := "{}"; "push_token" := "ExponentPushToken[x]" ]};
     authToken := Some (JString "tok");
     webViewRef_current := true |}.

(** The text [{"type":T}] and [{"type":T,"payload":{K:V}}]. *)
Definition messageText (type : string) : string :=
  "{" +:+ Reference.quoted "type" +:+ ":" +:+ Reference.quoted type +:+ "}".

Definition messageText1 (type key value : string) : string :=
  "{" +:+ Reference.quoted "type" +:+ ":" +:+ Reference.quoted type +:+ ","
      +:+ Reference.quoted "payload" +:+ ":{" +:+ Reference.quoted key +:+ ":"
      +:+ Reference.quoted value +:+ "}}".

(** * Further model

    The functions of [App.tsx], [src/services/storage.ts],
    [src/services/notifications.ts] and [src/hooks/useNetworkStatus.ts]
    that the sections above do not cover. *)

(** The endpoint [sendPushTokenToServer] posts to. *)
Definition pushTokenEndpoint (cfg : Config) : string :=
  apiUrl cfg +:+ "/users/me/push-token".

(** The auth token [sendPushTokenToServer] gets to see: none when the read
    rejects, when nothing is stored, or when the stored string is empty. *)
Definition usableAuthToken (pf : Platform) (s : Shell) : option string :=
  if SecureStore_getItem_rejects pf AUTH_TOKEN_KEY then None
  else match secureStore s !! AUTH_TOKEN_KEY with
       | Some t => if JSString.truthy t then Some t else None
       | None => None
       end.

(** The push token the AUTH_TOKEN arm gets to see, likewise. *)
Definition usablePushToken (pf : Platform) (s : Shell) : option string :=
  if AsyncStorage_getItem_rejects pf PUSH_TOKEN_KEY then None
  else match asyncStorage s !! PUSH_TOKEN_KEY with
       | Some p => if JSString.truthy p then Some p else None
       | None => None
       end.

(** The shell once a token [t] has been persisted and mirrored. *)
Definition withSession (t : string) (s : Shell) : Shell :=
  set_authToken (Some (JString t)) (set_secureStore (insert AUTH_TOKEN_KEY t) s).

(** The arm of the [switch (message.type)] a parsed message takes. *)
Inductive MessageKind : Type :=
| K_AUTH_TOKEN | K_LOGOUT | K_SHARE | K_OPEN_EXTERNAL | K_NAVIGATE | K_UNKNOWN.

Definition kindOf (message : JSON) : MessageKind :=
  match JS.getProp message "type" with
  | Some (JString type) =>
      if String.eqb type "AUTH_TOKEN" then K_AUTH_TOKEN
      else if String.eqb type "LOGOUT" then K_LOGOUT
      else if String.eqb type "SHARE" then K_SHARE
      else if String.eqb type "OPEN_EXTERNAL" then K_OPEN_EXTERNAL
      else if String.eqb type "NAVIGATE" then K_NAVIGATE
      else K_UNKNOWN
  | _ => K_UNKNOWN
  end.

(** ** App.tsx: the injected script's click listener

    The capturing [click] listener of the injected script, on the anchor
    [e.target.closest('a')] finds ([None] when there is none). *)

Module Click.

Record Anchor : Type := {
  target : string;
  href : string
}.

Inductive ClickResult : Type :=
| Intercepted (url : string)     (* e.preventDefault(); window.location.href = url *)
| FallsThrough (warned : bool).  (* the browser's default; [true] after console.warn *)

(** The test of the listener on a parsed target. *)
Definition isInternalLink (p : Bridge.Page) (urlObj : URL) : bool :=
  let currentHost := Bridge.stripWwwChar (Bridge.location_hostname p) in
  let targetHost := Bridge.stripWwwChar (hostname urlObj) in
  String.eqb targetHost currentHost || endsWith targetHost ("." +:+ currentHost).

Definition onClick (pf : Platform) (p : Bridge.Page) (link : option Anchor) : ClickResult :=
  match link with
  | Some a =>
      if String.eqb (target a) "_blank" then
        if JSString.truthy (href a) then
          match URL_parse_base pf (href a) (Bridge.location_origin p) with
          | Some urlObj =>
              if isInternalLink p urlObj then Intercepted (href a)
              else FallsThrough false
          | None => FallsThrough true
          end
        else FallsThrough false
      else FallsThrough false
  | None => FallsThrough false
  end.

End Click.

(** The number of wrappers around the browser's function. *)
Fixpoint setItemLayers (f : Bridge.SetItemFn) : nat :=
  match f with
  | Bridge.nativeSetItem => 0
  | Bridge.wrappedSetItem g => S (setItemLayers g)
  end.

Fixpoint removeItemLayers (f : Bridge.RemoveItemFn) : nat :=
  match f with
  | Bridge.nativeRemoveItem => 0
  | Bridge.wrappedRemoveItem g => S (removeItemLayers g)
  end.

(** ** The rest of the platform

    What the functions below call beyond [Platform]: the write side of
    AsyncStorage, [JSON.stringify], and expo-device / expo-notifications.
    A permission status is the string the library reports; [None] stands for
    a call that rejects. *)

Record Host : Type := {
  AsyncStorage_setItem_rejects : string -> bool;
  AsyncStorage_removeItem_rejects : string -> bool;
  JSON_stringify : JSON -> string;
  Device_isDevice : bool;
  Notifications_getPermissionsAsync : option string;
  Notifications_requestPermissionsAsync : option string;
  (** [tokenResponse.data] *)
  Notifications_getExpoPushTokenAsync : option string;
  Platform_OS : string;
  Notifications_setNotificationChannelAsync_rejects : bool;
  (** [Some None]: no response; [Some (Some d)]: a response whose
      [notification.request.content.data] is [d] *)
  Notifications_getLastNotificationResponseAsync : option (option JSON)
}.

(** ** src/services/storage.ts, continued *)

Section StorageMore.

Variable pf : Platform.
Variable host : Host.

Definition AsyncStorage_setItem (key value : string) : M unit :=
  if AsyncStorage_setItem_rejects host key then Eff.throw
  else Eff.modify (set_asyncStorage (insert key value)).

Definition AsyncStorage_removeItem (key : string) : M unit :=
  if AsyncStorage_removeItem_rejects host key then Eff.throw
  else Eff.modify (set_asyncStorage (delete key)).

Definition secureStorage_removeAuthToken : M unit :=
  Eff.try_catch
    (SecureStore_deleteItemAsync pf AUTH_TOKEN_KEY)
    (Eff.emit (ConsoleError "Failed to remove auth token:")).

Definition secureStorage_setRefreshToken (token : JSON) : M unit :=
  Eff.try_catch
    (SecureStore_setItemAsync pf REFRESH_TOKEN_KEY token)
    (Eff.emit (ConsoleError "Failed to save refresh token:") ;; Eff.throw).

Definition secureStorage_getRefreshToken : M (option string) :=
  Eff.try_catch
    (SecureStore_getItemAsync pf REFRESH_TOKEN_KEY)
    (Eff.emit (ConsoleError "Failed to get refresh token:") ;; mret None).

Definition secureStorage_removeRefreshToken : M unit :=
  Eff.try_catch
    (SecureStore_deleteItemAsync pf REFRESH_TOKEN_KEY)
    (Eff.emit (ConsoleError "Failed to remove refresh token:")).

Definition appStorage_setUserData (userData : JSON) : M unit :=
  Eff.try_catch
    (AsyncStorage_setItem USER_DATA_KEY (JSON_stringify host userData))
    (Eff.emit (ConsoleError "Failed to save user data:") ;; Eff.throw).

(** [getUserData]; the result [JNull] is [null]. *)
Definition appStorage_getUserData : M JSON :=
  Eff.try_catch
    (data ← AsyncStorage_getItem pf USER_DATA_KEY;
     match data with
     | Some d =>
         if JSString.truthy d then
           match JSON_parse pf d with
           | Some v => mret v
           | None => Eff.throw
           end
         else mret JNull
     | None => mret JNull
     end)
    (Eff.emit (ConsoleError "Failed to get user data:") ;; mret JNull).

Definition appStorage_removeUserData : M unit :=
  Eff.try_catch
    (AsyncStorage_removeItem USER_DATA_KEY)
    (Eff.emit (ConsoleError "Failed to remove user data:")).

Definition appStorage_setPushToken (token : string) : M unit :=
  Eff.try_catch
    (AsyncStorage_setItem PUSH_TOKEN_KEY token)
    (Eff.emit (ConsoleError "Failed to save push token:") ;; Eff.throw).

(** [clearAllStorage]: [Promise.all] of the two [clearAll] calls. *)
Definition clearAllStorage : M unit :=
  Promise_all2 (secureStorage_clearAll pf) (appStorage_clearAll pf).

End StorageMore.

(** ** A reference host

    [JSON.stringify] for the values of [JSON] (strings with the quote and the
    backslash escaped), and a host whose failing calls are left to choose. *)

Module ReferenceHost.

Fixpoint escapeString (s : string) : string :=
  match s with
  | EmptyString => EmptyString
  | String c r =>
      if Ascii.eqb c Reference.dquote || Ascii.eqb c "\"
      then String "\" (String c (escapeString r))
      else String c (escapeString r)
  end.

Fixpoint stringify (v : JSON) : string :=
  match v with
  | JNull => "null"
  | JBool true => "true"
  | JBool false => "false"
  | JNumber r => r
  | JString s => Reference.quoted (escapeString s)
  | JArray items =>
      "[" +:+ JS.joinWith ","
                ((fix each (l : list JSON) : list string :=
                    match l with
                    | [] => []
                    | x :: r => stringify x :: each r
                    end) items) +:+ "]"
  | JObject fields =>
      "{" +:+ JS.joinWith ","
                ((fix each (l : list (string * JSON)) : list string :=
                    match l with
                    | [] => []
                    | (k, x) :: r =>
                        (Reference.quoted (escapeString k) +:+ ":" +:+ stringify x) :: each r
                    end) fields) +:+ "}"
  end.

Definition host (isDevice : bool) (existing requested token : option string)
                (os : string) (channelRejects setItemRejects : bool)
                (lastResponse : option (option JSON)) : Host :=
  {| AsyncStorage_setItem_rejects := fun _ => setItemRejects;
     AsyncStorage_removeItem_rejects := fun _ => false;
     JSON_stringify := stringify;
     Device_isDevice := isDevice;
     Notifications_getPermissionsAsync := existing;
     Notifications_requestPermissionsAsync := requested;
     Notifications_getExpoPushTokenAsync := token;
     Platform_OS := os;
     Notifications_setNotificationChannelAsync_rejects := channelRejects;
     Notifications_getLastNotificationResponseAsync := lastResponse |}.

(** A phone that has granted the permission; nothing rejects. *)
Definition phone (os : string) : Host :=
  host true (Some "granted") (Some "granted") (Some "ExponentPushToken[new]")
       os false false (Some None).

End ReferenceHost.

(** ** src/services/notifications.ts: [registerForPushNotificationsAsync] *)

Section Registration.

Variable pf : Platform.
Variable host : Host.

Definition granted (status : string) : bool := String.eqb status "granted".

(** The [try] block. [None] is one of its [return null], [Some token] its
    normal end. *)
Definition requestAndStoreToken : M (option string) :=
  match Notifications_getPermissionsAsync host with
  | None => Eff.throw
  | Some existingStatus =>
      finalStatus ←
        (if granted existingStatus then mret existingStatus
         else match Notifications_requestPermissionsAsync host with
              | None => Eff.throw
              | Some status => mret status
              end);
      if granted finalStatus then
        match Notifications_getExpoPushTokenAsync host with
        | None => Eff.throw
        | Some token =>
            appStorage_setPushToken host token ;;
            Eff.emit (ConsoleLog "Push token registered:") ;;
            mret (Some token)
        end
      else
        Eff.emit (ConsoleLog "Push notification permissions not granted") ;;
        mret None
  end.

(** The result [None] is [null]. The Android channel is configured after
    the [try] block, outside it. *)
Definition registerForPushNotificationsAsync : M (option string) :=
  if Device_isDevice host then
    r ← Eff.try_catch requestAndStoreToken
          (Eff.emit (ConsoleError "Error registering for push notifications:") ;;
           mret None);
    match r with
    | None => mret None
    | Some token =>
        (if String.eqb (Platform_OS host) "android"
         then if Notifications_setNotificationChannelAsync_rejects host
              then Eff.throw else mret tt
         else mret tt) ;;
        mret (Some token)
    end
  else
    Eff.emit (ConsoleLog "Push notifications require a physical device") ;;
    mret None.

End Registration.

(** ** App.tsx: [initializeApp] and deep links *)

Section Startup.

Variable pf : Platform.
Variable cfg : Config.
Variable host : Host.

(** [if (storedToken) setAuthToken(storedToken)] *)
Definition mirrorStoredToken (storedToken : option string) : M unit :=
  match storedToken with
  | Some t => if JSString.truthy t
              then Eff.modify (set_authToken (Some (JString t)))
              else mret tt
  | None => mret tt
  end.

(** [if (pushToken && storedToken) await sendPushTokenToServer(pushToken)] *)
Definition sendIfBoth (pushToken storedToken : option string) : M unit :=
  match pushToken with
  | Some p =>
      if JSString.truthy p
         && match storedToken with
            | Some t => JSString.truthy t
            | None => false
            end
      then sendPushTokenToServer pf cfg p ;; mret tt
      else mret tt
  | None => mret tt
  end.

(** The notification that opened the app: the argument of
    [setCurrentUrl] when its data carries a truthy [url], [None] when
    [setCurrentUrl] is not called. *)
Definition openedFromNotification : M (option string) :=
  match Notifications_getLastNotificationResponseAsync host with
  | None => Eff.throw
  | Some None => mret None
  | Some (Some data) =>
      match JS.optChain (Some data) "url" with
      | Some u => if JS.truthy u
                  then if JS.toStringThrows u then Eff.throw
                       else mret (Some (webAppUrl cfg +:+ JS.toString u))
                  else mret None
      | None => mret None
      end
  end.

(** [initializeApp]. The value is the argument of [setCurrentUrl], if it
    is called. The two listeners registered between the push registration
    and the last-response check only install callbacks. *)
Definition initializeApp : M (option string) :=
  Eff.try_catch
    (storedToken ← secureStorage_getAuthToken pf;
     mirrorStoredToken storedToken ;;
     pushToken ← registerForPushNotificationsAsync host;
     sendIfBoth pushToken storedToken ;;
     openedFromNotification)
    (Eff.emit (ConsoleError "Failed to initialize app:") ;; mret None).

(** [s.replace(pattern, replacement)] with a string pattern, and a
    replacement without [$]: the first occurrence only. *)
Fixpoint String_replace (s pattern replacement : string) : string :=
  match JSLit.stripPrefix pattern s with
  | Some rest => replacement +:+ rest
  | None =>
      match s with
      | EmptyString => EmptyString
      | String c r => String c (String_replace r pattern replacement)
      end
  end.

(** [s.includes(pattern)] *)
Fixpoint String_includes (s pattern : string) : bool :=
  if startsWith s pattern then true
  else match s with
       | EmptyString => false
       | String _ r => String_includes r pattern
       end.

(** [fullUrl] of [handleDeepLink]. *)
Definition deepLinkTarget (url : string) : string :=
  webAppUrl cfg +:+ "/" +:+ String_replace url (scheme cfg +:+ "://") "".

(** [handleDeepLink({ url })]; its template literal is the text of
    [navigateScript]. *)
Definition handleDeepLink (url : string) : M unit :=
  s ← Eff.get;
  if JSString.truthy url && webViewRef_current s
  then Eff.emit (InjectJavaScript (navigateScript (JString (deepLinkTarget url))))
  else mret tt.

End Startup.

(** Whether the permission ends up granted: already granted, or granted
    on request. *)
Definition permissionGranted (host : Host) : bool :=
  match Notifications_getPermissionsAsync host with
  | Some existingStatus =>
      if granted existingStatus then true
      else match Notifications_requestPermissionsAsync host with
           | Some status => granted status
           | None => false
           end
  | None => false
  end.

(** The Android channel set-up rejects. *)
Definition channelFails (host : Host) : bool :=
  String.eqb (Platform_OS host) "android"
  && Notifications_setNotificationChannelAsync_rejects host.

(** The shell once a push token [p] has been stored. *)
Definition withPushToken (p : string) (s : Shell) : Shell :=
  set_asyncStorage (insert PUSH_TOKEN_KEY p) s.

(** The shell once the stored auth token, if there is a usable one, has
    been mirrored. *)
Definition restored (pf : Platform) (s : Shell) : Shell :=
  match usableAuthToken pf s with
  | Some t => set_authToken (Some (JString t)) s
  | None => s
  end.

(** ** src/hooks/useNetworkStatus.ts *)

(** What NetInfo reports; [None] is [null]. *)
Record NetInfoState : Type := {
  ni_isConnected : option bool;
  ni_isInternetReachable : option bool;
  ni_type : string
}.

Record NetworkStatus : Type := {
  isConnected : bool;
  isInternetReachable : option bool;
  networkType : option string
}.

(** The state of the hook before NetInfo has answered. *)
Definition initialNetworkStatus : NetworkStatus :=
  {| isConnected := true; isInternetReachable := Some true; networkType := None |}.

(** The state the hook sets on a NetInfo report. *)
Definition networkStatusOf (state : NetInfoState) : NetworkStatus :=
  {| isConnected := match ni_isConnected state with
                    | Some b => b
                    | None => true
                    end;
     isInternetReachable := ni_isInternetReachable state;
     networkType := Some (ni_type state) |}.

(** [!isConnected || isInternetReachable === false] *)
Definition isOffline (ns : NetworkStatus) : bool :=
  negb (isConnected ns)
  || match isInternetReachable ns with
     | Some false => true
     | _ => false
     end.

(** ** App.tsx: loading and error state, and what is rendered *)

Record AppUI : Type := {
  isLoading : bool;
  hasError : bool;
  errorMessage : string;
  canGoBack : bool;
  currentUrl : string
}.

Definition initialUI (cfg : Config) : AppUI :=
  {| isLoading := true; hasError := false; errorMessage := "";
     canGoBack := false; currentUrl := webAppUrl cfg |}.

Inductive UIEvent : Type :=
| LoadEnd                                                   (* onLoadEnd *)
| LoadError (description : option string)                   (* onError *)
| HttpError (statusCode : Z) (description : option string)  (* onHttpError *)
| Retry                                                     (* handleRetry *)
| NavigationStateChange (canGoBack : bool) (url : string).  (* onNavigationStateChange *)

(** [handleError]: [error.nativeEvent?.description || 'Failed to load the app'] *)
Definition handleError (description : option string) (ui : AppUI) : AppUI :=
  {| isLoading := isLoading ui;
     hasError := true;
     errorMessage := match description with
                     | Some d => if JSString.truthy d then d else "Failed to load the app"
                     | None => "Failed to load the app"
                     end;
     canGoBack := canGoBack ui;
     currentUrl := currentUrl ui |}.

Definition uiStep (ui : AppUI) (e : UIEvent) : AppUI :=
  match e with
  | LoadEnd =>
      {| isLoading := false; hasError := false; errorMessage := errorMessage ui;
         canGoBack := canGoBack ui; currentUrl := currentUrl ui |}
  | LoadError d => handleError d ui
  | HttpError statusCode d =>
      if (400 <=? statusCode)%Z then handleError d ui else ui
  | Retry =>
      {| isLoading := true; hasError := false; errorMessage := errorMessage ui;
         canGoBack := canGoBack ui; currentUrl := currentUrl ui |}
  | NavigationStateChange back url =>
      {| isLoading := isLoading ui; hasError := hasError ui; errorMessage := errorMessage ui;
         canGoBack := back; currentUrl := url |}
  end.

Definition uiRun (ui : AppUI) (events : list UIEvent) : AppUI :=
  fold_left uiStep events ui.

Inductive Screen : Type :=
| ErrorScreenShown (message : string)
| WebViewShown (loadingOverlay : bool).

Definition connectionErrorMessage : string :=
  "Failed to connect to TrustBuild. Please check your internet connection and try again.".

(** The two [return] statements of [App]. *)
Definition render (ui : AppUI) (ns : NetworkStatus) : Screen :=
  if hasError ui && negb (isOffline ns)
  then ErrorScreenShown (if JSString.truthy (errorMessage ui)
                         then errorMessage ui else connectionErrorMessage)
  else WebViewShown (isLoading ui && negb (hasError ui)).

(** The description an event reports to [handleError], if it does. *)
Definition reportedDescription (e : UIEvent) : option string :=
  match e with
  | LoadError d => d
  | HttpError statusCode d => if (400 <=? statusCode)%Z then d else None
  | _ => None
  end.

(** While the error flag is set, the message is not empty, and it is the
    default of [handleError] or a description one of the events reported. *)
Definition messageAccounted (seen : list UIEvent) (ui : AppUI) : Prop :=
  hasError ui = true ->
  errorMessage ui <> ""
  /\ (errorMessage ui = "Failed to load the app"
      \/ exists e, In e seen /\ reportedDescription e = Some (errorMessage ui)).

(** * Properties *)

(** ** String primitives *)

Lemma append_nil (b : string) : "" +:+ b = b.
Proof. reflexivity. Qed.

Lemma append_cons (c : ascii) (a b : string) : String c a +:+ b = String c (a +:+ b).
Proof. reflexivity. Qed.

Lemma append_assoc (a b c : string) : (a +:+ b) +:+ c = a +:+ (b +:+ c).
Proof.
  induction a as [|x a IH]; [reflexivity |].
  rewrite !append_cons, IH. reflexivity.
Qed.

Lemma startsWith_spec (s p : string) :
  startsWith s p = true <-> exists r, s = p +:+ r.
Proof.
  revert s. induction p as [|c p IH]; intros s; simpl.
  - split; [intros _; exists s; reflexivity | reflexivity].
  - destruct s as [|d r].
    + split; [discriminate | intros [x Hx]; rewrite append_cons in Hx; discriminate].
    + destruct (Ascii.eqb_spec d c) as [->|Hne].
      * rewrite IH. split; intros [x Hx]; exists x.
        -- rewrite Hx. reflexivity.
        -- rewrite append_cons in Hx. congruence.
      * split; [discriminate | intros [x Hx]; rewrite append_cons in Hx; congruence].
Qed.

Lemma endsWith_unfold (s t : string) :
  endsWith s t =
  if String.eqb s t then true
  else match s with
       | EmptyString => false
       | String _ r => endsWith r t
       end.
Proof. destruct s; reflexivity. Qed.

Lemma endsWith_spec (s t : string) :
  endsWith s t = true <-> exists p, s = p +:+ t.
Proof.
  induction s as [|c s IH]; rewrite endsWith_unfold.
  - destruct (String.eqb_spec "" t) as [<-|Hne].
    + split; [intros _; exists ""; reflexivity | reflexivity].
    + split; [discriminate |].
      intros [p Hp]. destruct p; [rewrite append_nil in Hp; congruence |].
      rewrite append_cons in Hp. discriminate.
  - destruct (String.eqb_spec (String c s) t) as [<-|Hne].
    + split; [intros _; exists ""; reflexivity | reflexivity].
    + rewrite IH. split.
      * intros [p ->]. exists (String c p). reflexivity.
      * intros [p Hp]. destruct p as [|d p]; [rewrite append_nil in Hp; congruence |].
        rewrite append_cons in Hp. exists p. congruence.
Qed.

Lemma endsWith_false (s t : string) :
  endsWith s t = false <-> ~ exists p, s = p +:+ t.
Proof.
  rewrite <- endsWith_spec. destruct (endsWith s t); split; congruence.
Qed.


Lemma subdomainOrEqual_bool (h d : string) :
  String.eqb h d || endsWith h ("." +:+ d) = true <-> subdomainOrEqual h d.
Proof.
  unfold subdomainOrEqual. rewrite orb_true_iff, String.eqb_eq, endsWith_spec.
  reflexivity.
Qed.

Lemma subdomainOrEqual_bool_false (h d : string) :
  ~ subdomainOrEqual h d -> String.eqb h d || endsWith h ("." +:+ d) = false.
Proof.
  rewrite <- subdomainOrEqual_bool. destruct (_ || _); congruence.
Qed.

Lemma not_subdomainOrEqual (h d : string) :
  String.eqb h d || endsWith h ("." +:+ d) = false -> ~ subdomainOrEqual h d.
Proof. intros Hb Hs. apply subdomainOrEqual_bool in Hs. congruence. Qed.

(** An http(s) URL starts with none of the whitelisted or device-handler
    scheme prefixes. *)
Lemma http_not_special (url : string) :
  startsWith url "http://" || startsWith url "https://" = true ->
  startsWith url "about:" || startsWith url "blob:" || startsWith url "data:" = false
  /\ startsWith url "tel:" || startsWith url "mailto:" || startsWith url "sms:" = false.
Proof.
  destruct url as [|c url]; [discriminate |].
  simpl. destruct (Ascii.eqb_spec c "h") as [->|Hne]; [split; reflexivity | discriminate].
Qed.

(** ** Navigation policy *)

Section NavigationFacts.

Variable pf : Platform.
Variable cfg : Config.

(** The four tests of the [try] block, one by one. *)
Lemma allowedInWebView_false (requestUrl appU apiU : URL) :
  allowedInWebView requestUrl appU apiU = false <->
  let h := stripWww (hostname requestUrl) in
  (String.eqb h (stripWww (hostname appU))
   || endsWith h ("." +:+ stripWww (hostname appU)) = false)
  /\ (String.eqb h (stripWww (hostname apiU))
      || endsWith h ("." +:+ stripWww (hostname apiU)) = false)
  /\ String.eqb (hostname requestUrl) "localhost" = false
  /\ String.eqb (hostname requestUrl) "127.0.0.1" = false
  /\ (String.eqb h "stripe.com" || endsWith h ".stripe.com" = false)
  /\ String.eqb h "accounts.google.com" = false
  /\ endsWith h ".google.com" = false.
Proof.
  unfold allowedInWebView. cbv zeta.
  set (h := stripWww (hostname requestUrl)).
  destruct (String.eqb h (stripWww (hostname appU)));
    destruct (endsWith h ("." +:+ stripWww (hostname appU)));
    destruct (String.eqb h (stripWww (hostname apiU)));
    destruct (endsWith h ("." +:+ stripWww (hostname apiU)));
    cbn [orb]; try (split; [discriminate | intros (? & ? & _); discriminate]).
  destruct (String.eqb (hostname requestUrl) "localhost");
    destruct (String.eqb (hostname requestUrl) "127.0.0.1");
    cbn [orb]; try (split; [discriminate | intros (_ & _ & ? & ? & _); discriminate]).
  destruct (String.eqb_spec h "js.stripe.com") as [E1|_].
  { rewrite E1. cbn. split; [discriminate | intros (_ & _ & _ & _ & ? & _); discriminate]. }
  destruct (String.eqb_spec h "checkout.stripe.com") as [E2|_].
  { rewrite E2. cbn. split; [discriminate | intros (_ & _ & _ & _ & ? & _); discriminate]. }
  destruct (endsWith h ".stripe.com"); destruct (String.eqb h "stripe.com");
    cbn [orb]; try (split; [discriminate | intros (_ & _ & _ & _ & ? & _); discriminate]).
  destruct (String.eqb h "accounts.google.com"); destruct (endsWith h ".google.com");
    cbn [orb]; split; try discriminate; try tauto;
    intros (_ & _ & _ & _ & _ & ? & ?); discriminate.
Qed.

Lemma shouldStartLoad_http (url : string) (requestUrl appU apiU : URL) :
  startsWith url "http://" || startsWith url "https://" = true ->
  URL_parse pf url = Some requestUrl ->
  URL_parse pf (webAppUrl cfg) = Some appU ->
  URL_parse pf (apiUrl cfg) = Some apiU ->
  shouldStartLoadWithRequest pf cfg url =
  if allowedInWebView requestUrl appU apiU then (true, [])
  else (false, [LinkingOpenURL (JString url)]).
Proof.
  intros Hhttp Hreq Happ Hapi.
  destruct (http_not_special url Hhttp) as [Hw Hd].
  unfold shouldStartLoadWithRequest.
  rewrite Hw, Hd, Hreq, Happ, Hapi, Hhttp. reflexivity.
Qed.


End NavigationFacts.



(** C2. Matching is suffix-exact on dot-separated labels: a request the
    [try] block lets through has a host that is [localhost] or [127.0.0.1],
    or whose [www.]-stripped form is the application domain, the API domain,
    [stripe.com] or [google.com], or ends with a dot followed by one of them.
    In particular, with the application at [app.com], the host
    [evilapp.com] is classified EXTERNAL, fails every test, and
    [https://evilapp.com] is handed to the OS instead of being loaded. *)
Theorem matching_is_suffix_exact :
  (forall requestUrl appU apiU : URL,
      allowedInWebView requestUrl appU apiU = true ->
      let h := stripWww (hostname requestUrl) in
      subdomainOrEqual h (stripWww (hostname appU))
      \/ subdomainOrEqual h (stripWww (hostname apiU))
      \/ hostname requestUrl = "localhost"
      \/ hostname requestUrl = "127.0.0.1"
      \/ subdomainOrEqual h "stripe.com"
      \/ subdomainOrEqual h "google.com")
  /\ spec_classify "app.com" ["api.app.com"] "evilapp.com" = EXTERNAL
  /\ allowedInWebView {| protocol := "https:"; hostname := "evilapp.com" |}
                      {| protocol := "https:"; hostname := "app.com" |}
                      {| protocol := "https:"; hostname := "api.app.com" |} = false
  /\ shouldStartLoadWithRequest Reference.healthy exampleConfig "https://evilapp.com"
     = (false, [LinkingOpenURL (JString "https://evilapp.com")]).
Proof.
  split; [| repeat split; reflexivity].
  intros requestUrl appU apiU Ha. cbv zeta.
  set (h := stripWww (hostname requestUrl)).
  destruct (String.eqb h (stripWww (hostname appU))
            || endsWith h ("." +:+ stripWww (hostname appU))) eqn:E1.
  { left. apply subdomainOrEqual_bool, E1. }
  destruct (String.eqb h (stripWww (hostname apiU))
            || endsWith h ("." +:+ stripWww (hostname apiU))) eqn:E2.
  { right; left. apply subdomainOrEqual_bool, E2. }
  destruct (String.eqb_spec (hostname requestUrl) "localhost") as [E3|E3]; [tauto |].
  destruct (String.eqb_spec (hostname requestUrl) "127.0.0.1") as [E4|E4]; [tauto |].
  destruct (String.eqb h "stripe.com" || endsWith h ".stripe.com") eqn:E5.
  { do 4 right; left. apply subdomainOrEqual_bool, E5. }
  destruct (endsWith h ".google.com") eqn:E6.
  { do 5 right. apply subdomainOrEqual_bool. change ("." +:+ "google.com") with ".google.com".
    rewrite E6. apply orb_true_r. }
  destruct (String.eqb_spec h "accounts.google.com") as [E7|E7].
  { rewrite E7 in E6. discriminate. }
  exfalso. enough (allowedInWebView requestUrl appU apiU = false) by congruence.
  apply allowedInWebView_false. cbv zeta. fold h.
  apply String.eqb_neq in E3, E4, E7. tauto.
Qed.

Lemma matching_is_suffix_exact_witness :
  subdomainOrEqual "pay.stripe.com" "trustbuild.uk"
  \/ subdomainOrEqual "pay.stripe.com" "api.trustbuild.uk"
  \/ "pay.stripe.com" = "localhost"
  \/ "pay.stripe.com" = "127.0.0.1"
  \/ subdomainOrEqual "pay.stripe.com" "stripe.com"
  \/ subdomainOrEqual "pay.stripe.com" "google.com".
Proof.
  apply (proj1 matching_is_suffix_exact
           {| protocol := "https:"; hostname := "pay.stripe.com" |}
           {| protocol := "https:"; hostname := "trustbuild.uk" |}
           {| protocol := "https:"; hostname := "api.trustbuild.uk" |}).
  reflexivity.
Defined.

(** C3 (as the code has it). A URL whose text starts with [http://] or
    [https://], in lower case as the function's last test compares it, that
    parses and whose host matches neither the application domain, the API
    domain, [localhost]/[127.0.0.1], nor the Stripe or Google allow-lists is
    delegated: [RNLinking.openURL] is called with exactly that URL and the
    function returns [false]. *)
Theorem untrusted_http_delegated
    (pf : Platform) (cfg : Config) (url : string) (requestUrl appU apiU : URL) :
  startsWith url "http://" || startsWith url "https://" = true ->
  URL_parse pf url = Some requestUrl ->
  URL_parse pf (webAppUrl cfg) = Some appU ->
  URL_parse pf (apiUrl cfg) = Some apiU ->
  ~ subdomainOrEqual (stripWww (hostname requestUrl)) (stripWww (hostname appU)) ->
  ~ subdomainOrEqual (stripWww (hostname requestUrl)) (stripWww (hostname apiU)) ->
  hostname requestUrl <> "localhost" ->
  hostname requestUrl <> "127.0.0.1" ->
  ~ subdomainOrEqual (stripWww (hostname requestUrl)) "stripe.com" ->
  (forall sub, stripWww (hostname requestUrl) <> sub +:+ ".google.com") ->
  shouldStartLoadWithRequest pf cfg url = (false, [LinkingOpenURL (JString url)])
  /\ decision (shouldStartLoadWithRequest pf cfg url) = Some DELEGATE_EXTERNAL.
Proof.
  intros Hhttp Hreq Happ Hapi Na Ni Nl Nlo Ns Ng.
  rewrite (shouldStartLoad_http pf cfg url requestUrl appU apiU Hhttp Hreq Happ Hapi).
  assert (Hf : allowedInWebView requestUrl appU apiU = false).
  { apply allowedInWebView_false. cbv zeta.
    set (h := stripWww (hostname requestUrl)) in *.
    assert (Hg : endsWith h ".google.com" = false).
    { apply endsWith_false. intros [sub Hsub]. exact (Ng sub Hsub). }
    repeat split.
    - apply subdomainOrEqual_bool_false, Na.
    - apply subdomainOrEqual_bool_false, Ni.
    - apply String.eqb_neq, Nl.
    - apply String.eqb_neq, Nlo.
    - apply (subdomainOrEqual_bool_false h "stripe.com"), Ns.
    - destruct (String.eqb_spec h "accounts.google.com") as [E|]; [|reflexivity].
      rewrite E in Hg. discriminate.
    - exact Hg. }
  rewrite Hf. split; reflexivity.
Qed.

Lemma untrusted_http_delegated_witness :
  shouldStartLoadWithRequest Reference.healthy (config false) "https://twitter.com/share"
  = (false, [LinkingOpenURL (JString "https://twitter.com/share")])
  /\ decision (shouldStartLoadWithRequest Reference.healthy (config false)
                "https://twitter.com/share") = Some DELEGATE_EXTERNAL.
Proof.
  apply (untrusted_http_delegated Reference.healthy (config false)
           "https://twitter.com/share"
           {| protocol := "https:"; hostname := "twitter.com" |}
           {| protocol := "https:"; hostname := "trustbuild.uk" |}
           {| protocol := "https:"; hostname := "api.trustbuild.uk" |}).
  - reflexivity.
  - reflexivity.
  - reflexivity.
  - reflexivity.
  - apply not_subdomainOrEqual. reflexivity.
  - apply not_subdomainOrEqual. reflexivity.
  - discriminate.
  - discriminate.
  - apply not_subdomainOrEqual. reflexivity.
  - intros sub E.
    apply (proj1 (endsWith_false "twitter.com" ".google.com") eq_refl).
    exists sub. exact E.
Defined.

(** C3 as stated fails: [new URL] reads the scheme without regard to case,
    so [HTTPS://twitter.com/share] is an https URL with host [twitter.com],
    which passes none of the allow tests; the function's last test compares
    the text of the URL with the lower-case prefixes, finds neither, and the
    URL is loaded in the WebView with nothing handed to the OS. *)
Lemma uppercase_scheme_counterexample :
  let url := "HTTPS://twitter.com/share" in
  let requestUrl := {| protocol := "https:"; hostname := "twitter.com" |} in
  let appU := {| protocol := "https:"; hostname := "trustbuild.uk" |} in
  let apiU := {| protocol := "https:"; hostname := "api.trustbuild.uk" |} in
  URL_parse Reference.healthy url = Some requestUrl
  /\ URL_parse Reference.healthy (webAppUrl (config false)) = Some appU
  /\ URL_parse Reference.healthy (apiUrl (config false)) = Some apiU
  /\ allowedInWebView requestUrl appU apiU = false
  /\ shouldStartLoadWithRequest Reference.healthy (config false) url = (true, [])
  /\ decision (shouldStartLoadWithRequest Reference.healthy (config false) url)
     <> Some DELEGATE_EXTERNAL.
Proof.
  cbv zeta. repeat split; try reflexivity.
  vm_compute. discriminate.
Qed.

(** C4. A URL that starts with none of [about:], [blob:], [data:], [tel:],
    [mailto:], [sms:] and that [new URL] rejects is loaded in the WebView:
    the function warns, returns [true] and opens nothing externally. *)
Theorem unparseable_fails_open (pf : Platform) (cfg : Config) (url : string) :
  startsWith url "about:" || startsWith url "blob:" || startsWith url "data:" = false ->
  startsWith url "tel:" || startsWith url "mailto:" || startsWith url "sms:" = false ->
  URL_parse pf url = None ->
  shouldStartLoadWithRequest pf cfg url = (true, [ConsoleWarn "Failed to parse URL:"])
  /\ decision (shouldStartLoadWithRequest pf cfg url) = Some LOAD_INTERNAL.
Proof.
  intros Hw Hd Hp. unfold shouldStartLoadWithRequest.
  rewrite Hw, Hd, Hp. split; reflexivity.
Qed.

Lemma unparseable_fails_open_witness :
  shouldStartLoadWithRequest Reference.healthy (config false) "not a url"
  = (true, [ConsoleWarn "Failed to parse URL:"])
  /\ decision (shouldStartLoadWithRequest Reference.healthy (config false) "not a url")
     = Some LOAD_INTERNAL.
Proof.
  apply (unparseable_fails_open Reference.healthy (config false) "not a url");
    reflexivity.
Defined.


(** ** Message dispatcher *)

Section DispatcherFacts.

Variable pf : Platform.
Variable cfg : Config.

(** The handler's [catch] absorbs every exception. *)
Lemma try_catch_emit_total (m : M unit) (e : Effect) (s : Shell) :
  outcome (Eff.try_catch m (Eff.emit e) s) = Some tt.
Proof.
  unfold Eff.try_catch, Eff.emit, outcome.
  destruct (m s) as [[[[]|] s1] t1]; reflexivity.
Qed.

(** A message that has a [type] is an object. *)
Lemma getProp_Some_object (message : JSON) (k : string) (v : JSON) :
  JS.getProp message k = Some v -> exists fields, message = JObject fields.
Proof. destruct message; try discriminate. eauto. Qed.

(** Which arm of the [switch] a parsed message of a given [type] takes. *)
Lemma switch_type_string (message : JSON) (type : string) :
  JS.getProp message "type" = Some (JString type) ->
  switch_type pf cfg message =
  if String.eqb type "AUTH_TOKEN" then case_AUTH_TOKEN pf cfg message
  else if String.eqb type "LOGOUT" then case_LOGOUT pf
  else if String.eqb type "SHARE" then case_SHARE message
  else if String.eqb type "OPEN_EXTERNAL" then case_OPEN_EXTERNAL message
  else if String.eqb type "NAVIGATE" then case_NAVIGATE message
  else Eff.emit (ConsoleLog "Unknown message type:").
Proof.
  intros Ht. destruct (getProp_Some_object _ _ _ Ht) as [fields ->].
  unfold switch_type. rewrite Ht. reflexivity.
Qed.

Lemma handle_parsed (data : string) (message : JSON) :
  JSON_parse pf data = Some message ->
  handleWebViewMessage pf cfg data = Eff.try_catch (switch_type pf cfg message) onParseError.
Proof. intros Hp. unfold handleWebViewMessage. rewrite Hp. reflexivity. Qed.

(** A message whose [type] is outside the known set reaches [default], or
    throws on reading [.type] when it is [null]. *)
Lemma switch_type_unknown (message : JSON) :
  ~ hasKnownType message ->
  switch_type pf cfg message = Eff.throw
  \/ switch_type pf cfg message = Eff.emit (ConsoleLog "Unknown message type:").
Proof.
  intros Hk. destruct message; try (right; reflexivity); [left; reflexivity |].
  right. unfold switch_type.
  destruct (JS.getProp (JObject fields) "type") as [[| | |type| |]|] eqn:Ht; try reflexivity.
  assert (Hn : forall k, In k knownTypes -> String.eqb type k = false).
  { intros k Hin. destruct (String.eqb_spec type k) as [->|]; [|reflexivity].
    exfalso. apply Hk. exists k. split; [exact Hin | exact Ht]. }
  rewrite !Hn by (cbn; tauto). reflexivity.
Qed.

End DispatcherFacts.

(** C5. [handleWebViewMessage] never throws, whatever the raw message. When
    [JSON.parse] rejects it, or the parsed message has a [type] outside
    AUTH_TOKEN, LOGOUT, SHARE, OPEN_EXTERNAL, NAVIGATE, the shell state
    (both stores, the token mirror) is unchanged and every effect is a
    console call: nothing is opened externally and no script is injected. *)
Theorem malformed_or_unknown_discarded
    (pf : Platform) (cfg : Config) (data : string) (s : Shell) :
  outcome (handleWebViewMessage pf cfg data s) = Some tt
  /\ ((JSON_parse pf data = None
       \/ exists message, JSON_parse pf data = Some message /\ ~ hasKnownType message) ->
      final (handleWebViewMessage pf cfg data s) = s
      /\ Forall (fun e => isLogging e = true) (effects (handleWebViewMessage pf cfg data s))).
Proof.
  split.
  - apply try_catch_emit_total.
  - intros [Hp | (message & Hp & Hk)].
    + unfold handleWebViewMessage. rewrite Hp.
      split; [reflexivity | repeat constructor].
    + rewrite (handle_parsed pf cfg data message Hp).
      destruct (switch_type_unknown pf cfg message Hk) as [-> | ->];
        (split; [reflexivity | repeat constructor]).
Qed.

Lemma malformed_or_unknown_discarded_witness :
  (outcome (handleWebViewMessage Reference.healthy (config false) "not json" exampleShell)
   = Some tt
   /\ final (handleWebViewMessage Reference.healthy (config false) "not json" exampleShell)
      = exampleShell)
  /\ final (handleWebViewMessage Reference.healthy (config false)
              (messageText "PING") exampleShell) = exampleShell.
Proof.
  split.
  - destruct (malformed_or_unknown_discarded Reference.healthy (config false)
                "not json" exampleShell) as [Hthrow Hnone].
    split; [exact Hthrow |].
    apply Hnone. left. reflexivity.
  - apply (malformed_or_unknown_discarded Reference.healthy (config false)
             (messageText "PING") exampleShell).
    right. exists (JObject [("type", JString "PING")]).
    split; [reflexivity |].
    intros (k & Hin & Hk). injection Hk as <-.
    cbn in Hin. repeat destruct Hin as [Hin | Hin]; try discriminate Hin. exact Hin.
Defined.

(** ** LOGOUT *)

Section LogoutFacts.

Variable pf : Platform.

(** The state after the [LOGOUT] arm, for every pattern of rejections. *)
Lemma case_LOGOUT_final (s : Shell) :
  outcome (case_LOGOUT pf s) = Some tt
  /\ final (case_LOGOUT pf s) =
     {| secureStore :=
          deleteUnless (SecureStore_deleteItem_rejects pf REFRESH_TOKEN_KEY) REFRESH_TOKEN_KEY
            (deleteUnless (SecureStore_deleteItem_rejects pf AUTH_TOKEN_KEY) AUTH_TOKEN_KEY
               (secureStore s));
        asyncStorage :=
          if AsyncStorage_multiRemove_rejects pf then asyncStorage s
          else delete USER_DATA_KEY (delete PUSH_TOKEN_KEY (asyncStorage s));
        authToken := None;
        webViewRef_current := webViewRef_current s |}
  /\ Forall (fun e => isLogging e = true) (effects (case_LOGOUT pf s)).
Proof.
  unfold case_LOGOUT, secureStorage_clearAll, appStorage_clearAll, Promise_all2,
    SecureStore_deleteItemAsync, AsyncStorage_multiRemove, deleteUnless.
  destruct (SecureStore_deleteItem_rejects pf AUTH_TOKEN_KEY);
    destruct (SecureStore_deleteItem_rejects pf REFRESH_TOKEN_KEY);
    destruct (AsyncStorage_multiRemove_rejects pf);
    (split; [reflexivity | split; [reflexivity | repeat constructor]]).
Qed.

End LogoutFacts.

(** C6. A LOGOUT message never throws and always sets the token mirror to
    [null]. Each secure-store key whose deletion does not fail is gone
    afterwards, whatever happened to the other key and to the general store;
    when [multiRemove] does not fail both general-store keys are gone,
    whatever happened in the secure store. With no failure all four keys are
    gone. Nothing but console calls is performed. *)
Theorem logout_clears_stores_and_mirror
    (pf : Platform) (cfg : Config) (data : string) (message : JSON) (s : Shell) :
  JSON_parse pf data = Some message ->
  JS.getProp message "type" = Some (JString "LOGOUT") ->
  let r := handleWebViewMessage pf cfg data s in
  outcome r = Some tt
  /\ authToken (final r) = None
  /\ (SecureStore_deleteItem_rejects pf AUTH_TOKEN_KEY = false ->
      secureStore (final r) !! AUTH_TOKEN_KEY = None)
  /\ (SecureStore_deleteItem_rejects pf REFRESH_TOKEN_KEY = false ->
      secureStore (final r) !! REFRESH_TOKEN_KEY = None)
  /\ (AsyncStorage_multiRemove_rejects pf = false ->
      asyncStorage (final r) !! USER_DATA_KEY = None
      /\ asyncStorage (final r) !! PUSH_TOKEN_KEY = None)
  /\ Forall (fun e => isLogging e = true) (effects r).
Proof.
  intros Hp Ht r. subst r.
  rewrite (handle_parsed pf cfg data message Hp).
  rewrite (switch_type_string pf cfg message "LOGOUT" Ht).
  change (if String.eqb "LOGOUT" "AUTH_TOKEN" then case_AUTH_TOKEN pf cfg message
          else if String.eqb "LOGOUT" "LOGOUT" then case_LOGOUT pf
          else _) with (case_LOGOUT pf).
  destruct (case_LOGOUT_final pf s) as (Ho & Hf & He).
  unfold Eff.try_catch.
  destruct (case_LOGOUT pf s) as [[o s1] t1] eqn:E.
  unfold outcome, final, effects in *. cbn [fst snd] in *. subst o s1.
  cbn [fst snd secureStore asyncStorage authToken].
  split; [reflexivity |]. split; [reflexivity |].
  unfold deleteUnless.
  split; [| split; [| split; [| exact He]]].
  - intros ->. destruct (SecureStore_deleteItem_rejects pf REFRESH_TOKEN_KEY).
    + apply lookup_delete_eq.
    + rewrite lookup_delete_ne by discriminate. apply lookup_delete_eq.
  - intros ->. apply lookup_delete_eq.
  - intros ->. split.
    + apply lookup_delete_eq.
    + rewrite lookup_delete_ne by discriminate. apply lookup_delete_eq.
Qed.

Lemma logout_clears_stores_and_mirror_witness :
  let pf := Reference.platform (fun k => String.eqb k REFRESH_TOKEN_KEY) false false FetchOk in
  let r := handleWebViewMessage pf (config false) (messageText "LOGOUT") exampleShell in
  authToken (final r) = None
  /\ secureStore (final r) !! AUTH_TOKEN_KEY = None
  /\ asyncStorage (final r) !! USER_DATA_KEY = None
  /\ asyncStorage (final r) !! PUSH_TOKEN_KEY = None.
Proof.
  intros pf r.
  destruct (logout_clears_stores_and_mirror pf (config false) (messageText "LOGOUT")
              (JObject [("type", JString "LOGOUT")]) exampleShell eq_refl eq_refl)
    as (_ & Hm & Ha & _ & Hg & _).
  split; [exact Hm |].
  split; [apply Ha; reflexivity |].
  apply Hg. reflexivity.
Defined.

(** ** SHARE *)

(** C7 (as the code has it). A SHARE message never reaches a sharing
    facility: when [payload.url] or [payload.text] is truthy the shell logs
    [Share requested:] and does nothing else; when neither is (absent, or
    falsy such as the empty string) it does nothing at all. The state is
    unchanged either way. *)
Theorem share_only_logs
    (pf : Platform) (cfg : Config) (data : string) (message : JSON) (s : Shell) :
  JSON_parse pf data = Some message ->
  JS.getProp message "type" = Some (JString "SHARE") ->
  handleWebViewMessage pf cfg data s =
  (Some tt, s,
   if JS.truthy_opt (JS.optChain (JS.getProp message "payload") "url")
      || JS.truthy_opt (JS.optChain (JS.getProp message "payload") "text")
   then [ConsoleLog "Share requested:"]
   else []).
Proof.
  intros Hp Ht.
  rewrite (handle_parsed pf cfg data message Hp).
  rewrite (switch_type_string pf cfg message "SHARE" Ht).
  change (if String.eqb "SHARE" "AUTH_TOKEN" then case_AUTH_TOKEN pf cfg message
          else if String.eqb "SHARE" "LOGOUT" then case_LOGOUT pf
          else if String.eqb "SHARE" "SHARE" then case_SHARE message
          else _) with (case_SHARE message).
  unfold case_SHARE, Eff.try_catch.
  destruct (JS.truthy_opt (JS.optChain (JS.getProp message "payload") "url")
            || JS.truthy_opt (JS.optChain (JS.getProp message "payload") "text"));
    reflexivity.
Qed.

Lemma share_only_logs_witness :
  handleWebViewMessage Reference.healthy (config false)
    (messageText1 "SHARE" "url" "https://trustbuild.uk/jobs/1") exampleShell
  = (Some tt, exampleShell, [ConsoleLog "Share requested:"]).
Proof.
  apply (share_only_logs Reference.healthy (config false)
           (messageText1 "SHARE" "url" "https://trustbuild.uk/jobs/1")
           (JObject [("type", JString "SHARE");
                     ("payload", JObject [("url", JString "https://trustbuild.uk/jobs/1")])])
           exampleShell); reflexivity.
Defined.

(** C7 as stated fails: a SHARE message carrying a url does not invoke the
    OS share mechanism, with that payload or any other. *)
Lemma share_forwarded_counterexample :
  ~ exists payload,
      In (NativeShare payload)
         (effects (handleWebViewMessage Reference.healthy (config false)
                     (messageText1 "SHARE" "url" "https://trustbuild.uk/jobs/1")
                     exampleShell)).
Proof.
  intros (payload & H). vm_compute in H.
  destruct H as [H | []]. discriminate H.
Qed.

(** ** AUTH_TOKEN *)

Section AuthTokenFacts.

Variable pf : Platform.
Variable cfg : Config.

Ltac run_monad :=
  unfold mbind, M_bind, mret, M_ret, Eff.bind, Eff.ret, Eff.try_catch, Eff.emit,
    Eff.get, Eff.throw, Eff.modify, outcome, final, effects in *;
  cbn [fst snd] in *.

(** Reading the push token neither throws nor changes the state. *)
Lemma appStorage_getPushToken_reads (s : Shell) :
  exists o t, appStorage_getPushToken pf s = (Some o, s, t).
Proof.
  unfold appStorage_getPushToken, AsyncStorage_getItem.
  destruct (AsyncStorage_getItem_rejects pf PUSH_TOKEN_KEY); run_monad; eauto.
Qed.

(** Registering the push token neither throws nor changes the state. *)
Lemma sendPushTokenToServer_reads (pushToken : string) (s : Shell) :
  exists b t, sendPushTokenToServer pf cfg pushToken s = (Some b, s, t).
Proof.
  unfold sendPushTokenToServer, secureStorage_getAuthToken, SecureStore_getItemAsync.
  destruct (SecureStore_getItem_rejects pf AUTH_TOKEN_KEY); run_monad; eauto.
  destruct (secureStore s !! AUTH_TOKEN_KEY) as [t|]; eauto.
  destruct (JSString.truthy t); eauto.
  destruct (fetch_outcome pf); eauto.
Qed.

Lemma associatePushToken_reads (s : Shell) :
  exists t, associatePushToken pf cfg s = (Some tt, s, t).
Proof.
  unfold associatePushToken.
  destruct (appStorage_getPushToken_reads s) as (o & t & E).
  unfold mbind, M_bind, Eff.bind. rewrite E.
  destruct o as [p|]; [| eexists; reflexivity].
  destruct (JSString.truthy p); [| eexists; reflexivity].
  destruct (sendPushTokenToServer_reads p s) as (b & t' & E').
  rewrite E'. eexists; reflexivity.
Qed.

(** A value that is not a string is refused by the secure store. *)
Lemma setAuthToken_not_string (tok : JSON) (s : Shell) :
  (forall t, tok <> JString t) ->
  secureStorage_setAuthToken pf tok s
  = (None, s, [ConsoleError "Failed to save auth token:"]).
Proof.
  intros Hn. destruct tok; try reflexivity. exfalso. exact (Hn s0 eq_refl).
Qed.

Lemma case_AUTH_TOKEN_falsy (message : JSON) (s : Shell) :
  JS.truthy_opt (JS.optChain (JS.getProp message "payload") "token") = false ->
  case_AUTH_TOKEN pf cfg message s = (Some tt, s, []).
Proof.
  unfold case_AUTH_TOKEN.
  destruct (JS.optChain (JS.getProp message "payload") "token") as [tok|];
    [| reflexivity].
  cbn [JS.truthy_opt]. intros ->. reflexivity.
Qed.

Lemma case_AUTH_TOKEN_not_string (message : JSON) (tok : JSON) (s : Shell) :
  JS.optChain (JS.getProp message "payload") "token" = Some tok ->
  JS.truthy tok = true ->
  (forall t, tok <> JString t) ->
  case_AUTH_TOKEN pf cfg message s
  = (None, s, [ConsoleError "Failed to save auth token:"]).
Proof.
  intros Ht Htr Hn. unfold case_AUTH_TOKEN. rewrite Ht, Htr.
  unfold mbind, M_bind, Eff.bind. rewrite (setAuthToken_not_string tok s Hn).
  reflexivity.
Qed.

Lemma case_AUTH_TOKEN_string (message : JSON) (t : string) (s : Shell) :
  JS.optChain (JS.getProp message "payload") "token" = Some (JString t) ->
  t <> "" ->
  SecureStore_setItem_rejects pf AUTH_TOKEN_KEY = false ->
  outcome (case_AUTH_TOKEN pf cfg message s) = Some tt
  /\ final (case_AUTH_TOKEN pf cfg message s)
     = set_authToken (Some (JString t)) (set_secureStore (insert AUTH_TOKEN_KEY t) s).
Proof.
  intros Ht Hne Hrej. unfold case_AUTH_TOKEN. rewrite Ht.
  assert (Htr : JS.truthy (JString t) = true).
  { cbn. unfold JSString.truthy. destruct (String.eqb_spec t ""); [contradiction | reflexivity]. }
  rewrite Htr.
  change (pushToken ← appStorage_getPushToken pf; _) with (associatePushToken pf cfg).
  unfold secureStorage_setAuthToken, SecureStore_setItemAsync. rewrite Hrej.
  destruct (associatePushToken_reads
              (set_authToken (Some (JString t)) (set_secureStore (insert AUTH_TOKEN_KEY t) s)))
    as (tr & E).
  run_monad. rewrite E. split; reflexivity.
Qed.

End AuthTokenFacts.

Lemma handle_AUTH_TOKEN
    (pf : Platform) (cfg : Config) (data : string) (message : JSON) :
  JSON_parse pf data = Some message ->
  JS.getProp message "type" = Some (JString "AUTH_TOKEN") ->
  handleWebViewMessage pf cfg data
  = Eff.try_catch (case_AUTH_TOKEN pf cfg message) onParseError.
Proof.
  intros Hp Ht. rewrite (handle_parsed pf cfg data message Hp).
  rewrite (switch_type_string pf cfg message "AUTH_TOKEN" Ht). reflexivity.
Qed.

(** C10. For an AUTH_TOKEN message: when [payload] is absent or
    [payload.token] is absent or falsy, the handler does nothing at all;
    whenever [payload.token] is not a non-empty string, both stores and the
    token mirror are unchanged and only console calls are made (so no push
    registration request is sent); and a non-empty string token that the
    secure store accepts is persisted and mirrored. *)
Theorem auth_token_needs_token_string
    (pf : Platform) (cfg : Config) (data : string) (message : JSON) (s : Shell) :
  JSON_parse pf data = Some message ->
  JS.getProp message "type" = Some (JString "AUTH_TOKEN") ->
  let token := JS.optChain (JS.getProp message "payload") "token" in
  let r := handleWebViewMessage pf cfg data s in
  (JS.truthy_opt token = false -> r = (Some tt, s, []))
  /\ ((forall t, token = Some (JString t) -> t = "") ->
      final r = s /\ Forall (fun e => isLogging e = true) (effects r))
  /\ (forall t, token = Some (JString t) -> t <> "" ->
      SecureStore_setItem_rejects pf AUTH_TOKEN_KEY = false ->
      secureStore (final r) !! AUTH_TOKEN_KEY = Some t
      /\ authToken (final r) = Some (JString t)).
Proof.
  intros Hp Ht token r. subst r.
  rewrite (handle_AUTH_TOKEN pf cfg data message Hp Ht).
  assert (Hfalsy : JS.truthy_opt token = false ->
                   Eff.try_catch (case_AUTH_TOKEN pf cfg message) onParseError s
                   = (Some tt, s, [])).
  { intros Hf. unfold Eff.try_catch.
    rewrite (case_AUTH_TOKEN_falsy pf cfg message s Hf). reflexivity. }
  split; [exact Hfalsy |]. split.
  - intros Hns. destruct (JS.truthy_opt token) eqn:Htr.
    + destruct token as [tok|] eqn:Etok; [| discriminate Htr].
      cbn [JS.truthy_opt] in Htr.
      assert (Hn : forall t, tok <> JString t).
      { intros t ->. specialize (Hns t eq_refl). subst t. discriminate Htr. }
      unfold Eff.try_catch.
      rewrite (case_AUTH_TOKEN_not_string pf cfg message tok s Etok Htr Hn).
      split; [reflexivity | repeat constructor].
    + rewrite (Hfalsy eq_refl). split; [reflexivity | constructor].
  - intros t Etok Hne Hrej.
    destruct (case_AUTH_TOKEN_string pf cfg message t s Etok Hne Hrej) as [Ho Hf].
    unfold Eff.try_catch.
    destruct (case_AUTH_TOKEN pf cfg message s) as [[o s1] t1].
    unfold outcome, final in *. cbn [fst snd] in *. subst o s1.
    cbn [fst snd]. split; [apply lookup_insert_eq | reflexivity].
Qed.

Lemma auth_token_needs_token_string_witness :
  handleWebViewMessage Reference.healthy (config false)
    (messageText1 "AUTH_TOKEN" "token" "") exampleShell
  = (Some tt, exampleShell, [])
  /\ final (handleWebViewMessage Reference.healthy (config false)
              (messageText "AUTH_TOKEN") exampleShell) = exampleShell
  /\ authToken (final (handleWebViewMessage Reference.healthy (config false)
                         (messageText1 "AUTH_TOKEN" "token" "fresh") exampleShell))
     = Some (JString "fresh").
Proof.
  split; [| split].
  - apply (auth_token_needs_token_string Reference.healthy (config false)
             (messageText1 "AUTH_TOKEN" "token" "")
             (JObject [("type", JString "AUTH_TOKEN");
                       ("payload", JObject [("token", JString "")])])
             exampleShell eq_refl eq_refl).
    reflexivity.
  - apply (auth_token_needs_token_string Reference.healthy (config false)
             (messageText "AUTH_TOKEN")
             (JObject [("type", JString "AUTH_TOKEN")])
             exampleShell eq_refl eq_refl).
    intros t Habs. discriminate Habs.
  - pose proof (auth_token_needs_token_string Reference.healthy (config false)
                  (messageText1 "AUTH_TOKEN" "token" "fresh")
                  (JObject [("type", JString "AUTH_TOKEN");
                            ("payload", JObject [("token", JString "fresh")])])
                  exampleShell eq_refl eq_refl) as H.
    cbv zeta in H. destruct H as (_ & _ & H).
    apply (H "fresh"); [reflexivity | discriminate | reflexivity].
Defined.

(** ** Script templating *)

Lemma stripPrefix_app (p s : string) : JSLit.stripPrefix p (p +:+ s) = Some s.
Proof.
  induction p as [|c p IH]; [reflexivity |].
  rewrite append_cons. cbn [JSLit.stripPrefix]. rewrite Ascii.eqb_refl. exact IH.
Qed.

Lemma readSingleQuoted_unfold (c : ascii) (r : string) :
  JSLit.readSingleQuoted (String c r) =
  if Ascii.eqb c "'" then Some ("", r)
  else if Ascii.eqb c JSLit.LF || Ascii.eqb c JSLit.CR then None
  else if Ascii.eqb c "\" then
    match r with
    | EmptyString => None
    | String e r' =>
        match JSLit.escape e with
        | Some (Some ch) => JSLit.consValue ch (JSLit.readSingleQuoted r')
        | Some None =>
            match r' with
            | String l r'' =>
                if Ascii.eqb e JSLit.CR && Ascii.eqb l JSLit.LF
                then JSLit.readSingleQuoted r''
                else JSLit.readSingleQuoted r'
            | EmptyString => None
            end
        | None => None
        end
    end
  else JSLit.consValue c (JSLit.readSingleQuoted r).
Proof. reflexivity. Qed.

(** A value with no quote, backslash or line break reads back as itself. *)
Lemma readSingleQuoted_plain (v rest : string) :
  JSLit.plain v = true ->
  JSLit.readSingleQuoted (v +:+ String "'" rest) = Some (v, rest).
Proof.
  induction v as [|c v IH]; intros Hp.
  - reflexivity.
  - cbn [JSLit.plain] in Hp. apply andb_true_iff in Hp. destruct Hp as [Hc Hv].
    apply negb_true_iff in Hc.
    apply orb_false_iff in Hc. destruct Hc as [Hc Hcr].
    apply orb_false_iff in Hc. destruct Hc as [Hc Hlf].
    apply orb_false_iff in Hc. destruct Hc as [Hq Hb].
    rewrite append_cons, readSingleQuoted_unfold, Hq, Hlf, Hcr, Hb.
    cbn [orb]. rewrite (IH Hv). reflexivity.
Qed.

Lemma readSetItemCall_plain (k v rest : string) :
  JSLit.plain k = true -> JSLit.plain v = true ->
  JSLit.readSetItemCall
    ("localStorage.setItem('" +:+ k +:+ "', '" +:+ v +:+ "');" +:+ rest)
  = Some (k, v, rest).
Proof.
  intros Hk Hv. unfold JSLit.readSetItemCall.
  rewrite stripPrefix_app.
  change ("', '" +:+ v +:+ "');" +:+ rest) with (String "'" (", '" +:+ v +:+ "');" +:+ rest)).
  rewrite (readSingleQuoted_plain k _ Hk), stripPrefix_app.
  change ("');" +:+ rest) with (String "'" (");" +:+ rest)).
  rewrite (readSingleQuoted_plain v _ Hv), stripPrefix_app.
  reflexivity.
Qed.

Lemma tokenScript_stores_plain (t : string) :
  JSLit.plain t = true ->
  tokenScript_stores (tokenScript (JString t)) = Some ("auth_token", t).
Proof.
  intros Hp. unfold tokenScript_stores, tokenScript. cbn [JS.toString].
  assert (Hshape : exists tail,
             tokenScript_prefix +:+ t +:+ tokenScript_suffix
             = tokenScript_lead
               +:+ ("localStorage.setItem('" +:+ "auth_token" +:+ "', '" +:+ t +:+ "');" +:+ tail)).
  { eexists. unfold tokenScript_suffix. reflexivity. }
  destruct Hshape as [tail ->].
  rewrite stripPrefix_app, (readSetItemCall_plain "auth_token" t tail eq_refl Hp).
  reflexivity.
Qed.

Lemma navigateScript_reads_plain (u : string) :
  JSLit.plain u = true ->
  JSLit.readHrefAssignment (navigateScript (JString u)) = Some u.
Proof.
  intros Hp. unfold JSLit.readHrefAssignment, navigateScript, navigateScript_prefix.
  cbn [JS.toString]. rewrite stripPrefix_app.
  change (u +:+ "'") with (u +:+ String "'" "").
  rewrite (readSingleQuoted_plain u "" Hp). reflexivity.
Qed.

Lemma truthy_nonempty (t : string) : t <> "" -> JSString.truthy t = true.
Proof.
  intros Hne. unfold JSString.truthy.
  destruct (String.eqb_spec t ""); [contradiction | reflexivity].
Qed.

Lemma handleLoadEnd_injects (s : Shell) (t : string) :
  authToken s = Some (JString t) -> t <> "" -> webViewRef_current s = true ->
  handleLoadEnd s = (Some tt, s, [InjectJavaScript (tokenScript (JString t))]).
Proof.
  intros Ha Hne Hw. unfold handleLoadEnd, mbind, M_bind, Eff.bind, Eff.get.
  rewrite Ha, Hw. cbn [JS.truthy]. rewrite (truthy_nonempty t Hne). reflexivity.
Qed.

Lemma handle_NAVIGATE_injects
    (pf : Platform) (cfg : Config) (data : string) (message : JSON) (s : Shell) (u : string) :
  JSON_parse pf data = Some message ->
  JS.getProp message "type" = Some (JString "NAVIGATE") ->
  JS.optChain (JS.getProp message "payload") "url" = Some (JString u) ->
  u <> "" -> webViewRef_current s = true ->
  handleWebViewMessage pf cfg data s
  = (Some tt, s, [InjectJavaScript (navigateScript (JString u))]).
Proof.
  intros Hp Ht Hu Hne Hw.
  rewrite (handle_parsed pf cfg data message Hp).
  rewrite (switch_type_string pf cfg message "NAVIGATE" Ht).
  change (if String.eqb "NAVIGATE" "AUTH_TOKEN" then _ else _) with (case_NAVIGATE message).
  unfold Eff.try_catch, case_NAVIGATE, mbind, M_bind, Eff.bind, Eff.get.
  rewrite Hu, Hw. cbn [JS.truthy]. rewrite (truthy_nonempty u Hne). reflexivity.
Qed.

(** C9 (as the code has it). Values are placed between single quotes as
    they are, with no escaping. For a token [t] and a url [u] that contain no
    single quote, backslash, line feed or carriage return, the script injected
    on load-end stores exactly [t] under [auth_token], and the script
    injected for NAVIGATE assigns exactly [u] to [window.location.href]. *)
Theorem interpolation_exact_for_plain_values
    (pf : Platform) (cfg : Config) (data : string) (message : JSON) (s : Shell)
    (t u : string) :
  JSLit.plain t = true -> t <> "" ->
  authToken s = Some (JString t) -> webViewRef_current s = true ->
  JSLit.plain u = true -> u <> "" ->
  JSON_parse pf data = Some message ->
  JS.getProp message "type" = Some (JString "NAVIGATE") ->
  JS.optChain (JS.getProp message "payload") "url" = Some (JString u) ->
  (effects (handleLoadEnd s) = [InjectJavaScript (tokenScript (JString t))]
   /\ tokenScript (JString t) = tokenScript_prefix +:+ t +:+ tokenScript_suffix
   /\ tokenScript_stores (tokenScript (JString t)) = Some ("auth_token", t))
  /\ (effects (handleWebViewMessage pf cfg data s)
      = [InjectJavaScript (navigateScript (JString u))]
      /\ navigateScript (JString u) = "window.location.href = '" +:+ u +:+ "'"
      /\ JSLit.readHrefAssignment (navigateScript (JString u)) = Some u).
Proof.
  intros Hpt Hnt Ha Hw Hpu Hnu Hp Hty Hu. split.
  - rewrite (handleLoadEnd_injects s t Ha Hnt Hw).
    split; [reflexivity |]. split; [reflexivity |].
    apply tokenScript_stores_plain, Hpt.
  - rewrite (handle_NAVIGATE_injects pf cfg data message s u Hp Hty Hu Hnu Hw).
    split; [reflexivity |]. split; [reflexivity |].
    apply navigateScript_reads_plain, Hpu.
Qed.

Lemma interpolation_exact_for_plain_values_witness :
  tokenScript_stores (tokenScript (JString "tok")) = Some ("auth_token", "tok")
  /\ JSLit.readHrefAssignment (navigateScript (JString "/jobs/42")) = Some "/jobs/42".
Proof.
  destruct (interpolation_exact_for_plain_values Reference.healthy (config false)
              (messageText1 "NAVIGATE" "url" "/jobs/42")
              (JObject [("type", JString "NAVIGATE");
                        ("payload", JObject [("url", JString "/jobs/42")])])
              exampleShell "tok" "/jobs/42")
    as [(_ & _ & Htok) (_ & _ & Hnav)];
    try reflexivity; try discriminate.
  split; [exact Htok | exact Hnav].
Defined.

(** C9 as stated fails: for the stored token [a'b] the script injected on
    load-end does not store [a'b]; the quote inside the token ends the
    literal, and what follows it is not a well-formed call. *)
Lemma escaping_counterexample :
  let s := {| secureStore := ∅; asyncStorage := ∅;
              authToken := Some (JString "a'b"); webViewRef_current := true |} in
  exists script,
    effects (handleLoadEnd s) = [InjectJavaScript script]
    /\ tokenScript_stores script <> Some ("auth_token", "a'b").
Proof.
  cbv zeta. eexists. split; [reflexivity |].
  vm_compute. discriminate.
Qed.

(** ** Injected bridge script *)

Section BridgeFacts.

Import Bridge.

Lemma runScriptTimes_fields (n : nat) (p : Page) :
  location_hostname (runScriptTimes n p) = location_hostname p
  /\ location_origin (runScriptTimes n p) = location_origin p
  /\ localStorage (runScriptTimes n p) = localStorage p
  /\ setItem (runScriptTimes n p) = Nat.iter n wrappedSetItem (setItem p)
  /\ removeItem (runScriptTimes n p) = Nat.iter n wrappedRemoveItem (removeItem p)
  /\ window_open (runScriptTimes n p) = Nat.iter n wrappedOpen (window_open p)
  /\ clickListeners (runScriptTimes n p) = n + clickListeners p.
Proof.
  induction n as [|n IH]; [repeat split; reflexivity |].
  destruct IH as (H1 & H2 & H3 & H4 & H5 & H6 & H7).
  cbn [runScriptTimes runScript fst location_hostname location_origin localStorage
       setItem removeItem window_open clickListeners].
  rewrite !Nat.iter_succ, H1, H2, H3, H4, H5, H6, H7. repeat split; reflexivity.
Qed.

Lemma call_setItem_wrapped (f : SetItemFn) (value : string) (q : Page) :
  call_setItem (wrappedSetItem f) "auth_token" value q =
  (fst (call_setItem f "auth_token" value q),
   sendMessage "AUTH_TOKEN" (JObject [("token", JString value)])
     :: snd (call_setItem f "auth_token" value q)).
Proof. cbn [call_setItem]. destruct (call_setItem f "auth_token" value q). reflexivity. Qed.

Lemma call_removeItem_wrapped (f : RemoveItemFn) (q : Page) :
  call_removeItem (wrappedRemoveItem f) "auth_token" q =
  (fst (call_removeItem f "auth_token" q),
   sendMessage "LOGOUT" (JObject []) :: snd (call_removeItem f "auth_token" q)).
Proof. cbn [call_removeItem]. destruct (call_removeItem f "auth_token" q). reflexivity. Qed.

(** Every layer forwards once; the browser's function runs once. *)
Lemma call_setItem_layers (n : nat) (value : string) (q : Page) :
  call_setItem (Nat.iter n wrappedSetItem nativeSetItem) "auth_token" value q
  = (with_localStorage (insert "auth_token" value) q,
     repeat (sendMessage "AUTH_TOKEN" (JObject [("token", JString value)])) n).
Proof.
  induction n as [|n IH]; [reflexivity |].
  rewrite Nat.iter_succ, call_setItem_wrapped, IH. reflexivity.
Qed.

Lemma call_removeItem_layers (n : nat) (q : Page) :
  call_removeItem (Nat.iter n wrappedRemoveItem nativeRemoveItem) "auth_token" q
  = (with_localStorage (delete "auth_token") q,
     repeat (sendMessage "LOGOUT" (JObject [])) n).
Proof.
  induction n as [|n IH]; [reflexivity |].
  rewrite Nat.iter_succ, call_removeItem_wrapped, IH. reflexivity.
Qed.

Lemma posted_repeat (v : JSON) (n : nat) :
  posted (repeat (PostMessage v) n) = repeat v n.
Proof. induction n as [|n IH]; [reflexivity |]. cbn. f_equal. exact IH. Qed.

(** The outermost [window.open] wrapper answers a call with a non-empty
    url by itself. *)
Lemma call_open_outermost (pf : Platform) (f : OpenFn) (url : string) (p : Page) :
  JSString.truthy url = true ->
  call_open pf (wrappedOpen f) (Some url) p =
  match URL_parse_base pf url (location_origin p) with
  | Some urlObj =>
      if staysInWebView p urlObj then [SetLocationHref url]
      else [sendMessage "OPEN_EXTERNAL" (JObject [("url", JString url)])]
  | None =>
      [PageWarn "Failed to parse URL in window.open:";
       sendMessage "OPEN_EXTERNAL" (JObject [("url", JString url)])]
  end.
Proof. intros Ht. cbn [call_open]. rewrite Ht. reflexivity. Qed.

End BridgeFacts.

(** C8 (as the code has it). The script has no re-execution guard: each
    execution in one page context adds a forwarding layer to
    [localStorage.setItem] and [localStorage.removeItem]. After [n]
    executions a write of [auth_token] forwards [n] AUTH_TOKEN envelopes and a
    removal [n] LOGOUT envelopes (one each when the script has run once),
    while the underlying write or removal is performed once. [window.open]
    does not stack: for a non-empty url the outermost wrapper answers alone,
    so a call has the same effects after any number of executions, with at
    most one envelope. *)
Theorem bridge_layers_accumulate
    (pf : Platform) (n : nat) (host origin : string) (store : gmap string string)
    (value url : string) :
  JSString.truthy url = true ->
  let fresh := Bridge.freshPage host origin store in
  let p := Bridge.runScriptTimes n fresh in
  (Bridge.posted (snd (Bridge.page_setItem "auth_token" value p))
   = repeat (Bridge.envelope "AUTH_TOKEN" (JObject [("token", JString value)])) n
   /\ Bridge.localStorage (fst (Bridge.page_setItem "auth_token" value p))
      = <["auth_token" := value]> store)
  /\ (Bridge.posted (snd (Bridge.page_removeItem "auth_token" p))
      = repeat (Bridge.envelope "LOGOUT" (JObject [])) n
      /\ Bridge.localStorage (fst (Bridge.page_removeItem "auth_token" p))
         = delete "auth_token" store)
  /\ (Bridge.page_open pf (Some url) (Bridge.runScriptTimes (S n) fresh)
      = Bridge.page_open pf (Some url) (Bridge.runScriptTimes 1 fresh)
      /\ length (Bridge.posted (Bridge.page_open pf (Some url)
                                  (Bridge.runScriptTimes (S n) fresh))) <= 1).
Proof.
  intros Hu fresh p.
  destruct (runScriptTimes_fields n fresh) as (Hh & Ho & Hl & Hs & Hr & Hw & _).
  fold p in Hh, Ho, Hl, Hs, Hr, Hw.
  split; [| split].
  - unfold Bridge.page_setItem. rewrite Hs. cbn [Bridge.setItem fresh Bridge.freshPage].
    rewrite call_setItem_layers. cbn [fst snd Bridge.with_localStorage Bridge.localStorage].
    rewrite Hl. split; [apply posted_repeat | reflexivity].
  - unfold Bridge.page_removeItem. rewrite Hr. cbn [Bridge.removeItem fresh Bridge.freshPage].
    rewrite call_removeItem_layers. cbn [fst snd Bridge.with_localStorage Bridge.localStorage].
    rewrite Hl. split; [apply posted_repeat | reflexivity].
  - assert (Hopen : Bridge.page_open pf (Some url) (Bridge.runScriptTimes (S n) fresh)
                    = Bridge.page_open pf (Some url) (Bridge.runScriptTimes 1 fresh)).
    { unfold Bridge.page_open.
      cbn [Bridge.runScriptTimes Bridge.runScript fst Bridge.window_open].
      rewrite !(call_open_outermost pf _ url _ Hu).
      unfold Bridge.staysInWebView.
      cbn [Bridge.location_origin Bridge.location_hostname].
      fold p. rewrite Hh, Ho. reflexivity. }
    split; [exact Hopen |]. rewrite Hopen.
    unfold Bridge.page_open.
    cbn [Bridge.runScriptTimes Bridge.runScript fst Bridge.window_open].
    rewrite (call_open_outermost pf _ url _ Hu).
    destruct (URL_parse_base pf url _) as [urlObj|]; [| cbn; lia].
    destruct (Bridge.staysInWebView _ urlObj); cbn; lia.
Qed.

Lemma bridge_layers_accumulate_witness :
  Bridge.posted
    (snd (Bridge.page_setItem "auth_token" "tok"
            (Bridge.runScriptTimes 1
               (Bridge.freshPage "trustbuild.uk" "https://trustbuild.uk" ∅))))
  = [Bridge.envelope "AUTH_TOKEN" (JObject [("token", JString "tok")])].
Proof.
  apply (bridge_layers_accumulate Reference.healthy 1 "trustbuild.uk" "https://trustbuild.uk"
           ∅ "tok" "https://twitter.com/share").
  reflexivity.
Defined.

(** C8 as stated fails: after two executions of the script in one page
    context, one write of [auth_token] forwards two AUTH_TOKEN envelopes. *)
Lemma bridge_idempotence_counterexample :
  let p := Bridge.runScriptTimes 2
             (Bridge.freshPage "trustbuild.uk" "https://trustbuild.uk" ∅) in
  Bridge.posted (snd (Bridge.page_setItem "auth_token" "tok" p))
  = [Bridge.envelope "AUTH_TOKEN" (JObject [("token", JString "tok")]);
     Bridge.envelope "AUTH_TOKEN" (JObject [("token", JString "tok")])]
  /\ length (Bridge.posted (snd (Bridge.page_setItem "auth_token" "tok" p))) <> 1.
Proof.
  cbv zeta. split; [reflexivity |].
  vm_compute. discriminate.
Qed.

(** * Further properties *)

(** ** Navigation policy, continued *)

(** X1. Whatever the URL, the parser and the configuration,
    [shouldStartLoadWithRequest] either returns [true] having opened nothing
    externally, or returns [false] having called [RNLinking.openURL] once,
    with the requested URL itself: it never blocks a navigation without
    delegating it, never delegates another URL, and never both loads and
    delegates. *)
Theorem navigation_loads_or_delegates (pf : Platform) (cfg : Config) (url : string) :
  (fst (shouldStartLoadWithRequest pf cfg url) = true
   /\ Forall (fun e => isOpenURL e = false) (snd (shouldStartLoadWithRequest pf cfg url)))
  \/ shouldStartLoadWithRequest pf cfg url = (false, [LinkingOpenURL (JString url)]).
Proof.
  unfold shouldStartLoadWithRequest.
  destruct (startsWith url "about:" || startsWith url "blob:" || startsWith url "data:").
  { left. split; [reflexivity | constructor]. }
  destruct (startsWith url "tel:" || startsWith url "mailto:" || startsWith url "sms:").
  { right. reflexivity. }
  destruct (URL_parse pf url) as [requestUrl|];
    [| left; split; [reflexivity | repeat constructor]].
  destruct (URL_parse pf (webAppUrl cfg)) as [appU|];
    [| left; split; [reflexivity | repeat constructor]].
  destruct (URL_parse pf (apiUrl cfg)) as [apiU|];
    [| left; split; [reflexivity | repeat constructor]].
  destruct (allowedInWebView requestUrl appU apiU).
  { left. split; [reflexivity | constructor]. }
  destruct (startsWith url "http://" || startsWith url "https://").
  - right. reflexivity.
  - left. split; [reflexivity | constructor].
Qed.

(** A URL with a device-handler scheme has none of the whitelisted ones. *)
Lemma device_scheme_not_whitelisted (url : string) :
  startsWith url "tel:" || startsWith url "mailto:" || startsWith url "sms:" = true ->
  startsWith url "about:" || startsWith url "blob:" || startsWith url "data:" = false.
Proof.
  destruct url as [|c url]; [discriminate |].
  cbn [startsWith].
  destruct (Ascii.eqb_spec c "t") as [->|Ht]; [reflexivity |].
  destruct (Ascii.eqb_spec c "m") as [->|Hm]; [reflexivity |].
  destruct (Ascii.eqb_spec c "s") as [->|Hs]; [reflexivity |].
  discriminate.
Qed.

(** X2. Which schemes are delegated. A [tel:], [mailto:] or [sms:] URL
    is always handed to the OS handler and its navigation suppressed, before
    any parsing, whatever the URL parser and the configuration. Apart from
    these only [http://] and [https://] URLs are ever delegated: when the
    function returns [false] the URL starts with one of the five prefixes, so
    a URL of any other scheme ([ftp:], [intent:], a custom app scheme) is
    loaded in the WebView. *)
Theorem delegation_by_scheme (pf : Platform) (cfg : Config) (url : string) :
  (startsWith url "tel:" || startsWith url "mailto:" || startsWith url "sms:" = true ->
   shouldStartLoadWithRequest pf cfg url = (false, [LinkingOpenURL (JString url)]))
  /\ (fst (shouldStartLoadWithRequest pf cfg url) = false ->
      startsWith url "tel:" || startsWith url "mailto:" || startsWith url "sms:"
      || startsWith url "http://" || startsWith url "https://" = true).
Proof.
  split.
  - intros Hd. unfold shouldStartLoadWithRequest.
    rewrite (device_scheme_not_whitelisted url Hd), Hd. reflexivity.
  - unfold shouldStartLoadWithRequest.
    destruct (startsWith url "about:" || startsWith url "blob:" || startsWith url "data:");
      [discriminate |].
    destruct (startsWith url "tel:" || startsWith url "mailto:" || startsWith url "sms:");
      [reflexivity |].
    destruct (URL_parse pf url) as [requestUrl|]; [| discriminate].
    destruct (URL_parse pf (webAppUrl cfg)) as [appU|]; [| discriminate].
    destruct (URL_parse pf (apiUrl cfg)) as [apiU|]; [| discriminate].
    destruct (allowedInWebView requestUrl appU apiU); [discriminate |].
    cbn [orb].
    destruct (startsWith url "http://" || startsWith url "https://");
      [reflexivity | discriminate].
Qed.

Lemma delegation_by_scheme_witness :
  shouldStartLoadWithRequest Reference.healthy (config false) "tel:+441234567890"
  = (false, [LinkingOpenURL (JString "tel:+441234567890")]).
Proof.
  apply (proj1 (delegation_by_scheme Reference.healthy (config false) "tel:+441234567890")).
  reflexivity.
Defined.

(** X3. What the [try] block lets through, exactly: the request's host is
    [localhost] or [127.0.0.1], or its [www.]-stripped form is the stripped
    application domain, the stripped API domain or [stripe.com], or ends with
    a dot followed by one of them, or ends with [.google.com]. The bare
    domain [google.com] is not among them. *)
Theorem allowedInWebView_exactly (requestUrl appU apiU : URL) :
  allowedInWebView requestUrl appU apiU = true <->
  subdomainOrEqual (stripWww (hostname requestUrl)) (stripWww (hostname appU))
  \/ subdomainOrEqual (stripWww (hostname requestUrl)) (stripWww (hostname apiU))
  \/ hostname requestUrl = "localhost"
  \/ hostname requestUrl = "127.0.0.1"
  \/ subdomainOrEqual (stripWww (hostname requestUrl)) "stripe.com"
  \/ (exists sub, stripWww (hostname requestUrl) = sub +:+ ".google.com").
Proof.
  set (h := stripWww (hostname requestUrl)).
  destruct (allowedInWebView requestUrl appU apiU) eqn:Ha.
  - split; [intros _ | reflexivity].
    destruct (String.eqb h (stripWww (hostname appU))
              || endsWith h ("." +:+ stripWww (hostname appU))) eqn:E1.
    { left. apply subdomainOrEqual_bool, E1. }
    destruct (String.eqb h (stripWww (hostname apiU))
              || endsWith h ("." +:+ stripWww (hostname apiU))) eqn:E2.
    { right; left. apply subdomainOrEqual_bool, E2. }
    destruct (String.eqb_spec (hostname requestUrl) "localhost") as [E3|E3]; [tauto |].
    destruct (String.eqb_spec (hostname requestUrl) "127.0.0.1") as [E4|E4]; [tauto |].
    destruct (String.eqb h "stripe.com" || endsWith h ".stripe.com") eqn:E5.
    { do 4 right; left. apply subdomainOrEqual_bool, E5. }
    destruct (endsWith h ".google.com") eqn:E6.
    { do 5 right. apply endsWith_spec, E6. }
    destruct (String.eqb_spec h "accounts.google.com") as [E7|E7].
    { rewrite E7 in E6. discriminate. }
    exfalso. enough (allowedInWebView requestUrl appU apiU = false) by congruence.
    apply allowedInWebView_false. cbv zeta. fold h.
    apply String.eqb_neq in E3, E4, E7. tauto.
  - split; [discriminate |]. intros Hd. exfalso.
    apply allowedInWebView_false in Ha. cbv zeta in Ha. fold h in Ha.
    destruct Ha as (Happ & Hapi & Hl & Hlo & Hs & _ & Hg).
    destruct Hd as [H | [H | [H | [H | [H | H]]]]].
    + apply subdomainOrEqual_bool in H. congruence.
    + apply subdomainOrEqual_bool in H. congruence.
    + apply String.eqb_neq in Hl. contradiction.
    + apply String.eqb_neq in Hlo. contradiction.
    + apply (subdomainOrEqual_bool h "stripe.com") in H.
      change ("." +:+ "stripe.com") with ".stripe.com" in H. congruence.
    + apply endsWith_spec in H. congruence.
Qed.

(** [replace(/^www\./, '')] leaves a host without that prefix alone. *)
Lemma stripWww_no_prefix (d : string) :
  startsWith d "www." = false -> stripWww d = d.
Proof.
  destruct d as [|[b0 b1 b2 b3 b4 b5 b6 b7] d]; [reflexivity |].
  destruct b0, b1, b2, b3, b4, b5, b6, b7; try reflexivity.
  destruct d as [|[b0 b1 b2 b3 b4 b5 b6 b7] d]; [reflexivity |].
  destruct b0, b1, b2, b3, b4, b5, b6, b7; try reflexivity.
  destruct d as [|[b0 b1 b2 b3 b4 b5 b6 b7] d]; [reflexivity |].
  destruct b0, b1, b2, b3, b4, b5, b6, b7; try reflexivity.
  destruct d as [|[b0 b1 b2 b3 b4 b5 b6 b7] d]; [reflexivity |].
  destruct b0, b1, b2, b3, b4, b5, b6, b7; try reflexivity.
  discriminate.
Qed.

(** X4. A leading [www.] makes no difference, on either side: for a domain
    [d] that does not itself start with [www.], configuring [www.d] instead
    of [d] as the application or API host lets through the same requests, and
    a request to [www.d] is decided as a request to [d], provided [d] is not
    [localhost] or [127.0.0.1] (those two are compared unstripped). *)
Theorem www_prefix_symmetry (requestUrl appU apiU : URL) (p d : string) :
  startsWith d "www." = false ->
  allowedInWebView requestUrl {| protocol := p; hostname := "www." +:+ d |} apiU
  = allowedInWebView requestUrl {| protocol := p; hostname := d |} apiU
  /\ allowedInWebView requestUrl appU {| protocol := p; hostname := "www." +:+ d |}
     = allowedInWebView requestUrl appU {| protocol := p; hostname := d |}
  /\ (d <> "localhost" -> d <> "127.0.0.1" ->
      allowedInWebView {| protocol := p; hostname := "www." +:+ d |} appU apiU
      = allowedInWebView {| protocol := p; hostname := d |} appU apiU).
Proof.
  intros Hd. pose proof (stripWww_no_prefix d Hd) as Hs.
  unfold allowedInWebView. cbn [hostname].
  change (stripWww ("www." +:+ d)) with d. rewrite Hs.
  split; [reflexivity |]. split; [reflexivity |].
  intros Hl Hlo.
  apply String.eqb_neq in Hl, Hlo. rewrite Hl, Hlo.
  reflexivity.
Qed.

Lemma www_prefix_symmetry_witness :
  allowedInWebView {| protocol := "https:"; hostname := "www.trustbuild.uk" |}
                   {| protocol := "https:"; hostname := "trustbuild.uk" |}
                   {| protocol := "https:"; hostname := "api.trustbuild.uk" |}
  = allowedInWebView {| protocol := "https:"; hostname := "trustbuild.uk" |}
                     {| protocol := "https:"; hostname := "trustbuild.uk" |}
                     {| protocol := "https:"; hostname := "api.trustbuild.uk" |}.
Proof.
  apply (www_prefix_symmetry
           {| protocol := "https:"; hostname := "trustbuild.uk" |}
           {| protocol := "https:"; hostname := "trustbuild.uk" |}
           {| protocol := "https:"; hostname := "api.trustbuild.uk" |}
           "https:" "trustbuild.uk");
    [reflexivity | discriminate | discriminate].
Defined.

(** X5. The two configured URLs are parsed inside the same [try] as the
    request: when either of them does not parse, the [catch] answers for every
    request, and no URL other than a [tel:], [mailto:] or [sms:] one is ever
    delegated; every http(s) URL is loaded in the WebView. *)
Theorem unparseable_config_loads_everything
    (pf : Platform) (cfg : Config) (url : string) :
  URL_parse pf (webAppUrl cfg) = None \/ URL_parse pf (apiUrl cfg) = None ->
  startsWith url "tel:" || startsWith url "mailto:" || startsWith url "sms:" = false ->
  fst (shouldStartLoadWithRequest pf cfg url) = true
  /\ Forall (fun e => isOpenURL e = false) (snd (shouldStartLoadWithRequest pf cfg url)).
Proof.
  intros Hcfg Hd. unfold shouldStartLoadWithRequest. rewrite Hd.
  destruct (startsWith url "about:" || startsWith url "blob:" || startsWith url "data:").
  { split; [reflexivity | constructor]. }
  destruct (URL_parse pf url) as [requestUrl|];
    [| split; [reflexivity | repeat constructor]].
  destruct Hcfg as [-> | Hapi]; [split; [reflexivity | repeat constructor] |].
  rewrite Hapi.
  destruct (URL_parse pf (webAppUrl cfg)); split; try reflexivity; repeat constructor.
Qed.

Lemma unparseable_config_loads_everything_witness :
  fst (shouldStartLoadWithRequest Reference.healthy
         {| webAppUrl := "trustbuild.uk"; apiUrl := "https://api.trustbuild.uk";
            scheme := "trustbuild" |}
         "https://twitter.com/share") = true.
Proof.
  apply (unparseable_config_loads_everything Reference.healthy
           {| webAppUrl := "trustbuild.uk"; apiUrl := "https://api.trustbuild.uk";
              scheme := "trustbuild" |}
           "https://twitter.com/share").
  - left. reflexivity.
  - reflexivity.
Defined.

(** ** sendPushTokenToServer *)

Section PushRegistrationFacts.

Variable pf : Platform.
Variable cfg : Config.

Ltac run_m :=
  unfold mbind, M_bind, mret, M_ret, Eff.bind, Eff.ret, Eff.try_catch, Eff.emit,
    Eff.get, Eff.throw, Eff.modify, outcome, final, effects in *;
  cbn [fst snd] in *.

Lemma sendPushTokenToServer_without_token (pushToken : string) (s : Shell) :
  usableAuthToken pf s = None ->
  exists l, sendPushTokenToServer pf cfg pushToken s = (Some false, s, l)
            /\ Forall (fun e => isLogging e = true) l.
Proof.
  unfold usableAuthToken, sendPushTokenToServer, secureStorage_getAuthToken,
    SecureStore_getItemAsync.
  destruct (SecureStore_getItem_rejects pf AUTH_TOKEN_KEY); run_m.
  { intros _. eexists. split; [reflexivity | repeat constructor]. }
  destruct (secureStore s !! AUTH_TOKEN_KEY) as [t|].
  - destruct (JSString.truthy t); [discriminate |].
    intros _. eexists. split; [reflexivity | repeat constructor].
  - intros _. eexists. split; [reflexivity | repeat constructor].
Qed.

Lemma sendPushTokenToServer_with_token (pushToken t : string) (s : Shell) :
  usableAuthToken pf s = Some t ->
  exists l,
    sendPushTokenToServer pf cfg pushToken s
    = (Some (match fetch_outcome pf with FetchOk => true | _ => false end), s,
       Fetch (pushTokenEndpoint cfg) t pushToken :: l)
    /\ Forall (fun e => isLogging e = true) l.
Proof.
  unfold usableAuthToken, sendPushTokenToServer, secureStorage_getAuthToken,
    SecureStore_getItemAsync, pushTokenEndpoint.
  destruct (SecureStore_getItem_rejects pf AUTH_TOKEN_KEY); [discriminate |]. run_m.
  destruct (secureStore s !! AUTH_TOKEN_KEY) as [t'|]; [| discriminate].
  destruct (JSString.truthy t') eqn:Ht; [| discriminate].
  intros [= ->].
  destruct (fetch_outcome pf); eexists; (split; [reflexivity | repeat constructor]).
Qed.

End PushRegistrationFacts.

(** X6. [sendPushTokenToServer] never throws and never changes the stores.
    It sends a request only when the secure store yields a non-empty auth
    token, to [apiUrl/users/me/push-token], carrying that token as bearer and
    the push token given; it answers [true] exactly when a request was sent
    and the server answered 2xx. A rejected read, a missing or an empty auth
    token, a non-2xx answer and a network error all give [false]. *)
Theorem sendPushTokenToServer_behaviour
    (pf : Platform) (cfg : Config) (pushToken : string) (s : Shell) :
  let r := sendPushTokenToServer pf cfg pushToken s in
  final r = s
  /\ (exists b, outcome r = Some b
                /\ (b = true <-> (exists t, usableAuthToken pf s = Some t)
                                 /\ fetch_outcome pf = FetchOk))
  /\ (forall e, In e (effects r) -> isLogging e = false ->
        exists t, usableAuthToken pf s = Some t
                  /\ e = Fetch (pushTokenEndpoint cfg) t pushToken)
  /\ (forall t, usableAuthToken pf s = Some t ->
        In (Fetch (pushTokenEndpoint cfg) t pushToken) (effects r)).
Proof.
  cbv zeta. destruct (usableAuthToken pf s) as [t|] eqn:Hu.
  - destruct (sendPushTokenToServer_with_token pf cfg pushToken t s Hu) as (l & -> & Hl).
    unfold final, outcome, effects. cbn [fst snd].
    split; [reflexivity |]. split; [| split].
    + eexists. split; [reflexivity |].
      destruct (fetch_outcome pf); split; try discriminate; try tauto; eauto.
      * intros [_ H]. discriminate H.
      * intros [_ H]. discriminate H.
    + intros e [<- | Hin] Hnl; [eauto |].
      rewrite Forall_forall in Hl. rewrite (Hl e) in Hnl; [discriminate |].
      apply list_elem_of_In, Hin.
    + intros t' [= <-]. left. reflexivity.
  - destruct (sendPushTokenToServer_without_token pf cfg pushToken s Hu) as (l & -> & Hl).
    unfold final, outcome, effects. cbn [fst snd].
    split; [reflexivity |]. split; [| split].
    + exists false. split; [reflexivity |].
      split; [discriminate | intros [[t Ht] _]; discriminate Ht].
    + intros e Hin Hnl.
      rewrite Forall_forall in Hl. rewrite (Hl e) in Hnl; [discriminate |].
      apply list_elem_of_In, Hin.
    + intros t Ht. discriminate Ht.
Qed.

Lemma sendPushTokenToServer_behaviour_witness :
  In (Fetch "https://api.trustbuild.uk/users/me/push-token" "tok" "ExponentPushToken[x]")
     (effects (sendPushTokenToServer Reference.healthy (config false)
                 "ExponentPushToken[x]" exampleShell)).
Proof.
  pose proof (sendPushTokenToServer_behaviour Reference.healthy (config false)
                "ExponentPushToken[x]" exampleShell) as H.
  cbv zeta in H. destruct H as (_ & _ & _ & H).
  apply (H "tok"). reflexivity.
Defined.

(** ** Message dispatcher, continued *)

Section DispatcherMoreFacts.

Variable pf : Platform.
Variable cfg : Config.

Lemma try_catch_onParseError_final (m : M unit) (s : Shell) :
  final (Eff.try_catch m onParseError s) = final (m s).
Proof.
  unfold Eff.try_catch, onParseError, Eff.emit, final.
  destruct (m s) as [[[[]|] s1] t1]; reflexivity.
Qed.

Lemma try_catch_onParseError_effects (m : M unit) (s : Shell) (e : Effect) :
  In e (effects (Eff.try_catch m onParseError s)) -> isLogging e = false ->
  In e (effects (m s)).
Proof.
  unfold Eff.try_catch, onParseError, Eff.emit, effects.
  destruct (m s) as [[[[]|] s1] t1]; cbn [fst snd]; [tauto |].
  intros Hin Hnl. apply in_app_or in Hin. destruct Hin as [Hin | [<- | []]];
    [exact Hin | discriminate Hnl].
Qed.

Lemma try_catch_onParseError_effects_incl (m : M unit) (s : Shell) (e : Effect) :
  In e (effects (m s)) -> In e (effects (Eff.try_catch m onParseError s)).
Proof.
  unfold Eff.try_catch, onParseError, Eff.emit, effects.
  destruct (m s) as [[[[]|] s1] t1]; cbn [fst snd]; [tauto |].
  intros Hin. apply in_or_app. left. exact Hin.
Qed.

(** What the tail of the AUTH_TOKEN arm does, by the tokens it can read. *)
Lemma associatePushToken_unusable (s : Shell) :
  usablePushToken pf s = None ->
  exists l, associatePushToken pf cfg s = (Some tt, s, l)
            /\ Forall (fun e => isLogging e = true) l.
Proof.
  unfold usablePushToken, associatePushToken, appStorage_getPushToken, AsyncStorage_getItem.
  unfold mbind, M_bind, mret, M_ret, Eff.bind, Eff.ret, Eff.try_catch, Eff.emit, Eff.get,
    Eff.throw.
  destruct (AsyncStorage_getItem_rejects pf PUSH_TOKEN_KEY).
  { intros _. eexists. split; [reflexivity | repeat constructor]. }
  destruct (asyncStorage s !! PUSH_TOKEN_KEY) as [p|].
  - destruct (JSString.truthy p); [discriminate |].
    intros _. eexists. split; [reflexivity | repeat constructor].
  - intros _. eexists. split; [reflexivity | repeat constructor].
Qed.

Lemma associatePushToken_usable (s : Shell) (p : string) :
  usablePushToken pf s = Some p ->
  associatePushToken pf cfg s
  = (Some tt, s, effects (sendPushTokenToServer pf cfg p s)).
Proof.
  unfold usablePushToken, associatePushToken, appStorage_getPushToken, AsyncStorage_getItem.
  destruct (AsyncStorage_getItem_rejects pf PUSH_TOKEN_KEY); [discriminate |].
  destruct (asyncStorage s !! PUSH_TOKEN_KEY) as [p'|] eqn:Hp; [| discriminate].
  destruct (JSString.truthy p') eqn:Ht; [| discriminate].
  intros [= ->].
  destruct (sendPushTokenToServer_reads pf cfg p s) as (b & t & E).
  unfold mbind, M_bind, mret, M_ret, Eff.bind, Eff.ret, Eff.try_catch, Eff.emit, Eff.get,
    Eff.throw, effects.
  rewrite Hp. cbn [fst snd]. rewrite Ht, E. cbn [fst snd app].
  rewrite app_nil_r. reflexivity.
Qed.

(** The AUTH_TOKEN arm when the secure store takes the token. *)
Lemma case_AUTH_TOKEN_accepted (message : JSON) (t : string) (s : Shell) :
  JS.optChain (JS.getProp message "payload") "token" = Some (JString t) ->
  t <> "" ->
  SecureStore_setItem_rejects pf AUTH_TOKEN_KEY = false ->
  case_AUTH_TOKEN pf cfg message s = associatePushToken pf cfg (withSession t s).
Proof.
  intros Ht Hne Hrej. unfold case_AUTH_TOKEN. rewrite Ht.
  cbn [JS.truthy]. rewrite (truthy_nonempty t Hne).
  change (pushToken ← appStorage_getPushToken pf; _) with (associatePushToken pf cfg).
  unfold secureStorage_setAuthToken, SecureStore_setItemAsync. rewrite Hrej.
  destruct (associatePushToken_reads pf cfg (withSession t s)) as (tr & E).
  unfold mbind, M_bind, Eff.bind, Eff.try_catch, Eff.modify.
  fold (withSession t s). rewrite E. reflexivity.
Qed.

(** The AUTH_TOKEN arm when the secure store rejects the write. *)
Lemma case_AUTH_TOKEN_rejected (message tok : JSON) (s : Shell) :
  JS.optChain (JS.getProp message "payload") "token" = Some tok ->
  JS.truthy tok = true ->
  SecureStore_setItem_rejects pf AUTH_TOKEN_KEY = true ->
  case_AUTH_TOKEN pf cfg message s
  = (None, s, [ConsoleError "Failed to save auth token:"]).
Proof.
  intros Ht Htr Hrej. unfold case_AUTH_TOKEN. rewrite Ht, Htr.
  unfold mbind, M_bind, Eff.bind, secureStorage_setAuthToken, SecureStore_setItemAsync.
  rewrite Hrej. destruct tok; reflexivity.
Qed.

End DispatcherMoreFacts.

Section DispatcherFrame.

Variable pf : Platform.
Variable cfg : Config.

Lemma truthy_string_nonempty (t : string) : JS.truthy (JString t) = true -> t <> "".
Proof.
  cbn. unfold JSString.truthy. intros H ->. discriminate H.
Qed.

Lemma associatePushToken_final (s : Shell) :
  final (associatePushToken pf cfg s) = s.
Proof.
  destruct (associatePushToken_reads pf cfg s) as (t & ->). reflexivity.
Qed.

(** The AUTH_TOKEN arm either leaves the state alone, making console calls
    only, or persists and mirrors a non-empty string token and goes on to the
    push registration. *)
Lemma case_AUTH_TOKEN_analysis (message : JSON) (s : Shell) :
  (final (case_AUTH_TOKEN pf cfg message s) = s
   /\ Forall (fun e => isLogging e = true) (effects (case_AUTH_TOKEN pf cfg message s)))
  \/ (exists t,
        JS.optChain (JS.getProp message "payload") "token" = Some (JString t)
        /\ t <> ""
        /\ SecureStore_setItem_rejects pf AUTH_TOKEN_KEY = false
        /\ case_AUTH_TOKEN pf cfg message s = associatePushToken pf cfg (withSession t s)).
Proof.
  destruct (JS.truthy_opt (JS.optChain (JS.getProp message "payload") "token")) eqn:Htr.
  - destruct (JS.optChain (JS.getProp message "payload") "token") as [tok|] eqn:Etok;
      [| discriminate Htr].
    cbn [JS.truthy_opt] in Htr.
    destruct (SecureStore_setItem_rejects pf AUTH_TOKEN_KEY) eqn:Hrej.
    + left. rewrite (case_AUTH_TOKEN_rejected pf cfg message tok s Etok Htr Hrej).
      split; [reflexivity | repeat constructor].
    + destruct tok as [| b | n | t | l | f];
        try (left;
             rewrite (case_AUTH_TOKEN_not_string pf cfg message _ s Etok Htr)
               by (intros ? ?; discriminate);
             split; [reflexivity | repeat constructor]).
      right. exists t. split; [reflexivity |].
      pose proof (truthy_string_nonempty t Htr) as Hne.
      split; [exact Hne |]. split; [reflexivity |].
      apply (case_AUTH_TOKEN_accepted pf cfg message t s Etok Hne Hrej).
  - left. rewrite (case_AUTH_TOKEN_falsy pf cfg message s Htr).
    split; [reflexivity | constructor].
Qed.

Lemma case_SHARE_final (message : JSON) (s : Shell) :
  final (case_SHARE message s) = s
  /\ Forall (fun e => isLogging e = true) (effects (case_SHARE message s)).
Proof.
  unfold case_SHARE.
  destruct (JS.truthy_opt _ || JS.truthy_opt _);
    (split; [reflexivity | repeat constructor]).
Qed.

Lemma case_OPEN_EXTERNAL_run (message : JSON) (s : Shell) :
  case_OPEN_EXTERNAL message s
  = (Some tt, s,
     match JS.optChain (JS.getProp message "payload") "url" with
     | Some u => if JS.truthy u then [LinkingOpenURL u] else []
     | None => []
     end).
Proof.
  unfold case_OPEN_EXTERNAL.
  destruct (JS.optChain (JS.getProp message "payload") "url") as [u|]; [| reflexivity].
  destruct (JS.truthy u); reflexivity.
Qed.

(** The NAVIGATE arm leaves the state alone; it injects one script, or
    nothing (also when the url cannot be converted and the arm throws). *)
Lemma case_NAVIGATE_run (message : JSON) (s : Shell) :
  exists o,
    case_NAVIGATE message s
    = (o, s,
       match JS.optChain (JS.getProp message "payload") "url" with
       | Some u =>
           if JS.truthy u && webViewRef_current s && negb (JS.toStringThrows u)
           then [InjectJavaScript (navigateScript u)] else []
       | None => []
       end).
Proof.
  unfold case_NAVIGATE.
  destruct (JS.optChain (JS.getProp message "payload") "url") as [u|];
    [| eexists; reflexivity].
  unfold mbind, M_bind, Eff.bind, Eff.get.
  destruct (JS.truthy u && webViewRef_current s); [| eexists; reflexivity].
  destruct (JS.toStringThrows u); eexists; reflexivity.
Qed.

Lemma switch_type_kind (message : JSON) :
  switch_type pf cfg message =
  match message with
  | JNull => Eff.throw
  | _ =>
      match kindOf message with
      | K_AUTH_TOKEN => case_AUTH_TOKEN pf cfg message
      | K_LOGOUT => case_LOGOUT pf
      | K_SHARE => case_SHARE message
      | K_OPEN_EXTERNAL => case_OPEN_EXTERNAL message
      | K_NAVIGATE => case_NAVIGATE message
      | K_UNKNOWN => Eff.emit (ConsoleLog "Unknown message type:")
      end
  end.
Proof.
  unfold switch_type, kindOf.
  destruct message; try reflexivity.
  destruct (JS.getProp (JObject fields) "type") as [[| | |type| |]|]; try reflexivity.
  destruct (String.eqb type "AUTH_TOKEN"); [reflexivity |].
  destruct (String.eqb type "LOGOUT"); [reflexivity |].
  destruct (String.eqb type "SHARE"); [reflexivity |].
  destruct (String.eqb type "OPEN_EXTERNAL"); [reflexivity |].
  destruct (String.eqb type "NAVIGATE"); reflexivity.
Qed.

Lemma usableAuthToken_withSession (t t' : string) (s : Shell) :
  usableAuthToken pf (withSession t s) = Some t' -> t' = t.
Proof.
  unfold usableAuthToken, withSession.
  destruct (SecureStore_getItem_rejects pf AUTH_TOKEN_KEY); [discriminate |].
  cbn [secureStore set_authToken set_secureStore]. rewrite lookup_insert_eq.
  destruct (JSString.truthy t); [| discriminate]. congruence.
Qed.

Lemma usableAuthToken_withSession_read (t : string) (s : Shell) :
  t <> "" -> SecureStore_getItem_rejects pf AUTH_TOKEN_KEY = false ->
  usableAuthToken pf (withSession t s) = Some t.
Proof.
  intros Hne Hrej. unfold usableAuthToken, withSession. rewrite Hrej.
  cbn [secureStore set_authToken set_secureStore]. rewrite lookup_insert_eq.
  rewrite (truthy_nonempty t Hne). reflexivity.
Qed.

(** The effects of the push registration that follows a mirrored token. *)
Lemma associatePushToken_effects (t : string) (s : Shell) (e : Effect) :
  In e (effects (associatePushToken pf cfg (withSession t s))) ->
  isLogging e = false ->
  exists p, usablePushToken pf s = Some p /\ e = Fetch (pushTokenEndpoint cfg) t p.
Proof.
  intros Hin Hnl.
  change (usablePushToken pf s) with (usablePushToken pf (withSession t s)).
  destruct (usablePushToken pf (withSession t s)) as [p|] eqn:Hp.
  - rewrite (associatePushToken_usable pf cfg _ p Hp) in Hin.
    unfold effects at 1 in Hin. cbn [snd] in Hin.
    exists p. split; [reflexivity |].
    destruct (usableAuthToken pf (withSession t s)) as [t'|] eqn:Hu.
    + pose proof (usableAuthToken_withSession t t' s Hu) as ->.
      destruct (sendPushTokenToServer_with_token pf cfg p t _ Hu) as (l & E & Hl).
      rewrite E in Hin. unfold effects in Hin. cbn [snd] in Hin.
      destruct Hin as [<- | Hin]; [reflexivity |].
      rewrite Forall_forall in Hl. rewrite (Hl e) in Hnl; [discriminate |].
      apply list_elem_of_In, Hin.
    + destruct (sendPushTokenToServer_without_token pf cfg p _ Hu) as (l & E & Hl).
      rewrite E in Hin. unfold effects in Hin. cbn [snd] in Hin.
      rewrite Forall_forall in Hl. rewrite (Hl e) in Hnl; [discriminate |].
      apply list_elem_of_In, Hin.
  - destruct (associatePushToken_unusable pf cfg _ Hp) as (l & E & Hl).
    rewrite E in Hin. unfold effects in Hin. cbn [snd] in Hin.
    rewrite Forall_forall in Hl. rewrite (Hl e) in Hnl; [discriminate |].
    apply list_elem_of_In, Hin.
Qed.

Lemma logging_not_in (l : list Effect) (e : Effect) :
  Forall (fun e => isLogging e = true) l -> In e l -> isLogging e = false -> False.
Proof.
  intros Hl Hin Hnl. rewrite Forall_forall in Hl.
  rewrite (Hl e) in Hnl; [discriminate |]. apply list_elem_of_In, Hin.
Qed.

End DispatcherFrame.

(** X7. What a message can change. No message changes whether the WebView
    is mounted; only LOGOUT touches the general store; only AUTH_TOKEN and
    LOGOUT change the shell state at all, and AUTH_TOKEN changes it in one
    way only: the token is written under [auth_token] in the secure store and
    becomes the mirror. *)
Theorem dispatcher_frame
    (pf : Platform) (cfg : Config) (data : string) (message : JSON) (s : Shell) :
  JSON_parse pf data = Some message ->
  let r := handleWebViewMessage pf cfg data s in
  webViewRef_current (final r) = webViewRef_current s
  /\ (kindOf message <> K_LOGOUT -> asyncStorage (final r) = asyncStorage s)
  /\ (kindOf message <> K_AUTH_TOKEN -> kindOf message <> K_LOGOUT -> final r = s)
  /\ (kindOf message = K_AUTH_TOKEN ->
      final r = s
      \/ exists t, JS.optChain (JS.getProp message "payload") "token" = Some (JString t)
                   /\ t <> "" /\ final r = withSession t s).
Proof.
  intros Hp r. subst r.
  rewrite (handle_parsed pf cfg data message Hp), try_catch_onParseError_final.
  rewrite (switch_type_kind pf cfg message).
  assert (Hnull : kindOf JNull = K_UNKNOWN) by reflexivity.
  destruct (kindOf message) eqn:Hk.
  - (* AUTH_TOKEN *)
    assert (Hm : match message with
                 | JNull => Eff.throw
                 | _ => case_AUTH_TOKEN pf cfg message
                 end = case_AUTH_TOKEN pf cfg message).
    { destruct message; try reflexivity. rewrite Hnull in Hk. discriminate Hk. }
    rewrite Hm.
    destruct (case_AUTH_TOKEN_analysis pf cfg message s) as [[Hf _] | (t & Ht & Hne & _ & E)].
    + rewrite Hf. repeat split; try reflexivity; try congruence. intros _. left. reflexivity.
    + rewrite E, (associatePushToken_final pf cfg).
      repeat split; try reflexivity; try congruence. intros _. right. eauto.
  - (* LOGOUT *)
    assert (Hm : match message with
                 | JNull => Eff.throw
                 | _ => case_LOGOUT pf
                 end = case_LOGOUT pf).
    { destruct message; try reflexivity. rewrite Hnull in Hk. discriminate Hk. }
    rewrite Hm. destruct (case_LOGOUT_final pf s) as (_ & -> & _).
    repeat split; try reflexivity; try congruence.
  - assert (Hf : final (match message with
                        | JNull => Eff.throw
                        | _ => case_SHARE message
                        end s) = s).
    { destruct message; try reflexivity; apply case_SHARE_final. }
    rewrite Hf. repeat split; try reflexivity; congruence.
  - assert (Hf : final (match message with
                        | JNull => Eff.throw
                        | _ => case_OPEN_EXTERNAL message
                        end s) = s).
    { destruct message; try reflexivity; rewrite case_OPEN_EXTERNAL_run; reflexivity. }
    rewrite Hf. repeat split; try reflexivity; congruence.
  - assert (Hf : final (match message with
                        | JNull => Eff.throw
                        | _ => case_NAVIGATE message
                        end s) = s).
    { destruct message; try reflexivity;
        match goal with
        | |- final (case_NAVIGATE ?m s) = s =>
            destruct (case_NAVIGATE_run m s) as [o ->]
        end; reflexivity. }
    rewrite Hf. repeat split; try reflexivity; congruence.
  - assert (Hf : final (match message with
                        | JNull => Eff.throw
                        | _ => Eff.emit (ConsoleLog "Unknown message type:")
                        end s) = s).
    { destruct message; reflexivity. }
    rewrite Hf. repeat split; try reflexivity; congruence.
Qed.

Lemma dispatcher_frame_witness :
  final (handleWebViewMessage Reference.healthy (config false)
           (messageText1 "NAVIGATE" "url" "/jobs/42") exampleShell) = exampleShell.
Proof.
  pose proof (dispatcher_frame Reference.healthy (config false)
                (messageText1 "NAVIGATE" "url" "/jobs/42")
                (JObject [("type", JString "NAVIGATE");
                          ("payload", JObject [("url", JString "/jobs/42")])])
                exampleShell eq_refl) as H.
  cbv zeta in H. destruct H as (_ & _ & H & _).
  apply H; discriminate.
Defined.

(** X8. Where the effects of a message come from. Apart from console
    calls, the dispatcher performs only these: an OPEN_EXTERNAL message opens
    exactly its truthy [payload.url]; a NAVIGATE message injects the
    navigation script for its truthy [payload.url], and only while the
    WebView is mounted; an AUTH_TOKEN message sends the stored push token to
    the server with the token of the message as bearer. No message reaches a
    share facility, and LOGOUT, SHARE and unknown messages perform console
    calls only. *)
Theorem dispatcher_effect_provenance
    (pf : Platform) (cfg : Config) (data : string) (message : JSON) (s : Shell)
    (e : Effect) :
  JSON_parse pf data = Some message ->
  In e (effects (handleWebViewMessage pf cfg data s)) ->
  isLogging e = false ->
  (kindOf message = K_OPEN_EXTERNAL
   /\ exists u, JS.optChain (JS.getProp message "payload") "url" = Some u
                /\ JS.truthy u = true /\ e = LinkingOpenURL u)
  \/ (kindOf message = K_NAVIGATE
      /\ webViewRef_current s = true
      /\ exists u, JS.optChain (JS.getProp message "payload") "url" = Some u
                   /\ JS.truthy u = true /\ e = InjectJavaScript (navigateScript u))
  \/ (kindOf message = K_AUTH_TOKEN
      /\ exists t p, JS.optChain (JS.getProp message "payload") "token" = Some (JString t)
                     /\ t <> "" /\ usablePushToken pf s = Some p
                     /\ e = Fetch (pushTokenEndpoint cfg) t p).
Proof.
  intros Hp Hin Hnl.
  rewrite (handle_parsed pf cfg data message Hp) in Hin.
  apply try_catch_onParseError_effects in Hin; [| exact Hnl].
  rewrite (switch_type_kind pf cfg message) in Hin.
  destruct message as [| b | n | str | l | fields];
    try (exfalso; cbn in Hin; destruct Hin as [<- | []]; discriminate Hnl);
    try (exfalso; exact Hin).
  destruct (kindOf (JObject fields)) eqn:Hk.
  - right; right. split; [reflexivity |].
    destruct (case_AUTH_TOKEN_analysis pf cfg (JObject fields) s)
      as [[_ Hl] | (t & Ht & Hne & _ & E)].
    + exfalso. exact (logging_not_in _ e Hl Hin Hnl).
    + rewrite E in Hin.
      destruct (associatePushToken_effects pf cfg t s e Hin Hnl) as (p & Hpt & ->).
      exists t, p. repeat split; assumption.
  - exfalso. destruct (case_LOGOUT_final pf s) as (_ & _ & Hl).
    exact (logging_not_in _ e Hl Hin Hnl).
  - exfalso. destruct (case_SHARE_final (JObject fields) s) as [_ Hl].
    exact (logging_not_in _ e Hl Hin Hnl).
  - left. split; [reflexivity |].
    rewrite case_OPEN_EXTERNAL_run in Hin. unfold effects in Hin. cbn [snd] in Hin.
    destruct (JS.optChain (JS.getProp (JObject fields) "payload") "url") as [u|];
      [| destruct Hin].
    destruct (JS.truthy u) eqn:Hu; [| destruct Hin].
    destruct Hin as [<- | []]. exists u. repeat split; assumption.
  - right; left. split; [reflexivity |].
    destruct (case_NAVIGATE_run (JObject fields) s) as [o Hrun].
    rewrite Hrun in Hin. unfold effects in Hin. cbn [snd] in Hin.
    destruct (JS.optChain (JS.getProp (JObject fields) "payload") "url") as [u|];
      [| destruct Hin].
    destruct (JS.truthy u) eqn:Hu; [| destruct Hin].
    destruct (webViewRef_current s) eqn:Hw; [| destruct Hin].
    destruct (JS.toStringThrows u); [destruct Hin |].
    destruct Hin as [<- | []]. split; [reflexivity |]. exists u. repeat split; assumption.
  - exfalso. cbn in Hin. destruct Hin as [<- | []]. discriminate Hnl.
Qed.

Lemma dispatcher_effect_provenance_witness :
  kindOf (JObject [("type", JString "OPEN_EXTERNAL");
                   ("payload", JObject [("url", JString "https://maps.example/x")])])
  = K_OPEN_EXTERNAL
  \/ webViewRef_current exampleShell = true
  \/ usablePushToken Reference.healthy exampleShell <> None.
Proof.
  destruct (dispatcher_effect_provenance Reference.healthy (config false)
              (messageText1 "OPEN_EXTERNAL" "url" "https://maps.example/x")
              (JObject [("type", JString "OPEN_EXTERNAL");
                        ("payload", JObject [("url", JString "https://maps.example/x")])])
              exampleShell
              (LinkingOpenURL (JString "https://maps.example/x"))
              eq_refl (or_introl eq_refl) eq_refl)
    as [[Hk _] | [(_ & Hw & _) | (_ & t & p & _ & _ & Hp & _)]].
  - left. exact Hk.
  - right. left. exact Hw.
  - right. right. rewrite Hp. discriminate.
Defined.

Lemma handle_kind_AUTH_TOKEN
    (pf : Platform) (cfg : Config) (data : string) (message : JSON) :
  JSON_parse pf data = Some message ->
  kindOf message = K_AUTH_TOKEN ->
  handleWebViewMessage pf cfg data
  = Eff.try_catch (case_AUTH_TOKEN pf cfg message) onParseError.
Proof.
  intros Hp Hk. rewrite (handle_parsed pf cfg data message Hp).
  rewrite (switch_type_kind pf cfg message), Hk.
  destruct message; try reflexivity. discriminate Hk.
Qed.

(** X9. The mirror follows the secure store: when the secure store
    rejects the write of an AUTH_TOKEN message, the handler absorbs the error,
    the token mirror keeps its old value, no push registration is attempted,
    and nothing but console calls is made. *)
Theorem auth_token_store_failure_keeps_mirror
    (pf : Platform) (cfg : Config) (data : string) (message : JSON) (s : Shell) :
  JSON_parse pf data = Some message ->
  kindOf message = K_AUTH_TOKEN ->
  SecureStore_setItem_rejects pf AUTH_TOKEN_KEY = true ->
  let r := handleWebViewMessage pf cfg data s in
  outcome r = Some tt
  /\ final r = s
  /\ Forall (fun e => isLogging e = true) (effects r).
Proof.
  intros Hp Hk Hrej r. subst r.
  rewrite (handle_kind_AUTH_TOKEN pf cfg data message Hp Hk).
  split; [apply try_catch_emit_total |].
  destruct (case_AUTH_TOKEN_analysis pf cfg message s) as [[Hf Hl] | (t & _ & _ & Hacc & _)];
    [| congruence].
  split; [rewrite try_catch_onParseError_final; exact Hf |].
  unfold Eff.try_catch, onParseError, Eff.emit.
  destruct (case_AUTH_TOKEN pf cfg message s) as [[[[]|] s1] t1];
    unfold effects in *; cbn [fst snd] in *; [exact Hl |].
  apply Forall_app. split; [exact Hl | repeat constructor].
Qed.

Lemma auth_token_store_failure_keeps_mirror_witness :
  final (handleWebViewMessage
           (Reference.platform (fun _ => false) false true FetchOk) (config false)
           (messageText1 "AUTH_TOKEN" "token" "fresh") exampleShell) = exampleShell.
Proof.
  apply (auth_token_store_failure_keeps_mirror
           (Reference.platform (fun _ => false) false true FetchOk) (config false)
           (messageText1 "AUTH_TOKEN" "token" "fresh")
           (JObject [("type", JString "AUTH_TOKEN");
                     ("payload", JObject [("token", JString "fresh")])])
           exampleShell); reflexivity.
Defined.

(** X10. The push registration that follows an accepted AUTH_TOKEN message
    carries the token of that message, not the one stored before: with a
    non-empty push token in the general store and both reads succeeding, the
    request goes to [apiUrl/users/me/push-token] with the new token as bearer,
    after the token has been persisted and mirrored. With no usable push
    token, only console calls are made. *)
Theorem auth_token_registers_push_with_new_token
    (pf : Platform) (cfg : Config) (data : string) (message : JSON) (s : Shell)
    (t : string) :
  JSON_parse pf data = Some message ->
  kindOf message = K_AUTH_TOKEN ->
  JS.optChain (JS.getProp message "payload") "token" = Some (JString t) ->
  t <> "" ->
  SecureStore_setItem_rejects pf AUTH_TOKEN_KEY = false ->
  let r := handleWebViewMessage pf cfg data s in
  final r = withSession t s
  /\ (forall p, usablePushToken pf s = Some p ->
        SecureStore_getItem_rejects pf AUTH_TOKEN_KEY = false ->
        exists l, effects r = Fetch (pushTokenEndpoint cfg) t p :: l
                  /\ Forall (fun e => isLogging e = true) l)
  /\ (usablePushToken pf s = None ->
      Forall (fun e => isLogging e = true) (effects r)).
Proof.
  intros Hp Hk Ht Hne Hrej r. subst r.
  rewrite (handle_kind_AUTH_TOKEN pf cfg data message Hp Hk).
  pose proof (case_AUTH_TOKEN_accepted pf cfg message t s Ht Hne Hrej) as E.
  unfold Eff.try_catch. rewrite E.
  destruct (associatePushToken_reads pf cfg (withSession t s)) as (tr & Etr).
  rewrite Etr. unfold final, effects. cbn [fst snd].
  split; [reflexivity |]. split.
  - intros p Hpt Hget.
    change (usablePushToken pf s) with (usablePushToken pf (withSession t s)) in Hpt.
    rewrite (associatePushToken_usable pf cfg _ p Hpt) in Etr.
    injection Etr as <-.
    destruct (sendPushTokenToServer_with_token pf cfg p t (withSession t s)
                (usableAuthToken_withSession_read pf t s Hne Hget)) as (l & El & Hl).
    rewrite El. unfold effects. cbn [snd]. eauto.
  - intros Hpt.
    change (usablePushToken pf s) with (usablePushToken pf (withSession t s)) in Hpt.
    destruct (associatePushToken_unusable pf cfg _ Hpt) as (l & El & Hl).
    rewrite El in Etr. injection Etr as <-. exact Hl.
Qed.

Lemma auth_token_registers_push_with_new_token_witness :
  exists l,
    effects (handleWebViewMessage Reference.healthy (config false)
               (messageText1 "AUTH_TOKEN" "token" "fresh") exampleShell)
    = Fetch "https://api.trustbuild.uk/users/me/push-token" "fresh" "ExponentPushToken[x]" :: l.
Proof.
  pose proof (auth_token_registers_push_with_new_token Reference.healthy (config false)
                (messageText1 "AUTH_TOKEN" "token" "fresh")
                (JObject [("type", JString "AUTH_TOKEN");
                          ("payload", JObject [("token", JString "fresh")])])
                exampleShell "fresh" eq_refl eq_refl eq_refl) as H.
  cbv zeta in H.
  destruct H as (_ & H & _); [discriminate | reflexivity |].
  destruct (H "ExponentPushToken[x]" eq_refl eq_refl) as (l & El & _).
  exists l. exact El.
Defined.

(** X11. The mirror round trip. After an accepted AUTH_TOKEN message with
    token [t], the next load-end injects the script that writes [t] back into
    the page (while the WebView is mounted); after a LOGOUT message, whatever
    store call failed, the next load-end injects nothing. *)
Theorem mirror_round_trip
    (pf : Platform) (cfg : Config) (data : string) (message : JSON) (s : Shell)
    (t : string) :
  JSON_parse pf data = Some message ->
  webViewRef_current s = true ->
  (kindOf message = K_AUTH_TOKEN ->
   JS.optChain (JS.getProp message "payload") "token" = Some (JString t) ->
   t <> "" ->
   SecureStore_setItem_rejects pf AUTH_TOKEN_KEY = false ->
   effects (handleLoadEnd (final (handleWebViewMessage pf cfg data s)))
   = [InjectJavaScript (tokenScript (JString t))])
  /\ (kindOf message = K_LOGOUT ->
      effects (handleLoadEnd (final (handleWebViewMessage pf cfg data s))) = []).
Proof.
  intros Hp Hw. split.
  - intros Hk Ht Hne Hrej.
    rewrite (handle_kind_AUTH_TOKEN pf cfg data message Hp Hk).
    rewrite try_catch_onParseError_final.
    rewrite (case_AUTH_TOKEN_accepted pf cfg message t s Ht Hne Hrej).
    rewrite (associatePushToken_final pf cfg).
    rewrite (handleLoadEnd_injects (withSession t s) t eq_refl Hne Hw). reflexivity.
  - intros Hk.
    rewrite (handle_parsed pf cfg data message Hp), try_catch_onParseError_final.
    rewrite (switch_type_kind pf cfg message), Hk.
    assert (Hm : match message with
                 | JNull => Eff.throw
                 | _ => case_LOGOUT pf
                 end = case_LOGOUT pf).
    { destruct message; try reflexivity. discriminate Hk. }
    rewrite Hm. destruct (case_LOGOUT_final pf s) as (_ & -> & _). reflexivity.
Qed.

Lemma mirror_round_trip_witness :
  effects (handleLoadEnd
             (final (handleWebViewMessage Reference.healthy (config false)
                       (messageText1 "AUTH_TOKEN" "token" "fresh") exampleShell)))
  = [InjectJavaScript (tokenScript (JString "fresh"))].
Proof.
  apply (mirror_round_trip Reference.healthy (config false)
           (messageText1 "AUTH_TOKEN" "token" "fresh")
           (JObject [("type", JString "AUTH_TOKEN");
                     ("payload", JObject [("token", JString "fresh")])])
           exampleShell "fresh" eq_refl eq_refl);
    [reflexivity | reflexivity | discriminate | reflexivity].
Defined.

(** ** Injected bridge script, continued *)

Section BridgeMoreFacts.

Import Bridge.

Lemma call_setItem_any (f : SetItemFn) (key value : string) (q : Page) :
  call_setItem f key value q
  = (with_localStorage (insert key value) q,
     if String.eqb key "auth_token"
     then repeat (sendMessage "AUTH_TOKEN" (JObject [("token", JString value)]))
                 (setItemLayers f)
     else []).
Proof.
  induction f as [|f IH]; cbn [call_setItem setItemLayers].
  - destruct (String.eqb key "auth_token"); reflexivity.
  - rewrite IH. destruct (String.eqb key "auth_token"); reflexivity.
Qed.

Lemma call_removeItem_any (f : RemoveItemFn) (key : string) (q : Page) :
  call_removeItem f key q
  = (with_localStorage (delete key) q,
     if String.eqb key "auth_token"
     then repeat (sendMessage "LOGOUT" (JObject [])) (removeItemLayers f)
     else []).
Proof.
  induction f as [|f IH]; cbn [call_removeItem removeItemLayers].
  - destruct (String.eqb key "auth_token"); reflexivity.
  - rewrite IH. destruct (String.eqb key "auth_token"); reflexivity.
Qed.

Lemma call_open_falsy (pf : Platform) (f : OpenFn) (url : option string) (q : Page) :
  match url with Some u => JSString.truthy u | None => false end = false ->
  call_open pf f url q = [NativeOpen url].
Proof.
  intros Hf. induction f as [|f IH]; [reflexivity |].
  cbn [call_open]. destruct url as [u|]; [| exact IH].
  rewrite Hf. exact IH.
Qed.

End BridgeMoreFacts.

(** The script's pattern removes [www] and the character after it,
    whatever that character is. *)
Lemma stripWwwChar_www (c : ascii) (r : string) :
  Ascii.eqb c JSLit.LF || Ascii.eqb c JSLit.CR = false ->
  Bridge.stripWwwChar ("www" +:+ String c r) = r.
Proof.
  intros Hc.
  change ("www" +:+ String c r) with (String "w" (String "w" (String "w" (String c r)))).
  unfold Bridge.stripWwwChar. rewrite Hc. reflexivity.
Qed.

(** X12. The storage interception only observes. Whatever wrappers are
    installed, [localStorage.setItem(key, value)] ends with the page's storage
    holding [value] under [key] and nothing else changed, and
    [localStorage.removeItem(key)] with [key] removed; and a key other than
    [auth_token] is never reported to the shell, by either. *)
Theorem storage_interception_transparent (p : Bridge.Page) (key value : string) :
  fst (Bridge.page_setItem key value p)
  = Bridge.with_localStorage (insert key value) p
  /\ fst (Bridge.page_removeItem key p) = Bridge.with_localStorage (delete key) p
  /\ (key <> "auth_token" ->
      snd (Bridge.page_setItem key value p) = []
      /\ snd (Bridge.page_removeItem key p) = []).
Proof.
  unfold Bridge.page_setItem, Bridge.page_removeItem.
  rewrite call_setItem_any, call_removeItem_any. cbn [fst snd].
  split; [reflexivity |]. split; [reflexivity |].
  intros Hk. apply String.eqb_neq in Hk. rewrite Hk. split; reflexivity.
Qed.

Lemma storage_interception_transparent_witness :
  snd (Bridge.page_setItem "refresh_token" "r1"
         (Bridge.runScriptTimes 2
            (Bridge.freshPage "trustbuild.uk" "https://trustbuild.uk" ∅))) = [].
Proof.
  apply (storage_interception_transparent
           (Bridge.runScriptTimes 2
              (Bridge.freshPage "trustbuild.uk" "https://trustbuild.uk" ∅))
           "refresh_token" "r1").
  discriminate.
Defined.

(** X13. Routing of [window.open] once the script has run. A call without
    a url ([undefined], [null] or the empty string) reaches the browser's own
    [window.open], once, through every wrapper. A call with a non-empty url
    never reaches it: it either navigates the page itself to that url or posts
    one OPEN_EXTERNAL envelope carrying that url, and a url that does not
    parse is posted as external after a warning. *)
Theorem window_open_routing
    (pf : Platform) (n : nat) (host origin : string) (store : gmap string string)
    (url : string) :
  let p := Bridge.runScriptTimes (S n) (Bridge.freshPage host origin store) in
  let external :=
    Bridge.sendMessage "OPEN_EXTERNAL" (JObject [("url", JString url)]) in
  Bridge.page_open pf None p = [Bridge.NativeOpen None]
  /\ Bridge.page_open pf (Some "") p = [Bridge.NativeOpen (Some "")]
  /\ (url <> "" ->
      (Bridge.page_open pf (Some url) p = [Bridge.SetLocationHref url]
       \/ Bridge.page_open pf (Some url) p = [external]
       \/ Bridge.page_open pf (Some url) p
          = [Bridge.PageWarn "Failed to parse URL in window.open:"; external])
      /\ (URL_parse_base pf url origin = None ->
          Bridge.page_open pf (Some url) p
          = [Bridge.PageWarn "Failed to parse URL in window.open:"; external])).
Proof.
  intros p external.
  split; [apply call_open_falsy; reflexivity |].
  split; [apply call_open_falsy; reflexivity |].
  intros Hne. pose proof (truthy_nonempty url Hne) as Ht.
  destruct (runScriptTimes_fields n (Bridge.freshPage host origin store))
    as (_ & Ho & _).
  assert (Hopen : Bridge.page_open pf (Some url) p =
                  match URL_parse_base pf url origin with
                  | Some urlObj =>
                      if Bridge.staysInWebView p urlObj then [Bridge.SetLocationHref url]
                      else [external]
                  | None => [Bridge.PageWarn "Failed to parse URL in window.open:"; external]
                  end).
  { unfold Bridge.page_open. subst p.
    cbn [Bridge.runScriptTimes Bridge.runScript fst Bridge.window_open].
    rewrite (call_open_outermost pf _ url _ Ht).
    cbn [Bridge.location_origin]. rewrite Ho. reflexivity. }
  rewrite Hopen. split.
  - destruct (URL_parse_base pf url origin) as [urlObj|]; [| tauto].
    destruct (Bridge.staysInWebView p urlObj); tauto.
  - intros ->. reflexivity.
Qed.

Lemma window_open_routing_witness :
  Bridge.page_open Reference.healthy (Some "https://twitter.com/share")
    (Bridge.runScriptTimes 1
       (Bridge.freshPage "trustbuild.uk" "https://trustbuild.uk" ∅))
  = [Bridge.SetLocationHref "https://twitter.com/share"]
  \/ Bridge.page_open Reference.healthy (Some "https://twitter.com/share")
       (Bridge.runScriptTimes 1
          (Bridge.freshPage "trustbuild.uk" "https://trustbuild.uk" ∅))
     = [Bridge.sendMessage "OPEN_EXTERNAL"
          (JObject [("url", JString "https://twitter.com/share")])]
  \/ Bridge.page_open Reference.healthy (Some "https://twitter.com/share")
       (Bridge.runScriptTimes 1
          (Bridge.freshPage "trustbuild.uk" "https://trustbuild.uk" ∅))
     = [Bridge.PageWarn "Failed to parse URL in window.open:";
        Bridge.sendMessage "OPEN_EXTERNAL"
          (JObject [("url", JString "https://twitter.com/share")])].
Proof.
  pose proof (window_open_routing Reference.healthy 0 "trustbuild.uk"
                "https://trustbuild.uk" ∅ "https://twitter.com/share") as H.
  cbv zeta in H. destruct H as (_ & _ & H).
  destruct H as [H _]; [discriminate |]. exact H.
Defined.

(** X14. The click listener is narrower than [window.open]. Every link the
    listener intercepts (target [_blank], host equal to the page's host or a
    subdomain of it, both taken after the script's prefix replacement) is one
    [window.open] would also navigate in place. The converse fails for the
    payment processor: a [_blank] link whose host, after that replacement, is
    [stripe.com] or a subdomain of it and is neither the page's host nor a
    subdomain of the page's host, is left to the browser's default by the
    listener although [window.open] on the same url navigates in place. *)
Theorem click_narrower_than_window_open
    (pf : Platform) (n : nat) (host origin : string) (store : gmap string string)
    (a : Click.Anchor) :
  let p := Bridge.runScriptTimes (S n) (Bridge.freshPage host origin store) in
  (forall url, Click.onClick pf p (Some a) = Click.Intercepted url ->
     url = Click.href a
     /\ Click.target a = "_blank"
     /\ Bridge.page_open pf (Some url) p = [Bridge.SetLocationHref url])
  /\ (forall urlObj,
        Click.target a = "_blank" -> Click.href a <> "" ->
        URL_parse_base pf (Click.href a) origin = Some urlObj ->
        subdomainOrEqual (Bridge.stripWwwChar (hostname urlObj)) "stripe.com" ->
        ~ subdomainOrEqual (Bridge.stripWwwChar (hostname urlObj))
                           (Bridge.stripWwwChar host) ->
        Click.onClick pf p (Some a) = Click.FallsThrough false
        /\ Bridge.page_open pf (Some (Click.href a)) p
           = [Bridge.SetLocationHref (Click.href a)]).
Proof.
  intros p.
  destruct (runScriptTimes_fields n (Bridge.freshPage host origin store))
    as (Hh & Ho & _).
  assert (Hopen : forall url, JSString.truthy url = true ->
            Bridge.page_open pf (Some url) p =
            match URL_parse_base pf url origin with
            | Some urlObj =>
                if Bridge.staysInWebView p urlObj then [Bridge.SetLocationHref url]
                else [Bridge.sendMessage "OPEN_EXTERNAL" (JObject [("url", JString url)])]
            | None =>
                [Bridge.PageWarn "Failed to parse URL in window.open:";
                 Bridge.sendMessage "OPEN_EXTERNAL" (JObject [("url", JString url)])]
            end).
  { intros url Ht. unfold Bridge.page_open. subst p.
    cbn [Bridge.runScriptTimes Bridge.runScript fst Bridge.window_open].
    rewrite (call_open_outermost pf _ url _ Ht).
    cbn [Bridge.location_origin]. rewrite Ho. reflexivity. }
  assert (Hhost : Bridge.location_hostname p = host).
  { subst p. cbn [Bridge.runScriptTimes Bridge.runScript fst Bridge.location_hostname].
    exact Hh. }
  assert (Horigin : Bridge.location_origin p = origin).
  { subst p. cbn [Bridge.runScriptTimes Bridge.runScript fst Bridge.location_origin].
    exact Ho. }
  split.
  - intros url. unfold Click.onClick. rewrite Horigin.
    destruct (String.eqb_spec (Click.target a) "_blank") as [Hb|]; [| discriminate].
    destruct (JSString.truthy (Click.href a)) eqn:Ht; [| discriminate].
    destruct (URL_parse_base pf (Click.href a) origin) as [urlObj|] eqn:Hp; [| discriminate].
    destruct (Click.isInternalLink p urlObj) eqn:Hi; [| discriminate].
    intros [= <-]. split; [reflexivity |]. split; [exact Hb |].
    rewrite (Hopen _ Ht), Hp.
    unfold Bridge.staysInWebView. unfold Click.isInternalLink in Hi. cbv zeta in Hi.
    rewrite Hi. reflexivity.
  - intros urlObj Hb Hne Hp Hs Hn.
    pose proof (truthy_nonempty _ Hne) as Ht.
    apply (subdomainOrEqual_bool _ "stripe.com") in Hs.
    change ("." +:+ "stripe.com") with ".stripe.com" in Hs.
    apply subdomainOrEqual_bool_false in Hn.
    split.
    + unfold Click.onClick. rewrite Horigin, Hb, Ht, Hp.
      unfold Click.isInternalLink. rewrite Hhost. cbv zeta. rewrite Hn. reflexivity.
    + rewrite (Hopen _ Ht), Hp. unfold Bridge.staysInWebView. rewrite Hhost.
      apply orb_true_iff in Hs.
      destruct (String.eqb (Bridge.stripWwwChar (hostname urlObj))
                           (Bridge.stripWwwChar host));
        [reflexivity |].
      destruct (endsWith (Bridge.stripWwwChar (hostname urlObj))
                         ("." +:+ Bridge.stripWwwChar host));
        [reflexivity |].
      cbn [orb]. destruct Hs as [-> | ->]; [rewrite orb_true_r |]; reflexivity.
Qed.

Lemma click_narrower_than_window_open_witness :
  Click.onClick Reference.healthy
    (Bridge.runScriptTimes 1 (Bridge.freshPage "trustbuild.uk" "https://trustbuild.uk" ∅))
    (Some {| Click.target := "_blank"; Click.href := "https://checkout.stripe.com/pay" |})
  = Click.FallsThrough false
  /\ Bridge.page_open Reference.healthy (Some "https://checkout.stripe.com/pay")
       (Bridge.runScriptTimes 1 (Bridge.freshPage "trustbuild.uk" "https://trustbuild.uk" ∅))
     = [Bridge.SetLocationHref "https://checkout.stripe.com/pay"].
Proof.
  pose proof (click_narrower_than_window_open Reference.healthy 0 "trustbuild.uk"
                "https://trustbuild.uk" ∅
                {| Click.target := "_blank"; Click.href := "https://checkout.stripe.com/pay" |})
    as H.
  cbv zeta in H. destruct H as [_ H].
  apply (H {| protocol := "https:"; hostname := "checkout.stripe.com" |}).
  - reflexivity.
  - discriminate.
  - reflexivity.
  - apply subdomainOrEqual_bool. reflexivity.
  - apply not_subdomainOrEqual. reflexivity.
Defined.

(** X15. Where the bridge and the shell agree on what stays, and where
    they do not. On a page served from the application's host, a url that the
    script's [window.open] navigates in place is one the shell's navigation
    policy then loads in the WebView, provided the script's prefix pattern
    removes from the page's host and from the target's host what the shell's
    own pattern removes (neither starts with [www] followed by a character
    other than a dot). The proviso is needed: the script's test also keeps in
    place a target whose host is the page's host behind [www] and any one
    character, [www-trustbuild.uk] on [trustbuild.uk] say; the shell hands
    such an [http(s)://] url to the OS when its host passes none of the
    shell's own tests. *)
Theorem bridge_navigation_accepted_by_shell
    (pf : Platform) (cfg : Config) (p : Bridge.Page) (url : string)
    (urlObj appU apiU : URL) :
  URL_parse_base pf url (Bridge.location_origin p) = Some urlObj ->
  URL_parse pf url = Some urlObj ->
  URL_parse pf (webAppUrl cfg) = Some appU ->
  URL_parse pf (apiUrl cfg) = Some apiU ->
  stripWww (Bridge.location_hostname p) = stripWww (hostname appU) ->
  startsWith url "tel:" || startsWith url "mailto:" || startsWith url "sms:" = false ->
  (Bridge.stripWwwChar (Bridge.location_hostname p) = stripWww (Bridge.location_hostname p) ->
   Bridge.stripWwwChar (hostname urlObj) = stripWww (hostname urlObj) ->
   Bridge.staysInWebView p urlObj = true ->
   shouldStartLoadWithRequest pf cfg url = (true, []))
  /\ (forall c : ascii,
        Ascii.eqb c JSLit.LF || Ascii.eqb c JSLit.CR = false ->
        hostname urlObj
        = "www" +:+ String c (Bridge.stripWwwChar (Bridge.location_hostname p)) ->
        Bridge.staysInWebView p urlObj = true
        /\ (allowedInWebView urlObj appU apiU = false ->
            startsWith url "http://" || startsWith url "https://" = true ->
            shouldStartLoadWithRequest pf cfg url
            = (false, [LinkingOpenURL (JString url)]))).
Proof.
  intros _ Hreq Happ Hapi Hhost Hd. split.
  - intros Hpage Htarget Hstay.
    assert (Ha : allowedInWebView urlObj appU apiU = true).
    { destruct (allowedInWebView urlObj appU apiU) eqn:E; [reflexivity |].
      apply allowedInWebView_false in E. cbv zeta in E.
      destruct E as (E1 & _ & _ & _ & E5 & _).
      unfold Bridge.staysInWebView in Hstay.
      rewrite Hpage, Htarget, Hhost in Hstay.
      rewrite E1 in Hstay. cbn [orb] in Hstay.
      rewrite orb_comm in Hstay. rewrite E5 in Hstay. discriminate Hstay. }
    unfold shouldStartLoadWithRequest.
    destruct (startsWith url "about:" || startsWith url "blob:" || startsWith url "data:");
      [reflexivity |].
    rewrite Hd, Hreq, Happ, Hapi, Ha. reflexivity.
  - intros c Hc Hh. split.
    + unfold Bridge.staysInWebView. rewrite Hh, (stripWwwChar_www c _ Hc).
      rewrite String.eqb_refl. reflexivity.
    + intros Ha Hhttp.
      rewrite (shouldStartLoad_http pf cfg url urlObj appU apiU Hhttp Hreq Happ Hapi), Ha.
      reflexivity.
Qed.

Lemma bridge_navigation_accepted_by_shell_witness :
  shouldStartLoadWithRequest Reference.healthy (config false)
    "https://checkout.stripe.com/pay" = (true, [])
  /\ (Bridge.staysInWebView
        (Bridge.runScriptTimes 1 (Bridge.freshPage "trustbuild.uk" "https://trustbuild.uk" ∅))
        {| protocol := "https:"; hostname := "www-trustbuild.uk" |} = true
      /\ shouldStartLoadWithRequest Reference.healthy (config false)
           "https://www-trustbuild.uk/x"
         = (false, [LinkingOpenURL (JString "https://www-trustbuild.uk/x")])).
Proof.
  split.
  - apply (proj1 (bridge_navigation_accepted_by_shell Reference.healthy (config false)
             (Bridge.runScriptTimes 1
                (Bridge.freshPage "www.trustbuild.uk" "https://www.trustbuild.uk" ∅))
             "https://checkout.stripe.com/pay"
             {| protocol := "https:"; hostname := "checkout.stripe.com" |}
             {| protocol := "https:"; hostname := "trustbuild.uk" |}
             {| protocol := "https:"; hostname := "api.trustbuild.uk" |}
             eq_refl eq_refl eq_refl eq_refl eq_refl eq_refl));
      reflexivity.
  - destruct (proj2 (bridge_navigation_accepted_by_shell Reference.healthy (config false)
                (Bridge.runScriptTimes 1
                   (Bridge.freshPage "trustbuild.uk" "https://trustbuild.uk" ∅))
                "https://www-trustbuild.uk/x"
                {| protocol := "https:"; hostname := "www-trustbuild.uk" |}
                {| protocol := "https:"; hostname := "trustbuild.uk" |}
                {| protocol := "https:"; hostname := "api.trustbuild.uk" |}
                eq_refl eq_refl eq_refl eq_refl eq_refl eq_refl)
              "-"%char eq_refl eq_refl) as [Hstay Hshell].
    split; [exact Hstay | apply Hshell; reflexivity].
Defined.

(** X16. Write-through from the page to the shell. After one run of the
    script, writing [auth_token] in the page posts one AUTH_TOKEN envelope
    with the value, and removing it posts one LOGOUT envelope. When the shell
    receives text that parses to the posted envelope: a non-empty value that
    the secure store accepts becomes the stored token and the mirror; the
    empty string is ignored, so the shell keeps the session it had although
    the page now holds an empty token; the removal clears the mirror. *)
Theorem token_write_through
    (pf : Platform) (cfg : Config) (host origin : string) (store : gmap string string)
    (value data : string) (s : Shell) :
  let p := Bridge.runScriptTimes 1 (Bridge.freshPage host origin store) in
  let written := Bridge.envelope "AUTH_TOKEN" (JObject [("token", JString value)]) in
  let removed := Bridge.envelope "LOGOUT" (JObject []) in
  Bridge.posted (snd (Bridge.page_setItem "auth_token" value p)) = [written]
  /\ Bridge.posted (snd (Bridge.page_removeItem "auth_token" p)) = [removed]
  /\ (JSON_parse pf data = Some written ->
      (value <> "" -> SecureStore_setItem_rejects pf AUTH_TOKEN_KEY = false ->
       final (handleWebViewMessage pf cfg data s) = withSession value s)
      /\ (value = "" -> handleWebViewMessage pf cfg data s = (Some tt, s, [])))
  /\ (JSON_parse pf data = Some removed ->
      authToken (final (handleWebViewMessage pf cfg data s)) = None).
Proof.
  intros p written removed.
  split; [reflexivity |]. split; [reflexivity |]. split.
  - intros Hp.
    rewrite (handle_kind_AUTH_TOKEN pf cfg data written Hp eq_refl).
    split.
    + intros Hne Hrej. rewrite try_catch_onParseError_final.
      rewrite (case_AUTH_TOKEN_accepted pf cfg written value s eq_refl Hne Hrej).
      apply associatePushToken_final.
    + intros ->. reflexivity.
  - intros Hp.
    rewrite (handle_parsed pf cfg data removed Hp), try_catch_onParseError_final.
    change (switch_type pf cfg removed) with (case_LOGOUT pf).
    destruct (case_LOGOUT_final pf s) as (_ & -> & _). reflexivity.
Qed.

Lemma token_write_through_witness :
  final (handleWebViewMessage Reference.healthy (config false)
           (messageText1 "AUTH_TOKEN" "token" "fresh") exampleShell)
  = withSession "fresh" exampleShell.
Proof.
  pose proof (token_write_through Reference.healthy (config false)
                "trustbuild.uk" "https://trustbuild.uk" ∅ "fresh"
                (messageText1 "AUTH_TOKEN" "token" "fresh") exampleShell) as H.
  cbv zeta in H. destruct H as (_ & _ & H & _).
  destruct (H eq_refl) as [Hw _].
  apply Hw; [discriminate | reflexivity].
Defined.

(** ** src/services/storage.ts *)

Section StorageFacts.

Variable pf : Platform.
Variable host : Host.

Ltac run_storage :=
  unfold secureStorage_setAuthToken, secureStorage_getAuthToken, secureStorage_removeAuthToken,
    secureStorage_setRefreshToken, secureStorage_getRefreshToken,
    secureStorage_removeRefreshToken, appStorage_setUserData, appStorage_removeUserData,
    appStorage_setPushToken, appStorage_getPushToken,
    SecureStore_setItemAsync, SecureStore_getItemAsync, SecureStore_deleteItemAsync,
    AsyncStorage_setItem, AsyncStorage_removeItem, AsyncStorage_getItem,
    mbind, M_bind, mret, M_ret, Eff.bind, Eff.ret, Eff.try_catch, Eff.emit, Eff.get,
    Eff.throw, Eff.modify, outcome, final, effects in *;
  cbn [fst snd] in *.

Lemma setAuthToken_accepted (t : string) (s : Shell) :
  SecureStore_setItem_rejects pf AUTH_TOKEN_KEY = false ->
  secureStorage_setAuthToken pf (JString t) s
  = (Some tt, set_secureStore (insert AUTH_TOKEN_KEY t) s, []).
Proof. intros Hr. run_storage. rewrite Hr. reflexivity. Qed.

Lemma setRefreshToken_accepted (t : string) (s : Shell) :
  SecureStore_setItem_rejects pf REFRESH_TOKEN_KEY = false ->
  secureStorage_setRefreshToken pf (JString t) s
  = (Some tt, set_secureStore (insert REFRESH_TOKEN_KEY t) s, []).
Proof. intros Hr. run_storage. rewrite Hr. reflexivity. Qed.

Lemma getAuthToken_reads (s : Shell) :
  SecureStore_getItem_rejects pf AUTH_TOKEN_KEY = false ->
  secureStorage_getAuthToken pf s = (Some (secureStore s !! AUTH_TOKEN_KEY), s, []).
Proof. intros Hr. run_storage. rewrite Hr. reflexivity. Qed.

Lemma removeAuthToken_accepted (s : Shell) :
  SecureStore_deleteItem_rejects pf AUTH_TOKEN_KEY = false ->
  secureStorage_removeAuthToken pf s
  = (Some tt, set_secureStore (delete AUTH_TOKEN_KEY) s, []).
Proof. intros Hr. run_storage. rewrite Hr. reflexivity. Qed.

End StorageFacts.

(** X17. Secure-store round trip. While the native calls succeed:
    [getAuthToken] after [setAuthToken(t)] returns [t]; saving a refresh token
    in between does not disturb it; and after [removeAuthToken] it returns
    [null]. *)
Theorem secure_storage_round_trip (pf : Platform) (t r : string) (s : Shell) :
  SecureStore_setItem_rejects pf AUTH_TOKEN_KEY = false ->
  SecureStore_getItem_rejects pf AUTH_TOKEN_KEY = false ->
  let s1 := final (secureStorage_setAuthToken pf (JString t) s) in
  outcome (secureStorage_getAuthToken pf s1) = Some (Some t)
  /\ (SecureStore_setItem_rejects pf REFRESH_TOKEN_KEY = false ->
      outcome (secureStorage_getAuthToken pf
                 (final (secureStorage_setRefreshToken pf (JString r) s1))) = Some (Some t))
  /\ (SecureStore_deleteItem_rejects pf AUTH_TOKEN_KEY = false ->
      outcome (secureStorage_getAuthToken pf
                 (final (secureStorage_removeAuthToken pf s1))) = Some None).
Proof.
  intros Hset Hget s1. subst s1.
  rewrite (setAuthToken_accepted pf t s Hset). unfold final at 1 3 5. cbn [fst snd].
  split; [| split].
  - rewrite (getAuthToken_reads pf _ Hget). unfold outcome. cbn [fst snd secureStore set_secureStore].
    rewrite lookup_insert_eq. reflexivity.
  - intros Hr. rewrite (setRefreshToken_accepted pf r _ Hr). unfold final. cbn [fst snd].
    rewrite (getAuthToken_reads pf _ Hget). unfold outcome. cbn [fst snd secureStore set_secureStore].
    rewrite lookup_insert_ne by discriminate. rewrite lookup_insert_eq. reflexivity.
  - intros Hd. rewrite (removeAuthToken_accepted pf _ Hd). unfold final. cbn [fst snd].
    rewrite (getAuthToken_reads pf _ Hget). unfold outcome. cbn [fst snd secureStore set_secureStore].
    rewrite lookup_delete_eq. reflexivity.
Qed.

Lemma secure_storage_round_trip_witness :
  outcome (secureStorage_getAuthToken Reference.healthy
             (final (secureStorage_setAuthToken Reference.healthy (JString "t1") exampleShell)))
  = Some (Some "t1").
Proof.
  apply (secure_storage_round_trip Reference.healthy "t1" "r1" exampleShell);
    reflexivity.
Defined.

Section StorageErrorFacts.

Variable pf : Platform.
Variable host : Host.

Ltac run_all :=
  unfold secureStorage_setAuthToken, secureStorage_getAuthToken, secureStorage_removeAuthToken,
    secureStorage_setRefreshToken, secureStorage_getRefreshToken,
    secureStorage_removeRefreshToken, appStorage_setUserData, appStorage_removeUserData,
    appStorage_getUserData, appStorage_setPushToken, appStorage_getPushToken,
    SecureStore_setItemAsync, SecureStore_getItemAsync, SecureStore_deleteItemAsync,
    AsyncStorage_setItem, AsyncStorage_removeItem, AsyncStorage_getItem,
    mbind, M_bind, mret, M_ret, Eff.bind, Eff.ret, Eff.try_catch, Eff.emit, Eff.get,
    Eff.throw, Eff.modify, outcome, final, effects in *;
  cbn [fst snd] in *.

Lemma getUserData_reads (s : Shell) :
  exists v l, appStorage_getUserData pf s = (Some v, s, l)
              /\ (AsyncStorage_getItem_rejects pf USER_DATA_KEY = true -> v = JNull).
Proof.
  run_all. destruct (AsyncStorage_getItem_rejects pf USER_DATA_KEY).
  { do 2 eexists. split; [reflexivity | reflexivity]. }
  destruct (asyncStorage s !! USER_DATA_KEY) as [d|];
    [| do 2 eexists; split; [reflexivity | discriminate]].
  destruct (JSString.truthy d); [| do 2 eexists; split; [reflexivity | discriminate]].
  destruct (JSON_parse pf d); do 2 eexists; (split; [reflexivity | discriminate]).
Qed.

End StorageErrorFacts.

(** X18. The error contract of the storage service. The four getters never
    throw and never change a store; a rejected read gives [null]. The
    removers never throw either, and a rejected removal leaves the store as it
    was. The four setters are different: a rejected write is logged once and
    thrown again to the caller, with the store unchanged. *)
Theorem storage_error_contract
    (pf : Platform) (host : Host) (s : Shell) (token userData : JSON) (pushToken : string) :
  ((exists o l, secureStorage_getAuthToken pf s = (Some o, s, l)
                /\ (SecureStore_getItem_rejects pf AUTH_TOKEN_KEY = true -> o = None))
   /\ (exists o l, secureStorage_getRefreshToken pf s = (Some o, s, l)
                   /\ (SecureStore_getItem_rejects pf REFRESH_TOKEN_KEY = true -> o = None))
   /\ (exists o l, appStorage_getPushToken pf s = (Some o, s, l)
                   /\ (AsyncStorage_getItem_rejects pf PUSH_TOKEN_KEY = true -> o = None))
   /\ (exists v l, appStorage_getUserData pf s = (Some v, s, l)
                   /\ (AsyncStorage_getItem_rejects pf USER_DATA_KEY = true -> v = JNull)))
  /\ ((outcome (secureStorage_removeAuthToken pf s) = Some tt
       /\ (SecureStore_deleteItem_rejects pf AUTH_TOKEN_KEY = true ->
           final (secureStorage_removeAuthToken pf s) = s))
      /\ (outcome (secureStorage_removeRefreshToken pf s) = Some tt
          /\ (SecureStore_deleteItem_rejects pf REFRESH_TOKEN_KEY = true ->
              final (secureStorage_removeRefreshToken pf s) = s))
      /\ (outcome (appStorage_removeUserData host s) = Some tt
          /\ (AsyncStorage_removeItem_rejects host USER_DATA_KEY = true ->
              final (appStorage_removeUserData host s) = s)))
  /\ ((SecureStore_setItem_rejects pf AUTH_TOKEN_KEY = true ->
       secureStorage_setAuthToken pf token s
       = (None, s, [ConsoleError "Failed to save auth token:"]))
      /\ (SecureStore_setItem_rejects pf REFRESH_TOKEN_KEY = true ->
          secureStorage_setRefreshToken pf token s
          = (None, s, [ConsoleError "Failed to save refresh token:"]))
      /\ (AsyncStorage_setItem_rejects host USER_DATA_KEY = true ->
          appStorage_setUserData host userData s
          = (None, s, [ConsoleError "Failed to save user data:"]))
      /\ (AsyncStorage_setItem_rejects host PUSH_TOKEN_KEY = true ->
          appStorage_setPushToken host pushToken s
          = (None, s, [ConsoleError "Failed to save push token:"]))).
Proof.
  split; [| split].
  - split; [| split; [| split]].
    + unfold secureStorage_getAuthToken, SecureStore_getItemAsync, Eff.try_catch.
      destruct (SecureStore_getItem_rejects pf AUTH_TOKEN_KEY);
        do 2 eexists; (split; [reflexivity | try reflexivity; discriminate]).
    + unfold secureStorage_getRefreshToken, SecureStore_getItemAsync, Eff.try_catch.
      destruct (SecureStore_getItem_rejects pf REFRESH_TOKEN_KEY);
        do 2 eexists; (split; [reflexivity | try reflexivity; discriminate]).
    + unfold appStorage_getPushToken, AsyncStorage_getItem, Eff.try_catch.
      destruct (AsyncStorage_getItem_rejects pf PUSH_TOKEN_KEY);
        do 2 eexists; (split; [reflexivity | try reflexivity; discriminate]).
    + apply getUserData_reads.
  - split; [| split].
    + unfold secureStorage_removeAuthToken, SecureStore_deleteItemAsync, Eff.try_catch.
      destruct (SecureStore_deleteItem_rejects pf AUTH_TOKEN_KEY);
        (split; [reflexivity | try reflexivity; discriminate]).
    + unfold secureStorage_removeRefreshToken, SecureStore_deleteItemAsync, Eff.try_catch.
      destruct (SecureStore_deleteItem_rejects pf REFRESH_TOKEN_KEY);
        (split; [reflexivity | try reflexivity; discriminate]).
    + unfold appStorage_removeUserData, AsyncStorage_removeItem, Eff.try_catch.
      destruct (AsyncStorage_removeItem_rejects host USER_DATA_KEY);
        (split; [reflexivity | try reflexivity; discriminate]).
  - split; [| split; [| split]].
    + intros Hr. unfold secureStorage_setAuthToken, SecureStore_setItemAsync. rewrite Hr.
      destruct token; reflexivity.
    + intros Hr. unfold secureStorage_setRefreshToken, SecureStore_setItemAsync. rewrite Hr.
      destruct token; reflexivity.
    + intros Hr. unfold appStorage_setUserData, AsyncStorage_setItem. rewrite Hr. reflexivity.
    + intros Hr. unfold appStorage_setPushToken, AsyncStorage_setItem. rewrite Hr. reflexivity.
Qed.

Lemma storage_error_contract_witness :
  secureStorage_setAuthToken (Reference.platform (fun _ => false) false true FetchOk)
    (JString "t1") exampleShell
  = (None, exampleShell, [ConsoleError "Failed to save auth token:"]).
Proof.
  pose proof (storage_error_contract
                (Reference.platform (fun _ => false) false true FetchOk)
                (ReferenceHost.phone "ios") exampleShell (JString "t1") JNull "p1") as H.
  destruct H as (_ & _ & H & _).
  apply H. reflexivity.
Defined.

Lemma clearAllStorage_final (pf : Platform) (s : Shell) :
  outcome (clearAllStorage pf s) = Some tt
  /\ final (clearAllStorage pf s) =
     {| secureStore :=
          deleteUnless (SecureStore_deleteItem_rejects pf REFRESH_TOKEN_KEY) REFRESH_TOKEN_KEY
            (deleteUnless (SecureStore_deleteItem_rejects pf AUTH_TOKEN_KEY) AUTH_TOKEN_KEY
               (secureStore s));
        asyncStorage :=
          if AsyncStorage_multiRemove_rejects pf then asyncStorage s
          else delete USER_DATA_KEY (delete PUSH_TOKEN_KEY (asyncStorage s));
        authToken := authToken s;
        webViewRef_current := webViewRef_current s |}
  /\ Forall (fun e => isLogging e = true) (effects (clearAllStorage pf s)).
Proof.
  destruct s as [sec asy tok wv].
  unfold clearAllStorage, secureStorage_clearAll, appStorage_clearAll, Promise_all2,
    SecureStore_deleteItemAsync, AsyncStorage_multiRemove, deleteUnless.
  cbn [secureStore asyncStorage authToken webViewRef_current].
  destruct (SecureStore_deleteItem_rejects pf AUTH_TOKEN_KEY);
    destruct (SecureStore_deleteItem_rejects pf REFRESH_TOKEN_KEY);
    destruct (AsyncStorage_multiRemove_rejects pf);
    (split; [reflexivity | split; [reflexivity | repeat constructor]]).
Qed.

(** X19. [clearAllStorage] never throws, whatever native call rejects. It
    removes nothing but the four keys of the service: every other entry of
    either store, and the token mirror, are as before. With no rejection the
    four keys are gone. The LOGOUT arm of the dispatcher, which makes the two
    [clearAll] calls one after the other instead, ends in the same stores. *)
Theorem clearAllStorage_behaviour (pf : Platform) (s : Shell) :
  let s1 := final (clearAllStorage pf s) in
  outcome (clearAllStorage pf s) = Some tt
  /\ authToken s1 = authToken s
  /\ (forall k, k <> AUTH_TOKEN_KEY -> k <> REFRESH_TOKEN_KEY ->
        secureStore s1 !! k = secureStore s !! k)
  /\ (forall k, k <> USER_DATA_KEY -> k <> PUSH_TOKEN_KEY ->
        asyncStorage s1 !! k = asyncStorage s !! k)
  /\ (SecureStore_deleteItem_rejects pf AUTH_TOKEN_KEY = false ->
      SecureStore_deleteItem_rejects pf REFRESH_TOKEN_KEY = false ->
      AsyncStorage_multiRemove_rejects pf = false ->
      secureStore s1 !! AUTH_TOKEN_KEY = None
      /\ secureStore s1 !! REFRESH_TOKEN_KEY = None
      /\ asyncStorage s1 !! USER_DATA_KEY = None
      /\ asyncStorage s1 !! PUSH_TOKEN_KEY = None)
  /\ final (case_LOGOUT pf s) = set_authToken None s1.
Proof.
  intros s1. subst s1.
  destruct (clearAllStorage_final pf s) as (Ho & Hf & _).
  destruct (case_LOGOUT_final pf s) as (_ & Hl & _).
  rewrite Hf, Hl. cbn [secureStore asyncStorage authToken set_authToken webViewRef_current].
  split; [exact Ho |]. split; [reflexivity |].
  unfold deleteUnless.
  split; [| split; [| split; [| reflexivity]]].
  - intros k Ha Hr.
    destruct (SecureStore_deleteItem_rejects pf REFRESH_TOKEN_KEY);
      destruct (SecureStore_deleteItem_rejects pf AUTH_TOKEN_KEY);
      rewrite ?lookup_delete_ne by congruence; reflexivity.
  - intros k Hu Hp.
    destruct (AsyncStorage_multiRemove_rejects pf);
      rewrite ?lookup_delete_ne by congruence; reflexivity.
  - intros -> -> ->.
    split; [rewrite lookup_delete_ne by discriminate; apply lookup_delete_eq |].
    split; [apply lookup_delete_eq |].
    split; [apply lookup_delete_eq |].
    rewrite lookup_delete_ne by discriminate. apply lookup_delete_eq.
Qed.

Lemma clearAllStorage_behaviour_witness :
  secureStore (final (clearAllStorage Reference.healthy exampleShell)) !! AUTH_TOKEN_KEY = None
  /\ secureStore (final (clearAllStorage Reference.healthy exampleShell)) !! REFRESH_TOKEN_KEY
     = None
  /\ asyncStorage (final (clearAllStorage Reference.healthy exampleShell)) !! USER_DATA_KEY
     = None
  /\ asyncStorage (final (clearAllStorage Reference.healthy exampleShell)) !! PUSH_TOKEN_KEY
     = None.
Proof.
  pose proof (clearAllStorage_behaviour Reference.healthy exampleShell) as H.
  cbv zeta in H. destruct H as (_ & _ & _ & _ & H & _).
  apply H; reflexivity.
Defined.

(** X20. User data. [getUserData] answers [null] when nothing is stored,
    when the stored text is empty (which is not parsed), and, after logging,
    when the stored text is not JSON; it never throws. After a [setUserData]
    that the store accepts, it returns the value saved, provided
    [JSON.parse] inverts [JSON.stringify] on that value. *)
Theorem user_data_round_trip
    (pf : Platform) (host : Host) (userData : JSON) (s : Shell) :
  AsyncStorage_getItem_rejects pf USER_DATA_KEY = false ->
  ((asyncStorage s !! USER_DATA_KEY = None \/ asyncStorage s !! USER_DATA_KEY = Some "") ->
   appStorage_getUserData pf s = (Some JNull, s, []))
  /\ (forall d, asyncStorage s !! USER_DATA_KEY = Some d -> d <> "" ->
        JSON_parse pf d = None ->
        appStorage_getUserData pf s
        = (Some JNull, s, [ConsoleError "Failed to get user data:"]))
  /\ (AsyncStorage_setItem_rejects host USER_DATA_KEY = false ->
      JSON_stringify host userData <> "" ->
      JSON_parse pf (JSON_stringify host userData) = Some userData ->
      outcome (appStorage_getUserData pf (final (appStorage_setUserData host userData s)))
      = Some userData).
Proof.
  intros Hget. split; [| split].
  - intros Hs. unfold appStorage_getUserData, AsyncStorage_getItem,
      mbind, M_bind, mret, M_ret, Eff.bind, Eff.ret, Eff.try_catch, Eff.get.
    rewrite Hget. destruct Hs as [-> | ->]; reflexivity.
  - intros d Hd Hne Hparse. unfold appStorage_getUserData, AsyncStorage_getItem,
      mbind, M_bind, mret, M_ret, Eff.bind, Eff.ret, Eff.try_catch, Eff.get.
    rewrite Hget, Hd. cbn [fst snd]. rewrite (truthy_nonempty d Hne), Hparse. reflexivity.
  - intros Hset Hne Hparse.
    unfold appStorage_setUserData, AsyncStorage_setItem. rewrite Hset.
    unfold Eff.try_catch, Eff.modify, final. cbn [fst snd].
    unfold appStorage_getUserData, AsyncStorage_getItem,
      mbind, M_bind, mret, M_ret, Eff.bind, Eff.ret, Eff.try_catch, Eff.get, outcome.
    rewrite Hget. cbn [fst snd asyncStorage set_asyncStorage].
    rewrite lookup_insert_eq. rewrite (truthy_nonempty _ Hne), Hparse. reflexivity.
Qed.

Lemma user_data_round_trip_witness :
  outcome (appStorage_getUserData Reference.healthy
             (final (appStorage_setUserData (ReferenceHost.phone "ios")
                       (JObject [("name", JString "Ann"); ("jobs", JArray [JNumber "3"; JNull])])
                       exampleShell)))
  = Some (JObject [("name", JString "Ann"); ("jobs", JArray [JNumber "3"; JNull])]).
Proof.
  pose proof (user_data_round_trip Reference.healthy (ReferenceHost.phone "ios")
                (JObject [("name", JString "Ann"); ("jobs", JArray [JNumber "3"; JNull])])
                exampleShell eq_refl) as H.
  destruct H as (_ & _ & H).
  apply H; [reflexivity | discriminate | reflexivity].
Defined.

(** ** src/services/notifications.ts: registration *)

Section RegistrationFacts.

Variable host : Host.

Ltac run_reg :=
  unfold requestAndStoreToken, appStorage_setPushToken, AsyncStorage_setItem,
    mbind, M_bind, mret, M_ret, Eff.bind, Eff.ret, Eff.try_catch, Eff.emit, Eff.get,
    Eff.throw, Eff.modify in *;
  cbn [fst snd] in *.

(** The [try] block with its [catch]: it ends with a token, stored, exactly
    when the permission is granted, a token is obtained and the store takes
    it; otherwise it ends with [null] and the state as it was. *)
Lemma requestAndStoreToken_caught (s : Shell) :
  exists l,
    Forall (fun e => isLogging e = true) l
    /\ Eff.try_catch (requestAndStoreToken host)
         (Eff.emit (ConsoleError "Error registering for push notifications:") ;; mret None) s
       = match Notifications_getExpoPushTokenAsync host with
         | Some token =>
             if permissionGranted host
                && negb (AsyncStorage_setItem_rejects host PUSH_TOKEN_KEY)
             then (Some (Some token), withPushToken token s, l)
             else (Some None, s, l)
         | None => (Some None, s, l)
         end.
Proof.
  unfold permissionGranted, withPushToken. run_reg.
  destruct (Notifications_getPermissionsAsync host) as [existing|].
  2:{ destruct (Notifications_getExpoPushTokenAsync host);
        eexists; (split; [| reflexivity]); repeat constructor. }
  destruct (granted existing) eqn:Hg.
  - rewrite Hg.
    destruct (Notifications_getExpoPushTokenAsync host) as [token|];
      [| eexists; (split; [| reflexivity]); repeat constructor].
    destruct (AsyncStorage_setItem_rejects host PUSH_TOKEN_KEY);
      eexists; (split; [| reflexivity]); repeat constructor.
  - destruct (Notifications_requestPermissionsAsync host) as [status|].
    2:{ destruct (Notifications_getExpoPushTokenAsync host);
          eexists; (split; [| reflexivity]); repeat constructor. }
    destruct (granted status) eqn:Hs.
    + destruct (Notifications_getExpoPushTokenAsync host) as [token|];
        [| eexists; (split; [| reflexivity]); repeat constructor].
      destruct (AsyncStorage_setItem_rejects host PUSH_TOKEN_KEY);
        eexists; (split; [| reflexivity]); repeat constructor.
    + destruct (Notifications_getExpoPushTokenAsync host);
        eexists; (split; [| reflexivity]); repeat constructor.
Qed.

(** The whole function, case by case. *)
Lemma registerForPushNotificationsAsync_run (s : Shell) :
  exists l,
    Forall (fun e => isLogging e = true) l
    /\ registerForPushNotificationsAsync host s
       = if Device_isDevice host then
           match Notifications_getExpoPushTokenAsync host with
           | Some token =>
               if permissionGranted host
                  && negb (AsyncStorage_setItem_rejects host PUSH_TOKEN_KEY)
               then (if channelFails host then None else Some (Some token),
                     withPushToken token s, l)
               else (Some None, s, l)
           | None => (Some None, s, l)
           end
         else (Some None, s, l).
Proof.
  unfold registerForPushNotificationsAsync, channelFails.
  destruct (Device_isDevice host).
  2:{ eexists. split; [| reflexivity]. repeat constructor. }
  destruct (requestAndStoreToken_caught s) as (l & Hl & E).
  unfold mbind, M_bind, Eff.bind in E |- *. rewrite E.
  destruct (Notifications_getExpoPushTokenAsync host) as [token|].
  2:{ exists l. split; [exact Hl |]. cbn. rewrite app_nil_r. reflexivity. }
  destruct (permissionGranted host && negb (AsyncStorage_setItem_rejects host PUSH_TOKEN_KEY)).
  2:{ exists l. split; [exact Hl |]. cbn. rewrite app_nil_r. reflexivity. }
  exists l. split; [exact Hl |].
  destruct (String.eqb (Platform_OS host) "android");
    [destruct (Notifications_setNotificationChannelAsync_rejects host) |];
    cbn; rewrite ?app_nil_r; reflexivity.
Qed.

End RegistrationFacts.

(** X21. [registerForPushNotificationsAsync] returns a token exactly when
    the app runs on a physical device, the permission is granted (already, or
    on request), a token is obtained, the general store takes it, and the
    Android channel set-up does not fail. A token that is returned has been
    stored under [push_token]; when [null] is returned nothing was stored. The
    function makes console calls only and touches nothing but that key. *)
Theorem push_registration_outcome (host : Host) (s : Shell) :
  let r := registerForPushNotificationsAsync host s in
  (forall token,
      outcome r = Some (Some token) <->
      Device_isDevice host = true
      /\ permissionGranted host = true
      /\ Notifications_getExpoPushTokenAsync host = Some token
      /\ AsyncStorage_setItem_rejects host PUSH_TOKEN_KEY = false
      /\ channelFails host = false)
  /\ (forall token, outcome r = Some (Some token) -> final r = withPushToken token s)
  /\ (outcome r = Some None -> final r = s)
  /\ Forall (fun e => isLogging e = true) (effects r).
Proof.
  cbv zeta. destruct (registerForPushNotificationsAsync_run host s) as (l & Hl & ->).
  destruct (Device_isDevice host).
  2:{ unfold outcome, final, effects. cbn [fst snd].
      repeat split; try discriminate; try assumption.
      intros (H & _). discriminate H. }
  destruct (Notifications_getExpoPushTokenAsync host) as [tok|].
  2:{ unfold outcome, final, effects. cbn [fst snd].
      repeat split; try discriminate; try assumption.
      intros (_ & _ & H & _). discriminate H. }
  destruct (permissionGranted host);
    destruct (AsyncStorage_setItem_rejects host PUSH_TOKEN_KEY);
    destruct (channelFails host);
    unfold outcome, final, effects; cbn [fst snd andb negb];
    repeat split; try discriminate; try assumption; try congruence;
    try (intros (_ & H1 & _ & H2 & H3); discriminate).
  all: try (intros (_ & _ & H & _); congruence).
Qed.

Lemma push_registration_outcome_witness :
  final (registerForPushNotificationsAsync (ReferenceHost.phone "ios") exampleShell)
  = withPushToken "ExponentPushToken[new]" exampleShell.
Proof.
  pose proof (push_registration_outcome (ReferenceHost.phone "ios") exampleShell) as H.
  cbv zeta in H. destruct H as (_ & H & _).
  apply H. reflexivity.
Defined.

(** X22. The one way [registerForPushNotificationsAsync] can reject: the
    Android notification channel is configured after the [try] block, so on
    Android a failing channel set-up makes the call reject although the push
    token has by then been obtained and stored. On any other platform, and
    whenever the channel set-up succeeds, the call never rejects. *)
Theorem push_registration_rejects_only_on_android_channel (host : Host) (s : Shell) :
  let r := registerForPushNotificationsAsync host s in
  (outcome r = None ->
   Platform_OS host = "android"
   /\ Notifications_setNotificationChannelAsync_rejects host = true
   /\ exists token, Notifications_getExpoPushTokenAsync host = Some token
                    /\ final r = withPushToken token s)
  /\ (Platform_OS host <> "android" -> outcome r <> None)
  /\ (Notifications_setNotificationChannelAsync_rejects host = false -> outcome r <> None).
Proof.
  cbv zeta. destruct (registerForPushNotificationsAsync_run host s) as (l & Hl & ->).
  unfold channelFails.
  destruct (Device_isDevice host);
    [| unfold outcome; cbn [fst snd]; repeat split; discriminate].
  destruct (Notifications_getExpoPushTokenAsync host) as [tok|];
    [| unfold outcome; cbn [fst snd]; repeat split; discriminate].
  destruct (permissionGranted host && negb (AsyncStorage_setItem_rejects host PUSH_TOKEN_KEY));
    [| unfold outcome; cbn [fst snd]; repeat split; discriminate].
  destruct (String.eqb_spec (Platform_OS host) "android") as [Hos | Hos];
    destruct (Notifications_setNotificationChannelAsync_rejects host);
    unfold outcome, final; cbn [fst snd andb];
    repeat split; try discriminate; try congruence; eauto.
Qed.

Lemma push_registration_rejects_only_on_android_channel_witness :
  outcome (registerForPushNotificationsAsync (ReferenceHost.phone "ios") exampleShell)
  <> None.
Proof.
  pose proof (push_registration_rejects_only_on_android_channel
                (ReferenceHost.phone "ios") exampleShell) as H.
  cbv zeta in H. destruct H as (_ & H & _).
  apply H. discriminate.
Defined.

(** ** App.tsx: start-up *)

Lemma bind_returns {A B} (m : M A) (k : A -> M B) (s s1 : Shell) (a : A) (t1 : list Effect) :
  m s = (Some a, s1, t1) ->
  Eff.bind m k s = (outcome (k a s1), final (k a s1), (t1 ++ effects (k a s1))%list).
Proof.
  intros E. unfold Eff.bind, outcome, final, effects. rewrite E.
  destruct (k a s1) as [[r s2] t2]. reflexivity.
Qed.

Lemma bind_throws {A B} (m : M A) (k : A -> M B) (s s1 : Shell) (t1 : list Effect) :
  m s = (None, s1, t1) -> Eff.bind m k s = (None, s1, t1).
Proof. intros E. unfold Eff.bind. rewrite E. reflexivity. Qed.

Section StartupFacts.

Variable pf : Platform.
Variable cfg : Config.
Variable host : Host.

Lemma getAuthToken_usable (s : Shell) :
  exists o l,
    secureStorage_getAuthToken pf s = (Some o, s, l)
    /\ Forall (fun e => isLogging e = true) l
    /\ match o with
       | Some t => if JSString.truthy t then Some t else None
       | None => None
       end = usableAuthToken pf s.
Proof.
  unfold secureStorage_getAuthToken, SecureStore_getItemAsync, usableAuthToken,
    Eff.try_catch.
  destruct (SecureStore_getItem_rejects pf AUTH_TOKEN_KEY).
  - do 2 eexists. split; [reflexivity |]. split; [repeat constructor | reflexivity].
  - do 2 eexists. split; [reflexivity |]. split; [constructor | reflexivity].
Qed.

Lemma usableAuthToken_restored (s : Shell) :
  usableAuthToken pf (restored pf s) = usableAuthToken pf s.
Proof.
  unfold restored. destruct (usableAuthToken pf s) eqn:E; [| exact E].
  unfold usableAuthToken in *. exact E.
Qed.

Lemma register_frame (s : Shell) :
  usableAuthToken pf (final (registerForPushNotificationsAsync host s)) = usableAuthToken pf s
  /\ secureStore (final (registerForPushNotificationsAsync host s)) = secureStore s
  /\ authToken (final (registerForPushNotificationsAsync host s)) = authToken s
  /\ webViewRef_current (final (registerForPushNotificationsAsync host s))
     = webViewRef_current s
  /\ Forall (fun e => isLogging e = true) (effects (registerForPushNotificationsAsync host s)).
Proof.
  destruct (registerForPushNotificationsAsync_run host s) as (l & Hl & ->).
  destruct (Device_isDevice host); [| repeat split; exact Hl].
  destruct (Notifications_getExpoPushTokenAsync host); [| repeat split; exact Hl].
  destruct (permissionGranted host && negb (AsyncStorage_setItem_rejects host PUSH_TOKEN_KEY));
    repeat split; exact Hl.
Qed.

Lemma mirrorStoredToken_run (o : option string) (s : Shell) :
  match o with
  | Some t => if JSString.truthy t then Some t else None
  | None => None
  end = usableAuthToken pf s ->
  mirrorStoredToken o s = (Some tt, restored pf s, []).
Proof.
  intros Hu. unfold mirrorStoredToken, restored. rewrite <- Hu.
  destruct o as [t|]; [| reflexivity]. destruct (JSString.truthy t); reflexivity.
Qed.

Lemma openedFromNotification_run (s : Shell) :
  exists o, openedFromNotification cfg host s = (o, s, []).
Proof.
  unfold openedFromNotification.
  destruct (Notifications_getLastNotificationResponseAsync host) as [[data|]|];
    try (eexists; reflexivity).
  destruct (JS.optChain (Some data) "url") as [u|]; [| eexists; reflexivity].
  destruct (JS.truthy u); [| eexists; reflexivity].
  destruct (JS.toStringThrows u); eexists; reflexivity.
Qed.

(** The push token is sent only when both tokens are there, with the stored
    auth token as bearer. *)
Lemma sendIfBoth_run (pushToken o : option string) (s0 s : Shell) :
  match o with
  | Some t => if JSString.truthy t then Some t else None
  | None => None
  end = usableAuthToken pf s0 ->
  usableAuthToken pf s = usableAuthToken pf s0 ->
  exists l,
    sendIfBoth pf cfg pushToken o s = (Some tt, s, l)
    /\ (forall e, In e l -> isLogging e = false ->
          exists t p, usableAuthToken pf s0 = Some t /\ pushToken = Some p
                      /\ e = Fetch (pushTokenEndpoint cfg) t p)
    /\ (forall t p, usableAuthToken pf s0 = Some t -> pushToken = Some p -> p <> "" ->
          In (Fetch (pushTokenEndpoint cfg) t p) l).
Proof.
  intros Hu Hs. unfold sendIfBoth.
  destruct pushToken as [p|];
    [| exists []; split; [reflexivity |]; split; [intros e [] | discriminate]].
  destruct (JSString.truthy p) eqn:Hp.
  2:{ exists []. split; [reflexivity |]. split; [intros e [] |].
      intros t p' _ [= <-] Hne. rewrite (truthy_nonempty p Hne) in Hp. discriminate. }
  destruct (usableAuthToken pf s0) as [t|] eqn:Hu0.
  - assert (Hst : match o with Some t => JSString.truthy t | None => false end = true).
    { destruct o as [t'|]; [| discriminate]. destruct (JSString.truthy t'); [reflexivity | discriminate]. }
    rewrite Hst. cbn [andb].
    destruct (sendPushTokenToServer_with_token pf cfg p t s Hs) as (l & E & Hl).
    unfold mbind, M_bind, Eff.bind. rewrite E.
    eexists. split; [reflexivity |]. cbn [app]. rewrite app_nil_r. split.
    + intros e [<- | Hin] Hnl; [eauto |].
      exfalso. rewrite Forall_forall in Hl. rewrite (Hl e) in Hnl; [discriminate |].
      apply list_elem_of_In, Hin.
    + intros t' p' [= <-] [= <-] _. left. reflexivity.
  - assert (Hst : match o with Some t => JSString.truthy t | None => false end = false).
    { destruct o as [t'|]; [| reflexivity]. destruct (JSString.truthy t'); [discriminate | reflexivity]. }
    rewrite Hst. cbn [andb].
    exists []. split; [reflexivity |]. split; [intros e [] | discriminate].
Qed.

Lemma initializeApp_run (s : Shell) :
  exists o l,
    initializeApp pf cfg host s
    = (Some o, final (registerForPushNotificationsAsync host (restored pf s)), l)
    /\ (forall e, In e l -> isLogging e = false ->
          exists t p,
            usableAuthToken pf s = Some t
            /\ outcome (registerForPushNotificationsAsync host (restored pf s)) = Some (Some p)
            /\ e = Fetch (pushTokenEndpoint cfg) t p)
    /\ (forall t p,
          usableAuthToken pf s = Some t ->
          outcome (registerForPushNotificationsAsync host (restored pf s)) = Some (Some p) ->
          p <> "" ->
          In (Fetch (pushTokenEndpoint cfg) t p) l).
Proof.
  destruct (getAuthToken_usable s) as (o1 & l1 & E1 & Hl1 & Hu).
  destruct (register_frame (restored pf s)) as (Hu2 & _ & _ & _ & Hl2).
  rewrite usableAuthToken_restored in Hu2.
  unfold initializeApp, mbind, M_bind.
  destruct (registerForPushNotificationsAsync host (restored pf s)) as [[o2 s2] l2] eqn:E2.
  unfold final, outcome, effects in Hu2, Hl2 |- *. cbn [fst snd] in Hu2, Hl2 |- *.
  destruct o2 as [pushToken|].
  - destruct (sendIfBoth_run pushToken o1 s s2 Hu Hu2) as (l3 & E3 & Hin3 & Hout3).
    destruct (openedFromNotification_run s2) as (o4 & E4).
    unfold Eff.try_catch.
    rewrite (bind_returns _ _ s s o1 l1 E1).
    rewrite (bind_returns _ _ s _ tt [] (mirrorStoredToken_run o1 s Hu)).
    rewrite (bind_returns _ _ _ s2 pushToken l2 E2).
    rewrite (bind_returns _ _ s2 s2 tt l3 E3).
    rewrite E4. unfold outcome, final, effects. cbn [fst snd app].
    rewrite !app_nil_r.
    assert (Heff : forall e, In e (l1 ++ l2 ++ l3)%list -> isLogging e = false -> In e l3).
    { intros e Hin Hnl. apply in_app_or in Hin. destruct Hin as [Hin | Hin];
        [exfalso; exact (logging_not_in _ e Hl1 Hin Hnl) |].
      apply in_app_or in Hin. destruct Hin as [Hin | Hin];
        [exfalso; exact (logging_not_in _ e Hl2 Hin Hnl) | exact Hin]. }
    destruct o4 as [o4|].
    + do 2 eexists. split; [reflexivity |]. split.
      * intros e Hin Hnl. destruct (Hin3 e (Heff e Hin Hnl) Hnl) as (t & p & Ht & -> & ->).
        eauto.
      * intros t p Ht [= ->] Hne. apply in_or_app. right. apply in_or_app. right.
        apply (Hout3 t p Ht eq_refl Hne).
    + do 2 eexists. split; [reflexivity |]. split.
      * intros e Hin Hnl. apply in_app_or in Hin. destruct Hin as [Hin | [<- | []]];
          [| discriminate Hnl].
        destruct (Hin3 e (Heff e Hin Hnl) Hnl) as (t & p & Ht & -> & ->). eauto.
      * intros t p Ht [= ->] Hne. apply in_or_app. left.
        apply in_or_app. right. apply in_or_app. right.
        apply (Hout3 t p Ht eq_refl Hne).
  - unfold Eff.try_catch.
    rewrite (bind_returns _ _ s s o1 l1 E1).
    rewrite (bind_returns _ _ s _ tt [] (mirrorStoredToken_run o1 s Hu)).
    rewrite (bind_throws _ _ _ s2 l2 E2).
    unfold outcome, final, effects. cbn [fst snd app].
    do 2 eexists. split; [reflexivity |]. split.
    + intros e Hin Hnl. exfalso.
      apply in_app_or in Hin. destruct Hin as [Hin | Hin].
      * apply in_app_or in Hin. destruct Hin as [Hin | Hin];
          [exact (logging_not_in _ e Hl1 Hin Hnl) | exact (logging_not_in _ e Hl2 Hin Hnl)].
      * destruct Hin as [<- | []]. discriminate Hnl.
    + intros t p _ Habs. discriminate Habs.
Qed.

End StartupFacts.

Lemma usableAuthToken_nonempty (pf : Platform) (s : Shell) (t : string) :
  usableAuthToken pf s = Some t -> t <> "".
Proof.
  unfold usableAuthToken.
  destruct (SecureStore_getItem_rejects pf AUTH_TOKEN_KEY); [discriminate |].
  destruct (secureStore s !! AUTH_TOKEN_KEY) as [t'|]; [| discriminate].
  destruct (JSString.truthy t') eqn:Ht; [| discriminate].
  intros [= <-] ->. discriminate Ht.
Qed.

Lemma register_token_source (host : Host) (s : Shell) (p : string) :
  outcome (registerForPushNotificationsAsync host s) = Some (Some p) ->
  Notifications_getExpoPushTokenAsync host = Some p.
Proof.
  destruct (registerForPushNotificationsAsync_run host s) as (l & _ & ->).
  destruct (Device_isDevice host); [| discriminate].
  destruct (Notifications_getExpoPushTokenAsync host) as [tok|]; [| discriminate].
  destruct (permissionGranted host && negb (AsyncStorage_setItem_rejects host PUSH_TOKEN_KEY));
    [| discriminate].
  destruct (channelFails host); [discriminate |].
  unfold outcome. cbn [fst]. congruence.
Qed.

Lemma register_succeeds (host : Host) (s : Shell) (p : string) :
  Device_isDevice host = true ->
  permissionGranted host = true ->
  Notifications_getExpoPushTokenAsync host = Some p ->
  AsyncStorage_setItem_rejects host PUSH_TOKEN_KEY = false ->
  channelFails host = false ->
  outcome (registerForPushNotificationsAsync host s) = Some (Some p).
Proof.
  intros Hd Hg Ht Hs Hc.
  destruct (registerForPushNotificationsAsync_run host s) as (l & _ & ->).
  rewrite Hd, Ht, Hg, Hs, Hc. reflexivity.
Qed.

(** X23. The session survives a restart. [initializeApp] never throws and
    never writes the secure store. When the secure store yields a non-empty
    auth token, that token becomes the mirror, whatever happens to the push
    registration and the notification check that follow, so that the next
    load-end injects it into the page; when it yields none (nothing stored,
    an empty string, a rejected read) the mirror is left as it was. *)
Theorem session_restored_on_startup
    (pf : Platform) (cfg : Config) (host : Host) (s : Shell) :
  let r := initializeApp pf cfg host s in
  outcome r <> None
  /\ secureStore (final r) = secureStore s
  /\ authToken (final r)
     = match usableAuthToken pf s with
       | Some t => Some (JString t)
       | None => authToken s
       end
  /\ (forall t, usableAuthToken pf s = Some t -> webViewRef_current s = true ->
        effects (handleLoadEnd (final r)) = [InjectJavaScript (tokenScript (JString t))]).
Proof.
  cbv zeta. destruct (initializeApp_run pf cfg host s) as (o & l & E & _).
  destruct (register_frame pf host (restored pf s)) as (_ & Hsec & Hauth & Hweb & _).
  set (sf := final (registerForPushNotificationsAsync host (restored pf s))) in *.
  rewrite E. unfold outcome, final. cbn [fst snd].
  assert (Hmirror : authToken sf
                    = match usableAuthToken pf s with
                      | Some t => Some (JString t)
                      | None => authToken s
                      end).
  { rewrite Hauth. unfold restored. destruct (usableAuthToken pf s); reflexivity. }
  split; [discriminate |]. split.
  { rewrite Hsec. unfold restored. destruct (usableAuthToken pf s); reflexivity. }
  split; [exact Hmirror |].
  intros t Ht Hw. rewrite Ht in Hmirror.
  rewrite (handleLoadEnd_injects _ t Hmirror (usableAuthToken_nonempty pf s t Ht)).
  - reflexivity.
  - rewrite Hweb. unfold restored. rewrite Ht. exact Hw.
Qed.

Lemma session_restored_on_startup_witness :
  effects (handleLoadEnd
             (final (initializeApp Reference.healthy (config false)
                       (ReferenceHost.phone "ios") exampleShell)))
  = [InjectJavaScript (tokenScript (JString "tok"))].
Proof.
  pose proof (session_restored_on_startup Reference.healthy (config false)
                (ReferenceHost.phone "ios") exampleShell) as H.
  cbv zeta in H. destruct H as (_ & _ & _ & H).
  apply H; reflexivity.
Defined.

(** X24. Push registration at start-up needs both tokens. The only request
    [initializeApp] can send is the registration of the push token just
    obtained, with the stored auth token as bearer; with no usable stored
    auth token it makes console calls only. When a non-empty auth token is
    stored and the registration returns a non-empty push token, the request
    is sent. *)
Theorem startup_registers_push_only_with_session
    (pf : Platform) (cfg : Config) (host : Host) (s : Shell) :
  let r := initializeApp pf cfg host s in
  (forall e, In e (effects r) -> isLogging e = false ->
     exists t p, usableAuthToken pf s = Some t
                 /\ Notifications_getExpoPushTokenAsync host = Some p
                 /\ e = Fetch (pushTokenEndpoint cfg) t p)
  /\ (usableAuthToken pf s = None -> Forall (fun e => isLogging e = true) (effects r))
  /\ (forall t p,
        usableAuthToken pf s = Some t ->
        Device_isDevice host = true ->
        permissionGranted host = true ->
        Notifications_getExpoPushTokenAsync host = Some p ->
        p <> "" ->
        AsyncStorage_setItem_rejects host PUSH_TOKEN_KEY = false ->
        channelFails host = false ->
        In (Fetch (pushTokenEndpoint cfg) t p) (effects r)).
Proof.
  cbv zeta. destruct (initializeApp_run pf cfg host s) as (o & l & -> & Hin & Hout).
  unfold effects. cbn [snd].
  assert (Hprov : forall e, In e l -> isLogging e = false ->
            exists t p, usableAuthToken pf s = Some t
                        /\ Notifications_getExpoPushTokenAsync host = Some p
                        /\ e = Fetch (pushTokenEndpoint cfg) t p).
  { intros e He Hnl. destruct (Hin e He Hnl) as (t & p & Ht & Hp & ->).
    exists t, p. split; [exact Ht |]. split; [| reflexivity].
    exact (register_token_source host _ p Hp). }
  split; [exact Hprov |]. split.
  - intros Hnone. apply Forall_forall. intros e He.
    destruct (isLogging e) eqn:Hl; [reflexivity |].
    apply list_elem_of_In in He.
    destruct (Hprov e He Hl) as (t & _ & Ht & _). congruence.
  - intros t p Ht Hd Hg Hp Hne Hs Hc.
    apply (Hout t p Ht); [| exact Hne].
    apply register_succeeds; assumption.
Qed.

Lemma startup_registers_push_only_with_session_witness :
  In (Fetch "https://api.trustbuild.uk/users/me/push-token" "tok" "ExponentPushToken[new]")
     (effects (initializeApp Reference.healthy (config false)
                 (ReferenceHost.phone "android") exampleShell)).
Proof.
  pose proof (startup_registers_push_only_with_session Reference.healthy (config false)
                (ReferenceHost.phone "android") exampleShell) as H.
  cbv zeta in H. destruct H as (_ & _ & H).
  apply (H "tok" "ExponentPushToken[new]"); try reflexivity. discriminate.
Defined.

(** ** App.tsx: deep links *)

Lemma stripPrefix_startsWith (p s : string) :
  JSLit.stripPrefix p s = None <-> startsWith s p = false.
Proof.
  revert s. induction p as [|c p IH]; intros s.
  - cbn. split; discriminate.
  - destruct s as [|d s]; [cbn; tauto |]. cbn [JSLit.stripPrefix startsWith].
    destruct (Ascii.eqb_spec c d) as [->|Hne].
    + rewrite Ascii.eqb_refl. apply IH.
    + destruct (Ascii.eqb_spec d c) as [->|]; [contradiction | tauto].
Qed.

Lemma String_replace_unfold (s pattern replacement : string) :
  String_replace s pattern replacement =
  match JSLit.stripPrefix pattern s with
  | Some rest => replacement +:+ rest
  | None =>
      match s with
      | EmptyString => EmptyString
      | String c r => String c (String_replace r pattern replacement)
      end
  end.
Proof. destruct s; reflexivity. Qed.

Lemma String_includes_unfold (s pattern : string) :
  String_includes s pattern =
  if startsWith s pattern then true
  else match s with
       | EmptyString => false
       | String _ r => String_includes r pattern
       end.
Proof. destruct s; reflexivity. Qed.

(** A pattern that does not occur leaves the string as it is. *)
Lemma String_replace_absent (s pattern replacement : string) :
  String_includes s pattern = false -> String_replace s pattern replacement = s.
Proof.
  induction s as [|c s IH]; rewrite String_includes_unfold, String_replace_unfold;
    destruct (startsWith _ pattern) eqn:Hs; try discriminate;
    apply stripPrefix_startsWith in Hs; rewrite Hs.
  - reflexivity.
  - intros H. rewrite (IH H). reflexivity.
Qed.

Lemma String_includes_spec (s pattern : string) :
  String_includes s pattern = true <-> exists a b, s = a +:+ pattern +:+ b.
Proof.
  induction s as [|c s IH]; rewrite String_includes_unfold.
  - destruct (startsWith "" pattern) eqn:Hs.
    + split; [intros _ | reflexivity].
      apply startsWith_spec in Hs. destruct Hs as [r Hr]. exists "", r. exact Hr.
    + split; [discriminate |]. intros (a & b & H).
      destruct a; [| rewrite append_cons in H; discriminate].
      rewrite append_nil in H.
      assert (startsWith "" pattern = true) by (apply startsWith_spec; eauto).
      congruence.
  - destruct (startsWith (String c s) pattern) eqn:Hs.
    + split; [intros _ | reflexivity].
      apply startsWith_spec in Hs. destruct Hs as [r Hr]. exists "", r. exact Hr.
    + rewrite IH. split.
      * intros (a & b & ->). exists (String c a), b. reflexivity.
      * intros (a & b & H). destruct a as [|d a].
        -- rewrite append_nil in H.
           assert (startsWith (String c s) pattern = true) by (apply startsWith_spec; eauto).
           congruence.
        -- rewrite append_cons in H. injection H as _ H. eauto.
Qed.

(** X25. A deep link into the app. For a link [scheme://path] in the
    app's own scheme, with the WebView mounted, [handleDeepLink] injects one
    script, which sends the page to [webAppUrl/path]: when neither the web
    app URL nor the path contains a quote, a backslash or a line break, the
    script assigns exactly that address to [window.location.href]. The shell
    state is not changed. *)
Theorem deep_link_opens_path (cfg : Config) (path : string) (s : Shell) :
  webViewRef_current s = true ->
  JSLit.plain (webAppUrl cfg) = true ->
  JSLit.plain path = true ->
  let url := scheme cfg +:+ "://" +:+ path in
  deepLinkTarget cfg url = webAppUrl cfg +:+ "/" +:+ path
  /\ handleDeepLink cfg url s
     = (Some tt, s, [InjectJavaScript (navigateScript (JString (deepLinkTarget cfg url)))])
  /\ JSLit.readHrefAssignment (navigateScript (JString (deepLinkTarget cfg url)))
     = Some (webAppUrl cfg +:+ "/" +:+ path).
Proof.
  intros Hw Hpa Hpp url.
  assert (Ht : deepLinkTarget cfg url = webAppUrl cfg +:+ "/" +:+ path).
  { unfold deepLinkTarget, url. rewrite String_replace_unfold.
    rewrite <- (append_assoc (scheme cfg) "://" path), stripPrefix_app. reflexivity. }
  assert (Hne : url <> "").
  { unfold url. intros H.
    destruct (scheme cfg); rewrite ?append_cons, ?append_nil in H; discriminate H. }
  split; [exact Ht |]. split.
  - unfold handleDeepLink, mbind, M_bind, Eff.bind, Eff.get.
    rewrite Hw, (truthy_nonempty url Hne). reflexivity.
  - rewrite Ht. apply navigateScript_reads_plain.
    assert (Happ : forall a b, JSLit.plain a = true -> JSLit.plain b = true ->
                               JSLit.plain (a +:+ b) = true).
    { intros a b Ha Hb. induction a as [|c a IH]; [exact Hb |].
      rewrite append_cons. cbn [JSLit.plain] in Ha |- *.
      apply andb_true_iff in Ha. destruct Ha as [Hc Ha].
      rewrite Hc, (IH Ha). reflexivity. }
    apply Happ; [exact Hpa |]. apply (Happ "/" path); [reflexivity | exact Hpp].
Qed.

Lemma deep_link_opens_path_witness :
  JSLit.readHrefAssignment
    (navigateScript (JString (deepLinkTarget (config false) "trustbuild://jobs/42")))
  = Some "https://trustbuild.uk/jobs/42".
Proof.
  apply (deep_link_opens_path (config false) "jobs/42" exampleShell); reflexivity.
Defined.

(** X26. A link that is not in the app's scheme. The scheme prefix is
    removed by a plain first-occurrence replacement, so a url in which
    [scheme://] occurs nowhere (an https link, say) is appended whole to the
    web app URL; and when the WebView is not mounted, or the url is empty,
    [handleDeepLink] does nothing. *)
Theorem deep_link_foreign_url (cfg : Config) (url : string) (s : Shell) :
  ((forall a b, url <> a +:+ (scheme cfg +:+ "://") +:+ b) ->
   deepLinkTarget cfg url = webAppUrl cfg +:+ "/" +:+ url)
  /\ (webViewRef_current s = false \/ url = "" ->
      handleDeepLink cfg url s = (Some tt, s, [])).
Proof.
  split.
  - intros Hn. unfold deepLinkTarget.
    rewrite String_replace_absent; [reflexivity |].
    destruct (String_includes url (scheme cfg +:+ "://")) eqn:E; [| reflexivity].
    apply String_includes_spec in E. destruct E as (a & b & E).
    exfalso. exact (Hn a b E).
  - intros H. unfold handleDeepLink, mbind, M_bind, Eff.bind, Eff.get.
    destruct H as [-> | ->]; [rewrite andb_false_r |]; reflexivity.
Qed.

Lemma deep_link_foreign_url_witness :
  deepLinkTarget (config false) "https://trustbuild.uk/jobs/42"
  = "https://trustbuild.uk/https://trustbuild.uk/jobs/42".
Proof.
  pose proof (deep_link_foreign_url (config false) "https://trustbuild.uk/jobs/42"
                exampleShell) as [H _].
  apply H. intros a b E.
  assert (Hi : String_includes "https://trustbuild.uk/jobs/42" "trustbuild://" = true).
  { apply String_includes_spec. exists a, b. exact E. }
  discriminate Hi.
Defined.

(** ** Network status and what is rendered *)

(** X27. Offline means an explicit [false]. After a NetInfo report the
    app counts as offline exactly when the report says [isConnected: false]
    or [isInternetReachable: false]; an unknown ([null]) connection or
    reachability counts as online, as does the state before the first report.
    While the app counts as offline the error screen is never rendered,
    whatever the load state. *)
Theorem offline_means_explicit_false (state : NetInfoState) (ui : AppUI) (ns : NetworkStatus) :
  (isOffline (networkStatusOf state) = true <->
   ni_isConnected state = Some false \/ ni_isInternetReachable state = Some false)
  /\ isOffline initialNetworkStatus = false
  /\ (isOffline ns = true -> exists overlay, render ui ns = WebViewShown overlay).
Proof.
  split; [| split; [reflexivity |]].
  - unfold isOffline, networkStatusOf. cbn [isConnected isInternetReachable].
    destruct (ni_isConnected state) as [[|]|];
      destruct (ni_isInternetReachable state) as [[|]|]; cbn;
      split; try tauto; try discriminate;
      intros [H | H]; discriminate H.
  - intros Ho. unfold render. rewrite Ho, andb_false_r. eexists. reflexivity.
Qed.

Lemma offline_means_explicit_false_witness :
  exists overlay,
    render (uiRun (initialUI (config false)) [LoadError (Some "net::ERR_FAILED")])
           (networkStatusOf {| ni_isConnected := Some false;
                               ni_isInternetReachable := None;
                               ni_type := "none" |})
    = WebViewShown overlay.
Proof.
  pose proof (offline_means_explicit_false
                {| ni_isConnected := Some false; ni_isInternetReachable := None;
                   ni_type := "none" |}
                (uiRun (initialUI (config false)) [LoadError (Some "net::ERR_FAILED")])
                (networkStatusOf {| ni_isConnected := Some false;
                                    ni_isInternetReachable := None;
                                    ni_type := "none" |})) as (_ & _ & H).
  apply H. reflexivity.
Defined.

Lemma messageAccounted_more (seen more : list UIEvent) (ui : AppUI) :
  messageAccounted seen ui -> messageAccounted (seen ++ more) ui.
Proof.
  intros Hinv H. destruct (Hinv H) as [Hne [Hd | (e & Hin & He)]].
  - split; [exact Hne | left; exact Hd].
  - split; [exact Hne |]. right. exists e. split; [| exact He].
    apply in_or_app. left. exact Hin.
Qed.

Lemma messageAccounted_handleError (seen : list UIEvent) (e : UIEvent) (ui : AppUI) :
  messageAccounted (seen ++ [e]) (handleError (reportedDescription e) ui).
Proof.
  intros _. unfold handleError. cbn [errorMessage].
  destruct (reportedDescription e) as [d|] eqn:Hd;
    [| split; [discriminate | left; reflexivity]].
  destruct (JSString.truthy d) eqn:Ht; [| split; [discriminate | left; reflexivity]].
  split.
  - intros ->. discriminate Ht.
  - right. exists e. split; [| exact Hd]. apply in_or_app. right. left. reflexivity.
Qed.

Lemma messageAccounted_step (seen : list UIEvent) (e : UIEvent) (ui : AppUI) :
  messageAccounted seen ui -> messageAccounted (seen ++ [e]) (uiStep ui e).
Proof.
  intros Hinv.
  pose proof (messageAccounted_handleError seen e ui) as Hhe.
  pose proof (messageAccounted_more seen [e] ui Hinv) as Hkeep.
  destruct e as [| d | code d | | back url]; cbn [uiStep].
  - intros H. discriminate H.
  - exact Hhe.
  - cbn [reportedDescription] in Hhe. destruct (400 <=? code)%Z; [exact Hhe | exact Hkeep].
  - intros H. discriminate H.
  - exact Hkeep.
Qed.

Lemma messageAccounted_run (events seen : list UIEvent) (ui : AppUI) :
  messageAccounted seen ui ->
  messageAccounted (seen ++ events) (uiRun ui events).
Proof.
  revert seen ui. induction events as [|e events IH]; intros seen ui Hinv.
  - rewrite app_nil_r. exact Hinv.
  - unfold uiRun. cbn [fold_left].
    change (seen ++ e :: events)%list with (seen ++ [e] ++ events)%list.
    rewrite app_assoc. apply (IH (seen ++ [e])%list).
    apply messageAccounted_step, Hinv.
Qed.

(** X28. The error screen always has something to say. Starting from the
    initial state, after any sequence of load, error, HTTP-error, retry and
    navigation events: when the error screen is rendered the app is not
    offline, and the message shown is the current error message, which is not
    empty: it is either ['Failed to load the app'] or a non-empty description
    that one of the events reported (an HTTP error reports only from status
    400 up). The longer connection message of the render is shown only if an
    event reported that very text. *)
Theorem error_screen_message
    (cfg : Config) (events : list UIEvent) (ns : NetworkStatus) (message : string) :
  render (uiRun (initialUI cfg) events) ns = ErrorScreenShown message ->
  isOffline ns = false
  /\ message = errorMessage (uiRun (initialUI cfg) events)
  /\ message <> ""
  /\ (message = "Failed to load the app"
      \/ exists e, In e events /\ reportedDescription e = Some message).
Proof.
  pose proof (messageAccounted_run events [] (initialUI cfg)) as Hinv.
  cbn [app] in Hinv.
  unfold render.
  destruct (hasError (uiRun (initialUI cfg) events)) eqn:He; [| discriminate].
  destruct (isOffline ns); [discriminate |]. cbn [andb negb].
  destruct Hinv as [Hne Hsrc]; [intros H; discriminate H | exact He |].
  rewrite (truthy_nonempty _ Hne). intros [= <-].
  repeat split; assumption.
Qed.

Lemma error_screen_message_witness :
  "net::ERR_FAILED" <> ""
  /\ errorMessage (uiRun (initialUI (config false))
                     [LoadEnd; HttpError 503 (Some "net::ERR_FAILED")])
     = "net::ERR_FAILED".
Proof.
  destruct (error_screen_message (config false)
              [LoadEnd; HttpError 503 (Some "net::ERR_FAILED")]
              initialNetworkStatus "net::ERR_FAILED" eq_refl)
    as (_ & Hm & Hne & _).
  split; [exact Hne | symmetry; exact Hm].
Defined.
